(** * The build-configuration resolver of python-gssapi ([setup.py])

    A shallow embedding of [setup.py]: the choice of the source format, the
    [Config] classes with the partition of the linker tokens and the
    support-detection gate, the choice of the platform variant, and the
    selection of the extension modules; followed by the properties proved
    about them.

    Python strings are [string]s (sequences of characters, each standing
    for the code point of its number, below 256), the
    process environment [os.environ] is a [gmap string string], lists are
    lists, [None] is [None].  Code that raises or that mutates module state
    ([os.environ], [ENUM_EXTS], the standard output) lives in the monad [Py]
    below. *)

From Stdlib Require Import ZArith List Ascii String DecimalString.
From stdpp Require Import gmap strings list fin_maps.

Local Open Scope string_scope.
Local Open Scope list_scope.

(** ** Python string operations used by [setup.py] *)

Module PyStr.

(** [s.startswith(p)] *)
Definition startswith (p s : string) : bool := String.prefix p s.

(** [s[n:]] for a non-negative [n] *)
Fixpoint slice_from (n : nat) (s : string) : string :=
  match n, s with
  | O, _ => s
  | S n', EmptyString => EmptyString
  | S n', String _ s' => slice_from n' s'
  end.

(** [s.replace(a, b)] for one-character [a] and [b] *)
Fixpoint replace_char (a b : ascii) (s : string) : string :=
  match s with
  | EmptyString => EmptyString
  | String c s' =>
      String (if Ascii.eqb c a then b else c) (replace_char a b s')
  end.

(** [s.split(sep)] for a one-character separator: never the empty list,
    [''.split(',')] is [['']]. *)
Fixpoint split_go (sep : ascii) (cur : string) (s : string) : list string :=
  match s with
  | EmptyString => [String.rev cur]
  | String c s' =>
      if Ascii.eqb c sep then String.rev cur :: split_go sep EmptyString s'
      else split_go sep (String c cur) s'
  end.

Definition split (sep : ascii) (s : string) : list string :=
  split_go sep EmptyString s.

(** [s.lower()] on ASCII letters; other characters are left as they are. *)
Definition lower_char (c : ascii) : ascii :=
  let n := nat_of_ascii c in
  if (65 <=? n)%nat && (n <=? 90)%nat then ascii_of_nat (n + 32) else c.

Fixpoint lower (s : string) : string :=
  match s with
  | EmptyString => EmptyString
  | String c s' => String (lower_char c) (lower s')
  end.

(** [fmt % arg] for a format with [%s] conversions and a string argument:
    the first [%s] is replaced by [arg].  The four templates of [setup.py]
    hold exactly one [%s] and no other [%]. *)
Fixpoint format_s (fmt arg : string) : string :=
  match fmt with
  | String "%" (String "s" rest) => arg +:+ rest
  | String c rest => String c (format_s rest arg)
  | EmptyString => EmptyString
  end.

(** ['%d' % n] *)
Definition str_of_int (n : Z) : string := NilZero.string_of_int (Z.to_int n).

(** Truth value of a string: empty is false. *)
Definition truthy (s : string) : bool :=
  match s with EmptyString => false | _ => true end.

End PyStr.

(** ** [Config.__init__], lines 53-60: partition of the linker tokens *)

Record LinkParts := {
  lp_library_dirs : list string;
  lp_libraries : list string;
  lp_link_args : list string
}.

(** One turn of the [for arg in link_args] loop. *)
Definition partition_step (acc : LinkParts) (arg : string) : LinkParts :=
  if PyStr.startswith "-L" arg then
    {| lp_library_dirs := lp_library_dirs acc ++ [PyStr.slice_from 2 arg];
       lp_libraries := lp_libraries acc;
       lp_link_args := lp_link_args acc |}
  else if PyStr.startswith "-l" arg then
    {| lp_library_dirs := lp_library_dirs acc;
       lp_libraries := lp_libraries acc ++ [PyStr.slice_from 2 arg];
       lp_link_args := lp_link_args acc |}
  else
    {| lp_library_dirs := lp_library_dirs acc;
       lp_libraries := lp_libraries acc;
       lp_link_args := lp_link_args acc ++ [arg] |}.

(** The loop, from the three empty lists. *)
Definition partition_link_args (link_args : list string) : LinkParts :=
  fold_left partition_step link_args
    {| lp_library_dirs := []; lp_libraries := []; lp_link_args := [] |}.

(** ** [int(v)] and the comparison of lists of integers *)

Module PyInt.

(** The blanks [int] skips at both ends of the string: tab, line feed,
    vertical tab, form feed, carriage return and the space, and, of the
    characters above 127, the next-line control (133) and the no-break
    space (160), which CPython turns into spaces before it parses.  The
    separators of codes 28 to 31 are not among them: [int('0\x1f')] is a
    [ValueError]. *)
Definition is_space (c : ascii) : bool :=
  let n := nat_of_ascii c in
  ((9 <=? n)%nat && (n <=? 13)%nat) || (n =? 32)%nat
  || (n =? 133)%nat || (n =? 160)%nat.

Definition digit_val (c : ascii) : option Z :=
  let n := nat_of_ascii c in
  if (48 <=? n)%nat && (n <=? 57)%nat then Some (Z.of_nat n - 48)%Z else None.

Fixpoint lstrip (s : string) : string :=
  match s with
  | String c s' => if is_space c then lstrip s' else s
  | EmptyString => EmptyString
  end.

Definition strip (s : string) : string :=
  String.rev (lstrip (String.rev (lstrip s))).

(** Decimal digits, single underscores allowed between two digits. *)
Fixpoint digits (acc : Z) (after_digit : bool) (s : string) : option Z :=
  match s with
  | EmptyString => if after_digit then Some acc else None
  | String c s' =>
      match digit_val c with
      | Some d => digits (10 * acc + d)%Z true s'
      | None =>
          if Ascii.eqb c "_" && after_digit then digits acc false s' else None
      end
  end.

(** [int(s)] in base ten; [None] stands for [ValueError].  A character
    is read as the code point of its number, below 256: of those above 127
    the two blanks are skipped and the others are rejected, none of them
    being a decimal digit.  Two things are outside this model: the strings
    with a code point above 255, among them the decimal digits of other
    scripts, which [int] accepts; and the limit on the number of digits
    ([sys.get_int_max_str_digits()], 4300 unless set otherwise and never
    under 640) above which [int] refuses to convert, where the interpreter
    has that limit.  So the general statements that rest on [int] are about
    ASCII strings of at most 640 characters, [int_scope] below. *)
Definition int (s : string) : option Z :=
  match strip s with
  | String "+" s' => digits 0 false s'
  | String "-" s' => Z.opp <$> digits 0 false s'
  | s' => digits 0 false s'
  end.

(** [a >= b] on lists of integers: lexicographic, a proper prefix is
    smaller. *)
Fixpoint list_ge (a b : list Z) : bool :=
  match a, b with
  | _, [] => true
  | [], _ :: _ => false
  | x :: a', y :: b' => if Z.eqb x y then list_ge a' b' else Z.ltb y x
  end.

End PyInt.

(** ** Exceptions and results *)

Inductive exn : Type :=
| OSError (arg : string)
| KeyError (key : string)
| ValueError (arg : string)
| Exception (msg : string)
| CalledProcessError (cmd : string).

Inductive Res (A : Type) : Type :=
| Ok (a : A)
| Raised (e : exn).
Arguments Ok {A} a.
Arguments Raised {A} e.

(** ** Lines 225-234: the class instantiated for the current platform *)

Inductive ConfigClass : Type :=
| cls_WindowsConfig
| cls_DarwinGSSFrameWorkConfig
| cls_MSYSConfig
| cls_Config.

(** [[int(v) for v in ver.split('.')]] *)
Fixpoint ints_of (vs : list string) : Res (list Z) :=
  match vs with
  | [] => Ok []
  | v :: vs' =>
      match PyInt.int v with
      | None => Raised (ValueError v)
      | Some n =>
          match ints_of vs' with
          | Ok ns => Ok (n :: ns)
          | Raised e => Raised e
          end
      end
  end.

Definition mac_ver_ints (mac_ver : string) : Res (list Z) :=
  ints_of (PyStr.split "." mac_ver).

(** [os_name] is [os.name], [sys_platform] is [sys.platform], [mac_ver] is
    [platform.mac_ver()[0]], read only when the platform is darwin. *)
Definition choose_config_class (os_name sys_platform mac_ver : string)
  : Res ConfigClass :=
  if String.eqb os_name "nt" then Ok cls_WindowsConfig
  else
    let on_msys :=
      if String.eqb sys_platform "msys" then Ok cls_MSYSConfig
      else Ok cls_Config in
    if String.eqb sys_platform "darwin" then
      match mac_ver_ints mac_ver with
      | Raised e => Raised e
      | Ok v =>
          if PyInt.list_ge v [10; 7; 0]%Z then Ok cls_DarwinGSSFrameWorkConfig
          else on_msys
      end
    else on_msys.

(** ** The objects of [setup.py] *)

(** A loaded [ctypes.CDLL], seen through [hasattr]: the names for which
    [hasattr(lib, name)] holds. *)
Definition CDLL : Type := string -> bool.

(** [setuptools.extension.Extension], with the keyword arguments
    [make_extension] passes. *)
Module Extension.
Record t := make {
  name : string;
  extra_link_args : list string;
  extra_compile_args : list string;
  library_dirs : list string;
  libraries : list string;
  sources : list string;
  include_dirs : list string
}.
End Extension.

(** The attributes [Config.__init__] sets on [self]. *)
Record Config := {
  library_dirs : list string;
  libraries : list string;
  link_args : list string;
  compile_args : list string;
  enable_support_detect : bool;
  gssapi_lib : option CDLL
}.

(** What the script reads from its host and does not change: the file
    system, the helper program, the interpreter.  [ARCH] is line 18
    ([int(math.log(sys.maxsize, 2)) + 1], 64 or 32), [cython_importable]
    says whether [from Cython.Build import cythonize] succeeds, and
    [NoneType_hasattr] is [hasattr(None, name)]. *)
Class Host := {
  path_exists : string -> bool;
  cython_importable : bool;
  get_output : string -> Res string;
  shlex_split : string -> Res (list string);
  ctypes_CDLL : string -> Res CDLL;
  NoneType_hasattr : string -> bool;
  os_path_join : string -> string -> string;
  os_path_dirname : string -> string;
  os_pathsep : string;
  sys_prefix : string;
  ARCH : Z
}.

(** What the script changes while it runs. *)
Record PyState := {
  os_environ : gmap string string;
  ENUM_EXTS : list Extension.t;
  stdout : list string
}.

(** ** The monad of state and exceptions *)

Definition Py (A : Type) : Type := PyState -> Res A * PyState.

Definition ret {A} (a : A) : Py A := fun st => (Ok a, st).
Definition raise {A} (e : exn) : Py A := fun st => (Raised e, st).
Definition bind {A B} (m : Py A) (k : A -> Py B) : Py B :=
  fun st =>
    match m st with
    | (Ok a, st') => k a st'
    | (Raised e, st') => (Raised e, st')
    end.
Definition lift {A} (r : Res A) : Py A := fun st => (r, st).

Notation "'let*' x ':=' m 'in' k" := (bind m (fun x => k))
  (at level 10, x pattern, m at level 100, k at level 200, only parsing).

(** [os.environ.get(key)] *)
Definition environ_get (key : string) : Py (option string) :=
  fun st => (Ok (os_environ st !! key), st).

(** [os.environ[key]] *)
Definition environ_item (key : string) : Py string :=
  fun st =>
    match os_environ st !! key with
    | Some v => (Ok v, st)
    | None => (Raised (KeyError key), st)
    end.

(** [os.environ[key] = v] *)
Definition environ_set (key v : string) : Py unit :=
  fun st =>
    (Ok tt, {| os_environ := <[key := v]> (os_environ st);
               ENUM_EXTS := ENUM_EXTS st; stdout := stdout st |}).

(** [print(line)] *)
Definition print (line : string) : Py unit :=
  fun st =>
    (Ok tt, {| os_environ := os_environ st; ENUM_EXTS := ENUM_EXTS st;
               stdout := stdout st ++ [line] |}).

(** [ENUM_EXTS.append(e)] *)
Definition ENUM_EXTS_append (e : Extension.t) : Py unit :=
  fun st =>
    (Ok tt, {| os_environ := os_environ st; ENUM_EXTS := ENUM_EXTS st ++ [e];
               stdout := stdout st |}).

Definition get_ENUM_EXTS : Py (list Extension.t) :=
  fun st => (Ok (ENUM_EXTS st), st).

(** ** Lines 20-32: the source format *)

Definition SKIP_CYTHON_FILE : string := "__dont_use_cython__.txt".

(** The extension chosen and the line written to the standard error. *)
Definition source_format `{Host} : string * string :=
  if path_exists SKIP_CYTHON_FILE then
    ("c", "In distributed package, building from C files...")
  else if cython_importable then
    ("pyx", "Building from Cython files...")
  else ("c", "Cython not found, building from C files...").

Definition SOURCE_EXT `{Host} : string := fst source_format.

(** ** Lines 41-135: class [Config] *)

(** A value that is a string or already a list of strings. *)
Inductive ArgsValue : Type :=
| ArgStr (s : string)
| ArgList (l : list string).

(** The members a subclass overrides.  [_gssapi_lib_path] reads
    [self.link_args] and [self.libraries]. *)
Record ConfigMembers := {
  _default_link_args : Py ArgsValue;
  _default_compile_args : Py ArgsValue;
  _prefix : Py string;
  _gssapi_lib_path : list string -> list string -> Py (option string)
}.

Section WithHost.
Context `{Host}.

(** [shsplit], lines 43-44 *)
Definition shsplit (value : ArgsValue) : Py (list string) :=
  match value with
  | ArgList l => ret l
  | ArgStr s => lift (shlex_split s)
  end.

(** [os.environ.get(key) or default] *)
Definition environ_get_or (key : string) (default : Py ArgsValue)
  : Py ArgsValue :=
  let* v := environ_get key in
  match v with
  | Some s => if PyStr.truthy s then ret (ArgStr s) else default
  | None => default
  end.

(** Lines 72-73:
    [os.environ.get('GSSAPI_SUPPORT_DETECT', 'true').lower() == 'true'] *)
Definition support_detect_enabled (environ : gmap string string) : bool :=
  String.eqb (PyStr.lower (default "true" (environ !! "GSSAPI_SUPPORT_DETECT")))
             "true".

Definition no_main_lib_message : string :=
  "Could not find main GSSAPI shared library. Please try setting GSSAPI_MAIN_LIB yourself or setting ENABLE_SUPPORT_DETECTION to 'false'".

(** [Config.__init__], lines 42-89 *)
Definition Config_init (cls : ConfigMembers) : Py Config :=
  let* raw_link := environ_get_or "GSSAPI_LINKER_ARGS" (_default_link_args cls) in
  let* tokens := shsplit raw_link in
  let parts := partition_link_args tokens in
  let* raw_compile :=
    environ_get_or "GSSAPI_COMPILER_ARGS" (_default_compile_args cls) in
  let* compile_args0 := shsplit raw_compile in
  let* prefix := _prefix cls in
  let ext_h := os_path_join prefix "include/gssapi/gssapi_ext.h" in
  let compile_args1 :=
    if path_exists ext_h then compile_args0 ++ ["-DHAS_GSSAPI_EXT_H"]
    else compile_args0 in
  let* detect := (fun st => (Ok (support_detect_enabled (os_environ st)), st)) in
  let self_with lib :=
    {| library_dirs := lp_library_dirs parts;
       libraries := lp_libraries parts;
       link_args := lp_link_args parts;
       compile_args := compile_args1;
       enable_support_detect := detect;
       gssapi_lib := lib |} in
  if detect then
    let* override := environ_get "GSSAPI_MAIN_LIB" in
    let* main_lib :=
      match override with
      | Some p => ret (Some p)
      | None => _gssapi_lib_path cls (lp_link_args parts) (lp_libraries parts)
      end in
    match main_lib with
    | None => raise (Exception no_main_lib_message)
    | Some p =>
        let* lib := lift (ctypes_CDLL p) in
        ret (self_with (Some lib))
    end
  else ret (self_with None).

(** [Config._default_link_args], [Config._default_compile_args] *)
Definition Config_default_link_args : Py ArgsValue :=
  let* out := lift (get_output "krb5-config --libs gssapi") in ret (ArgStr out).

Definition Config_default_compile_args : Py ArgsValue :=
  let* out := lift (get_output "krb5-config --cflags gssapi") in
  ret (ArgStr out).

(** [Config._prefix]: any exception of the helper is a warning. *)
Definition Config_prefix : Py string :=
  match get_output "krb5-config gssapi --prefix" with
  | Ok out => ret out
  | Raised _ =>
      let* _ := print (PyStr.format_s
        "WARNING: couldn't find krb5-config; assuming prefix of %s" sys_prefix) in
      ret sys_prefix
  end.

(** [Config._gssapi_lib_path], lines 111-120 *)
Definition Config_gssapi_lib_path (link_args libraries : list string)
  : Py (option string) :=
  let main_path :=
    match List.filter (PyStr.startswith "-Wl,/") link_args with
    | o :: _ => PyStr.slice_from 4 o
    | [] => ""
    end in
  match List.filter (PyStr.startswith "gssapi") libraries with
  | opt :: _ => ret (Some (os_path_join main_path (PyStr.format_s "lib%s.so" opt)))
  | [] => ret None
  end.

Definition Config_members : ConfigMembers :=
  {| _default_link_args := Config_default_link_args;
     _default_compile_args := Config_default_compile_args;
     _prefix := Config_prefix;
     _gssapi_lib_path := Config_gssapi_lib_path |}.

(** ** Lines 204-222: class [MSYSConfig] *)

(** ['/mingw%d/bin/libgss-3.dll' % ARCH] *)
Definition mingw_main_lib : string :=
  "/mingw" +:+ PyStr.str_of_int ARCH +:+ "/bin/libgss-3.dll".

(** The property of the [else] branch, lines 215-222. *)
Definition MSYSConfig_gssapi_lib_path : Py (option string) :=
  let main_lib := mingw_main_lib in
  if path_exists main_lib then
    let* path := environ_item "PATH" in
    let* _ := environ_set "PATH"
                (path +:+ (os_pathsep +:+ os_path_dirname main_lib)) in
    ret (Some main_lib)
  else ret None.

(** The truth value of [os.environ.get(key)]: unset and empty are false. *)
Definition truthy_opt (v : option string) : bool :=
  match v with
  | Some s => PyStr.truthy s
  | None => false
  end.

(** The class body is run once; [mingw_prefix] is the value
    [os.environ.get('MINGW_PREFIX')] has at that time.  In the [else] branch
    the other members are those of [Config]. *)
Definition MSYSConfig_members (mingw_prefix : option string) : ConfigMembers :=
  if truthy_opt mingw_prefix then
    {| _default_link_args := ret (ArgList ["-lgss"]);
       _default_compile_args := ret (ArgList ["-fPIC"]);
       _prefix := Config_prefix;
       _gssapi_lib_path := fun _ _ =>
         ret (Some (default "" mingw_prefix +:+ "/bin/libgss-3.dll")) |}
  else
    {| _default_link_args := Config_default_link_args;
       _default_compile_args := Config_default_compile_args;
       _prefix := Config_prefix;
       _gssapi_lib_path := fun _ _ => MSYSConfig_gssapi_lib_path |}.

(** [MSYSConfig.__init__] *)
Definition MSYSConfig_init (mingw_prefix : option string) : Py Config :=
  let* self := Config_init (MSYSConfig_members mingw_prefix) in
  ret {| library_dirs := library_dirs self;
         libraries := libraries self;
         link_args := link_args self;
         compile_args := compile_args self ++ ["-D__MSYS__"];
         enable_support_detect := enable_support_detect self;
         gssapi_lib := gssapi_lib self |}.

(** ** Lines 122-135 and 288-328: the extension modules *)

(** The source path [make_extension] looks for. *)
Definition source_of (name_fmt module : string) : string :=
  PyStr.format_s (PyStr.replace_char "." "/" name_fmt) module
  +:+ "." +:+ SOURCE_EXT.

(** The [Extension] it returns. *)
Definition extension_of (config : Config) (name_fmt module : string)
    (include_dirs : list string) : Extension.t :=
  {| Extension.name := PyStr.format_s name_fmt module;
     Extension.extra_link_args := link_args config;
     Extension.extra_compile_args := compile_args config;
     Extension.library_dirs := library_dirs config;
     Extension.libraries := libraries config;
     Extension.sources := [source_of name_fmt module];
     Extension.include_dirs := include_dirs |}.

(** [Config.make_extension]; [include_dirs] is the only keyword argument
    ever passed, [[]] when it is not. *)
Definition make_extension (config : Config) (name_fmt module : string)
    (include_dirs : list string) : Py Extension.t :=
  if path_exists (source_of name_fmt module) then
    ret (extension_of config name_fmt module include_dirs)
  else raise (OSError (source_of name_fmt module)).

(** [main_file] *)
Definition main_file (config : Config) (module : string) : Py Extension.t :=
  make_extension config "gssapi.raw.%s" module [].

(** [hasattr(config.gssapi_lib, canary)] *)
Definition hasattr (lib : option CDLL) (name : string) : bool :=
  match lib with
  | Some l => l name
  | None => NoneType_hasattr name
  end.

(** The test of line 297. *)
Definition unsupported (config : Config) (canary : string) : bool :=
  enable_support_detect config && negb (hasattr (gssapi_lib config) canary).

Definition skip_message (module : string) : string :=
  PyStr.format_s
    "Skipping the %s extension because it is not supported by your GSSAPI implementation..."
    module.

(** [try: ... except OSError: pass] *)
Definition pass_on_OSError (m : Py unit) : Py unit :=
  fun st =>
    match m st with
    | (Raised (OSError _), st') => (Ok tt, st')
    | r => r
    end.

(** [extension_file]; [None] is the bare [return]. *)
Definition extension_file (config : Config) (module canary : string)
  : Py (option Extension.t) :=
  if unsupported config canary then
    let* _ := print (skip_message module) in
    ret None
  else
    let* _ := pass_on_OSError (
      let* e := make_extension config "gssapi.raw._enum_extensions.ext_%s"
                  module ["gssapi/raw/"] in
      ENUM_EXTS_append e) in
    let* e := make_extension config "gssapi.raw.ext_%s" module [] in
    ret (Some e).

(** [f(x) for x in xs], stopping at the first exception. *)
Fixpoint for_each {A B} (f : A -> Py B) (xs : list A) : Py (list B) :=
  match xs with
  | [] => ret []
  | x :: xs' =>
      let* y := f x in
      let* ys := for_each f xs' in
      ret (y :: ys)
  end.

(** The names [gssapi_modules] builds mechanism files for. *)
Definition mechs_of (environ : gmap string string) : list string :=
  PyStr.split "," (default "krb5" (environ !! "GSSAPI_MECHS")).

(** [gssapi_modules] *)
Definition gssapi_modules (config : Config) (lst : list (option Extension.t))
  : Py (list Extension.t) :=
  let res : list Extension.t := omap id lst in
  let* mechs := (fun st => (Ok (mechs_of (os_environ st)), st)) in
  let* mech_exts :=
    for_each (fun mech => make_extension config "gssapi.raw.mech_%s" mech [])
             mechs in
  let* enum_exts := get_ENUM_EXTS in
  ret (res ++ mech_exts ++ enum_exts).

(** An element of the list literal passed to [gssapi_modules]. *)
Inductive ModuleCall : Type :=
| call_main_file (module : string)
| call_extension_file (module canary : string).

Definition eval_call (config : Config) (c : ModuleCall)
  : Py (option Extension.t) :=
  match c with
  | call_main_file m => let* e := main_file config m in ret (Some e)
  | call_extension_file m canary => extension_file config m canary
  end.

(** The value of [ext_modules=gssapi_modules([...])]: the elements of the
    list are evaluated in order, then [gssapi_modules] is called. *)
Definition ext_modules (config : Config) (calls : list ModuleCall)
  : Py (list Extension.t) :=
  let* lst := for_each (eval_call config) calls in
  gssapi_modules config lst.

(** ** [Config.__init__] in two halves, around the reading of the gate *)

(** The part of [Config.__init__] before the gate is read. *)
Definition before_gate (cls : ConfigMembers) : Py (list string * list string) :=
  let* raw_link := environ_get_or "GSSAPI_LINKER_ARGS" (_default_link_args cls) in
  let* tokens := shsplit raw_link in
  let* raw_compile :=
    environ_get_or "GSSAPI_COMPILER_ARGS" (_default_compile_args cls) in
  let* compile_args0 := shsplit raw_compile in
  let* prefix := _prefix cls in
  let ext_h := os_path_join prefix "include/gssapi/gssapi_ext.h" in
  ret (tokens,
       if path_exists ext_h then compile_args0 ++ ["-DHAS_GSSAPI_EXT_H"]
       else compile_args0).

(** With the gate closed the library is neither looked for nor loaded. *)
Definition after_gate (cls : ConfigMembers) (tokens compile_args1 : list string)
  : Py Config :=
  let parts := partition_link_args tokens in
  let* detect := (fun st => (Ok (support_detect_enabled (os_environ st)), st)) in
  let self_with lib :=
    {| library_dirs := lp_library_dirs parts;
       libraries := lp_libraries parts;
       link_args := lp_link_args parts;
       compile_args := compile_args1;
       enable_support_detect := detect;
       gssapi_lib := lib |} in
  if detect then
    let* override := environ_get "GSSAPI_MAIN_LIB" in
    let* main_lib :=
      match override with
      | Some p => ret (Some p)
      | None => _gssapi_lib_path cls (lp_link_args parts) (lp_libraries parts)
      end in
    match main_lib with
    | None => raise (Exception no_main_lib_message)
    | Some p =>
        let* lib := lift (ctypes_CDLL p) in
        ret (self_with (Some lib))
    end
  else ret (self_with None).

End WithHost.

(** The list literal of lines 369-398: the modules passed to [main_file]
    and those passed to [extension_file], each with its canary. *)
Definition core_modules : list string :=
  ["misc"; "exceptions"; "creds"; "names"; "sec_contexts"; "types"; "message";
   "oids"; "cython_converters"; "chan_bindings"].

Definition optional_modules : list (string * string) :=
  [("s4u", "gss_acquire_cred_impersonate_name");
   ("cred_store", "gss_store_cred_into");
   ("rfc5587", "gss_indicate_mechs_by_attrs");
   ("rfc5588", "gss_store_cred");
   ("rfc5801", "gss_inquire_saslname_for_mech");
   ("cred_imp_exp", "gss_import_cred");
   ("dce", "gss_wrap_iov");
   ("iov_mic", "gss_get_mic_iov");
   ("ggf", "gss_inquire_sec_context_by_oid");
   ("set_cred_opt", "gss_set_cred_option");
   ("rfc6680", "gss_display_name_ext");
   ("rfc6680_comp_oid", "GSS_C_NT_COMPOSITE_EXPORT");
   ("password", "gss_acquire_cred_with_password");
   ("password_add", "gss_add_cred_with_password")].

(** The calls of [main_file] come first, those of [extension_file] after. *)
Definition calls_of (cores : list string) (opts : list (string * string))
  : list ModuleCall :=
  map call_main_file cores
  ++ map (fun mc => call_extension_file (fst mc) (snd mc)) opts.

Definition setup_calls : list ModuleCall :=
  calls_of core_modules optional_modules.

(** ** The selection, described call by call and as a whole *)

Section SelectionTerms.
Context `{Host}.
Variable config : Config.

(** The [Extension] of a core module, of an optional module, of its
    companion and of a mechanism. *)
Definition core_ext (m : string) : Extension.t :=
  extension_of config "gssapi.raw.%s" m [].
Definition optional_ext (m : string) : Extension.t :=
  extension_of config "gssapi.raw.ext_%s" m [].
Definition companion_ext (m : string) : Extension.t :=
  extension_of config "gssapi.raw._enum_extensions.ext_%s" m ["gssapi/raw/"].
Definition mech_ext (m : string) : Extension.t :=
  extension_of config "gssapi.raw.mech_%s" m [].

(** The source file a call cannot do without. *)
Definition call_source (c : ModuleCall) : option string :=
  match c with
  | call_main_file m => Some (source_of "gssapi.raw.%s" m)
  | call_extension_file m canary =>
      if unsupported config canary then None
      else Some (source_of "gssapi.raw.ext_%s" m)
  end.

(** What a call puts in the list. *)
Definition call_result (c : ModuleCall) : option Extension.t :=
  match c with
  | call_main_file m => Some (core_ext m)
  | call_extension_file m canary =>
      if unsupported config canary then None else Some (optional_ext m)
  end.

(** What it appends to [ENUM_EXTS]. *)
Definition call_companion (c : ModuleCall) : option Extension.t :=
  match c with
  | call_main_file _ => None
  | call_extension_file m canary =>
      if unsupported config canary then None
      else if path_exists (source_of "gssapi.raw._enum_extensions.ext_%s" m)
           then Some (companion_ext m)
           else None
  end.

(** What it prints. *)
Definition call_message (c : ModuleCall) : option string :=
  match c with
  | call_main_file _ => None
  | call_extension_file m canary =>
      if unsupported config canary then Some (skip_message m) else None
  end.

(** That file exists. *)
Definition source_present (c : ModuleCall) : bool :=
  match call_source c with
  | Some s => path_exists s
  | None => true
  end.

(** The state after the calls, none of which raised. *)
Definition after_calls (calls : list ModuleCall) (st : PyState) : PyState :=
  {| os_environ := os_environ st;
     ENUM_EXTS := ENUM_EXTS st ++ omap call_companion calls;
     stdout := stdout st ++ omap call_message calls |}.

(** The source file of a mechanism exists. *)
Definition mech_present (m : string) : bool :=
  path_exists (source_of "gssapi.raw.mech_%s" m).

(** The optional modules that pass line 297, those of them whose companion
    file exists, and those that are skipped. *)
Definition supported_modules (opts : list (string * string)) : list string :=
  map fst (List.filter (fun mc => negb (unsupported config (snd mc))) opts).

Definition companion_modules (opts : list (string * string)) : list string :=
  map fst
    (List.filter
       (fun mc =>
          negb (unsupported config (snd mc))
          && path_exists
               (source_of "gssapi.raw._enum_extensions.ext_%s" (fst mc)))
       opts).

Definition skipped_modules (opts : list (string * string)) : list string :=
  map fst (List.filter (fun mc => unsupported config (snd mc)) opts).

(** The list [gssapi_modules] returns: the core files, the optional files
    that pass, the mechanism files, the companion files. *)
Definition selection (cores : list string) (opts : list (string * string))
    (environ : gmap string string) : list Extension.t :=
  map core_ext cores
  ++ map optional_ext (supported_modules opts)
  ++ map mech_ext (mechs_of environ)
  ++ map companion_ext (companion_modules opts).

(** Every source file the selection cannot do without is there. *)
Definition sources_present (cores : list string) (opts : list (string * string))
    (environ : gmap string string) : Prop :=
  (forall m, In m cores -> path_exists (source_of "gssapi.raw.%s" m) = true)
  /\ (forall m, In m (supported_modules opts) ->
        path_exists (source_of "gssapi.raw.ext_%s" m) = true)
  /\ (forall m, In m (mechs_of environ) ->
        path_exists (source_of "gssapi.raw.mech_%s" m) = true).

End SelectionTerms.

(** ** A POSIX host for examples *)

Module posixpath.

(** [posixpath.join(a, b)] *)
Definition join (a b : string) : string :=
  if PyStr.startswith "/" b then b
  else if negb (PyStr.truthy a) || PyStr.startswith "/" (String.rev a)
       then a +:+ b
       else a +:+ ("/" +:+ b).

Fixpoint from_sep (s : string) : string :=
  match s with
  | EmptyString => EmptyString
  | String c s' => if Ascii.eqb c "/" then s else from_sep s'
  end.

Fixpoint lstrip_sep (s : string) : string :=
  match s with
  | String c s' => if Ascii.eqb c "/" then lstrip_sep s' else s
  | EmptyString => EmptyString
  end.

(** [posixpath.dirname(p)]: the part up to the last slash, without its
    trailing slashes unless it is made of slashes only. *)
Definition dirname (p : string) : string :=
  let rhead := from_sep (String.rev p) in
  match lstrip_sep rhead with
  | EmptyString => String.rev rhead
  | stripped => String.rev stripped
  end.

End posixpath.

(** A host with the POSIX path functions, a 64-bit interpreter, no helper
    program and no loadable library; [files] says which paths exist.  On
    command lines without quotes, escapes or comments [shlex.split] is the
    split on blanks. *)
Definition posix_host (files : string -> bool) (cython : bool) : Host :=
  {| path_exists := files;
     cython_importable := cython;
     get_output := fun cmd => Raised (CalledProcessError cmd);
     shlex_split := fun s => Ok (String.words s);
     ctypes_CDLL := fun p => Raised (OSError p);
     NoneType_hasattr := fun _ => false;
     os_path_join := posixpath.join;
     os_path_dirname := posixpath.dirname;
     os_pathsep := ":";
     sys_prefix := "/usr";
     ARCH := 64 |}.

(** ** Terms of the statements, and examples of hosts, configurations
    and states *)

(** The three kinds of linker tokens. *)
Definition is_dir_token (arg : string) : bool := PyStr.startswith "-L" arg.
Definition is_lib_token (arg : string) : bool := PyStr.startswith "-l" arg.
Definition is_other_token (arg : string) : bool :=
  negb (PyStr.startswith "-L" arg) && negb (PyStr.startswith "-l" arg).

(** A computation that leaves [os.environ] as it found it. *)
Definition keeps_environ {A} (m : Py A) : Prop :=
  forall st, os_environ (snd (m st)) = os_environ st.

(** The members read before the gate leave [os.environ] as it is. *)
Definition members_keep_environ (cls : ConfigMembers) : Prop :=
  keeps_environ (_default_link_args cls)
  /\ keeps_environ (_default_compile_args cls)
  /\ keeps_environ (_prefix cls).

(** An environment that gives the flags and closes the gate, the state
    [Config.__init__] starts from and the [Config] it builds there. *)
Definition gate_demo_environ : gmap string string :=
  <["GSSAPI_LINKER_ARGS" := "-L/a -lfoo -Wl,-rpath,/b"]>
    (<["GSSAPI_COMPILER_ARGS" := "-I/a/include"]>
       (<["GSSAPI_SUPPORT_DETECT" := "True "]> ∅)).

Definition gate_demo_state : PyState :=
  {| os_environ := gate_demo_environ; ENUM_EXTS := []; stdout := [] |}.

Definition gate_demo_config : Config :=
  {| library_dirs := ["/a"]; libraries := ["foo"];
     link_args := ["-Wl,-rpath,/b"]; compile_args := ["-I/a/include"];
     enable_support_detect := false; gssapi_lib := None |}.

(** A [Config] as [krb5-config] gives it on a Linux host. *)
Definition demo_config (detect : bool) (lib : option CDLL) : Config :=
  {| library_dirs := ["/usr/lib"]; libraries := ["gssapi_krb5"];
     link_args := []; compile_args := ["-DHAS_GSSAPI_EXT_H"];
     enable_support_detect := detect; gssapi_lib := lib |}.

(** The state when [setup(...)] is reached: [ENUM_EXTS = []], line 293. *)
Definition demo_state (environ : gmap string string) : PyState :=
  {| os_environ := environ; ENUM_EXTS := []; stdout := [] |}.

(** No file exists and Cython is not there. *)
Definition bare_host : Host := posix_host (fun _ => false) false.

(** Every file exists, the marker file too: the sources are the C files. *)
Definition full_tree_host : Host := posix_host (fun _ => true) true.

(** The order as the specification words it: the core files, then the
    mechanism files, then the rest. *)
Definition claimed_order `{Host} (config : Config) (cores : list string)
    (opts : list (string * string)) (st : PyState) : Prop :=
  forall out st',
    ext_modules config (calls_of cores opts) st = (Ok out, st') ->
    exists rest,
      out = map (core_ext config) cores
            ++ map (mech_ext config) (mechs_of (os_environ st)) ++ rest.

(** The same configuration with another probe handle. *)
Definition with_gssapi_lib (config : Config) (lib : option CDLL) : Config :=
  {| library_dirs := library_dirs config;
     libraries := libraries config;
     link_args := link_args config;
     compile_args := compile_args config;
     enable_support_detect := enable_support_detect config;
     gssapi_lib := lib |}.

(** A library without any of the symbols. *)
Definition no_symbols : CDLL := fun _ => false.

(** Every file exists but the C file of the core module [creds]. *)
Definition no_creds_host : Host :=
  posix_host (fun p => negb (String.eqb p "gssapi/raw/creds.c")) false.

(** Every file exists but the C file of the companion of [s4u]. *)
Definition no_s4u_companion_host : Host :=
  posix_host
    (fun p => negb (String.eqb p "gssapi/raw/_enum_extensions/ext_s4u.c")) false.

(** The same configuration with another gate and probe handle. *)
Definition with_probe (config : Config) (detect : bool) (lib : option CDLL)
  : Config :=
  {| library_dirs := library_dirs config;
     libraries := libraries config;
     link_args := link_args config;
     compile_args := compile_args config;
     enable_support_detect := detect;
     gssapi_lib := lib |}.

(** [GSSAPI_MECHS=krb5,ntlm] *)
Definition two_mechs_environ : gmap string string :=
  <["GSSAPI_MECHS" := "krb5,ntlm"]> ∅.

(** A library with every symbol but [gss_store_cred_into]. *)
Definition no_cred_store : CDLL :=
  fun name => negb (String.eqb name "gss_store_cred_into").

(** The discovery as the specification words it: the directory of the
    library is put in front of the search path. *)
Definition discovery_prepends `{Host} (st : PyState) : Prop :=
  forall p,
    os_environ st !! "PATH" = Some p ->
    path_exists mingw_main_lib = true ->
    exists st',
      MSYSConfig_gssapi_lib_path st = (Ok (Some mingw_main_lib), st')
      /\ os_environ st' !! "PATH"
         = Some (os_path_dirname mingw_main_lib +:+ (os_pathsep +:+ p)).

(** [PATH=/usr/bin] *)
Definition path_environ : gmap string string := <["PATH" := "/usr/bin"]> ∅.

(** ** Further parts of [setup.py] *)

(** What the other classes, the distribution class and the packaging
    command read from the host: [ctypes.util.find_library],
    [os.path.join] with three arguments, [os.path.splitext],
    [os.listdir], [shutil.which], what calling
    [distutils.cygwinccompiler.get_msvcr()] does,
    [Cython.Build.cythonize(modules, language_level=2)], and
    [open('README.txt').read()]. *)
Class HostLibs := {
  ctypes_util_find_library : string -> option string;
  os_path_join3 : string -> string -> string -> string;
  os_path_splitext : string -> string * string;
  os_listdir : string -> Res (list string);
  shutil_which : string -> option string;
  get_msvcr : Res (list string);
  cythonize : list Extension.t -> Res (list Extension.t);
  read_README : Res string
}.

Section OtherClasses.
Context `{Host} `{HostLibs}.

(** *** Lines 138-145: class [DarwinGSSFrameWorkConfig] *)

Definition Darwin_default_link_args : list string := ["-framework"; "GSS"].

Definition Darwin_default_compile_args : list string :=
  Darwin_default_link_args ++ ["-DOSX_HAS_GSS_FRAMEWORK"].

Definition DarwinGSSFrameWorkConfig_members : ConfigMembers :=
  {| _default_link_args := ret (ArgList Darwin_default_link_args);
     _default_compile_args := ret (ArgList Darwin_default_compile_args);
     _prefix := Config_prefix;
     _gssapi_lib_path := fun _ _ => ret (ctypes_util_find_library "GSS") |}.

(** *** Lines 148-201: class [WindowsConfig] *)

(** [WindowsConfig._find_krb], lines 178-189 *)
Definition WindowsConfig_find_krb : Py string :=
  let* program_files := environ_item "ProgramFiles" in
  let pf_path := os_path_join3 program_files "MIT" "Kerberos" in
  if path_exists pf_path then ret pf_path
  else
    match shutil_which "kinit" with
    | None => raise (OSError "Failed find MIT kerberos!")
    | Some kinit_path =>
        ret (os_path_dirname (os_path_dirname kinit_path))
    end.

(** [WindowsConfig._patch_cygwincc], lines 191-201.  The argument is what
    calling [cygwinccompiler.get_msvcr()] does before, the value returned
    is what calling it does after; an exception other than [ValueError]
    leaves the method.  The import of [distutils] is taken to succeed. *)
Definition WindowsConfig_patch_cygwincc (get_msvcr : Res (list string))
  : Res (Res (list string)) :=
  match get_msvcr with
  | Ok l => Ok (Ok l)
  | Raised (ValueError _) => Ok (Ok [])
  | Raised e => Raised e
  end.

(** The directory of the import libraries, lines 156-158. *)
Definition WindowsConfig_libs (krb_path : string) : string :=
  os_path_join3 krb_path "lib" (if (ARCH =? 64)%Z then "amd64" else "i386").

(** The members of [WindowsConfig], for the value of [self._krb_path]. *)
Definition WindowsConfig_members (krb_path : string) : ConfigMembers :=
  {| _default_link_args :=
       let libs := WindowsConfig_libs krb_path in
       let* files := lift (os_listdir libs) in
       ret (ArgList
              ([PyStr.format_s "-L%s" libs]
               ++ map (fun lib =>
                         PyStr.format_s "-l%s" (fst (os_path_splitext lib)))
                    files));
     _default_compile_args :=
       ret (ArgList [PyStr.format_s "-I%s" (os_path_join krb_path "include");
                     "-DMS_WIN64"]);
     _prefix := ret krb_path;
     _gssapi_lib_path := fun _ libraries =>
       match List.filter (PyStr.startswith "gssapi") libraries with
       | opt :: _ =>
           ret (Some (os_path_join3 krb_path "bin"
                        (PyStr.format_s "%s.dll" opt)))
       | [] => ret None
       end |}.

(** [WindowsConfig.__init__], lines 149-152 *)
Definition WindowsConfig_init : Py Config :=
  let* krb_path := WindowsConfig_find_krb in
  let* _ := lift (WindowsConfig_patch_cygwincc get_msvcr) in
  Config_init (WindowsConfig_members krb_path).

(** *** Lines 225-234: the value of [config] *)

(** The class bodies have been run before: [mingw_prefix] is read when
    [MSYSConfig] is defined, on every platform. *)
Definition make_config (os_name sys_platform mac_ver : string) : Py Config :=
  let* mingw_prefix := environ_get "MINGW_PREFIX" in
  match choose_config_class os_name sys_platform mac_ver with
  | Raised e => raise e
  | Ok cls_WindowsConfig => WindowsConfig_init
  | Ok cls_DarwinGSSFrameWorkConfig =>
      Config_init DarwinGSSFrameWorkConfig_members
  | Ok cls_MSYSConfig => MSYSConfig_init mingw_prefix
  | Ok cls_Config => Config_init Config_members
  end.

(** Line 293, [ENUM_EXTS = []] *)
Definition reset_ENUM_EXTS : Py unit :=
  fun st =>
    (Ok tt, {| os_environ := os_environ st; ENUM_EXTS := [];
               stdout := stdout st |}).

(** The value of [ext_modules=...] in the call of [setup], from line 225
    on: [config] is made, [ENUM_EXTS] is bound, [README.txt] is read for
    the long description, and the list is built. *)
Definition script_ext_modules (os_name sys_platform mac_ver : string)
  : Py (list Extension.t) :=
  let* config := make_config os_name sys_platform mac_ver in
  let* _ := reset_ENUM_EXTS in
  let* _ := lift read_README in
  ext_modules config setup_calls.

End OtherClasses.

(** *** Lines 237-247: the command [sdist_gssapi] *)

(** The files of the working tree, by path, with their contents. *)
Abbreviation FileSystem := (gmap string string).

(** [sdist_gssapi.run]; [sdist_run] is [sdist.run(self)], which may change
    the tree and may raise.  Writing the marker file is taken to succeed
    and replaces what the file held; [os.remove] of a file that is not
    there raises. *)
Definition sdist_gssapi_run (dry_run : bool)
    (sdist_run : FileSystem -> Res unit * FileSystem) (fs : FileSystem)
  : Res unit * FileSystem :=
  if negb dry_run then
    let fs1 : FileSystem := <[SKIP_CYTHON_FILE := "COMPILE_FROM_C_ONLY"]> fs in
    match sdist_run fs1 with
    | (Ok _, fs2) =>
        match fs2 !! SKIP_CYTHON_FILE with
        | Some _ => (Ok tt, delete SKIP_CYTHON_FILE fs2)
        | None => (Raised (OSError SKIP_CYTHON_FILE), fs2)
        end
    | (Raised e, fs2) => (Raised e, fs2)
    end
  else (Ok tt, fs).

(** The host [H] looking at the tree [fs]: [os.path.exists] holds of the
    paths of [fs]. *)
Definition host_on (fs : FileSystem) (H : Host) : Host :=
  {| path_exists := fun p => bool_decide (is_Some (fs !! p));
     cython_importable := @cython_importable H;
     get_output := @get_output H;
     shlex_split := @shlex_split H;
     ctypes_CDLL := @ctypes_CDLL H;
     NoneType_hasattr := @NoneType_hasattr H;
     os_path_join := @os_path_join H;
     os_path_dirname := @os_path_dirname H;
     os_pathsep := @os_pathsep H;
     sys_prefix := @sys_prefix H;
     ARCH := @ARCH H |}.

(** *** Lines 250-285: class [GSSAPIDistribution] *)

Definition DONT_CYTHONIZE_FOR : list string := ["clean"].

(** An attribute of an object: not there, or bound to a value, which may
    be [None]. *)
Inductive attr (A : Type) : Type :=
| Unset
| Bound (v : option A).
Arguments Unset {A}.
Arguments Bound {A} v.

(** [getattr(self, name, None)] *)
Definition getattr_or_None {A} (a : attr A) : option A :=
  match a with
  | Unset => None
  | Bound v => v
  end.

(** The attributes of a [GSSAPIDistribution] the class itself uses. *)
Record Distribution := {
  _ext_modules : attr (list Extension.t);
  _cythonized_ext_modules : attr (list Extension.t);
  _last_run_command : attr string
}.

(** [command in DONT_CYTHONIZE_FOR], for the value of
    [getattr(self, '_last_run_command', None)] *)
Definition dont_cythonize (command : option string) : bool :=
  match command with
  | Some c => existsb (String.eqb c) DONT_CYTHONIZE_FOR
  | None => false
  end.

Section DistributionClass.
Context `{Host} `{HostLibs}.

(** The first statement of [run_command], lines 254-256; the command
    itself is run by the parent class after it. *)
Definition run_command_note (command : string) (d : Distribution)
  : Distribution :=
  {| _ext_modules := _ext_modules d;
     _cythonized_ext_modules := _cythonized_ext_modules d;
     _last_run_command := Bound (Some command) |}.

(** The getter of [ext_modules], lines 258-275 *)
Definition get_ext_modules (d : Distribution)
  : Res (option (list Extension.t)) * Distribution :=
  if negb (String.eqb SOURCE_EXT "pyx") then
    (Ok (getattr_or_None (_ext_modules d)), d)
  else
    match getattr_or_None (_ext_modules d) with
    | None => (Ok None, d)
    | Some mods =>
        if dont_cythonize (getattr_or_None (_last_run_command d)) then
          (Ok (Some mods), d)
        else
          match getattr_or_None (_cythonized_ext_modules d) with
          | Some cythonized => (Ok (Some cythonized), d)
          | None =>
              match cythonize mods with
              | Ok cythonized =>
                  (Ok (Some cythonized),
                   {| _ext_modules := _ext_modules d;
                      _cythonized_ext_modules := Bound (Some cythonized);
                      _last_run_command := _last_run_command d |})
              | Raised e => (Raised e, d)
              end
          end
    end.

(** The setter, lines 277-280 *)
Definition set_ext_modules (mods : option (list Extension.t))
    (d : Distribution) : Distribution :=
  {| _ext_modules := Bound mods;
     _cythonized_ext_modules := Bound None;
     _last_run_command := _last_run_command d |}.

(** The deleter, lines 282-285; [false] stands for the [AttributeError] of
    a [del] of an attribute that is not there. *)
Definition del_ext_modules (d : Distribution) : bool * Distribution :=
  match _ext_modules d with
  | Unset => (false, d)
  | Bound _ =>
      let d1 := {| _ext_modules := Unset;
                   _cythonized_ext_modules := _cythonized_ext_modules d;
                   _last_run_command := _last_run_command d |} in
      match _cythonized_ext_modules d with
      | Unset => (false, d1)
      | Bound _ =>
          (true, {| _ext_modules := Unset;
                    _cythonized_ext_modules := Unset;
                    _last_run_command := _last_run_command d |})
      end
  end.

End DistributionClass.

(** ** Terms of the further statements *)

(** A computation that changes no variable of [os.environ] but [PATH]. *)
Definition changes_only_PATH {A} (m : Py A) : Prop :=
  forall st k, k <> "PATH" ->
    os_environ (snd (m st)) !! k = os_environ st !! k.

(** [next((x for x in xs if f(x)), None)] *)
Definition first_such {A} (f : A -> bool) (xs : list A) : option A :=
  List.find f xs.

(** A host like [bare_host] in which every path exists and the one library
    [/opt/lib/libgssapi_krb5.so] loads, without symbols. *)
Definition loading_host : Host :=
  {| path_exists := fun _ => true;
     cython_importable := false;
     get_output := fun cmd => Raised (CalledProcessError cmd);
     shlex_split := fun s => Ok (String.words s);
     ctypes_CDLL := fun p =>
       if String.eqb p "/opt/lib/libgssapi_krb5.so" then Ok no_symbols
       else Raised (OSError p);
     NoneType_hasattr := fun _ => false;
     os_path_join := posixpath.join;
     os_path_dirname := posixpath.dirname;
     os_pathsep := ":";
     sys_prefix := "/usr";
     ARCH := 64 |}.

(** The flags of a Heimdal layout, the gate left open. *)
Definition loading_environ : gmap string string :=
  <["GSSAPI_LINKER_ARGS" := "-Wl,/opt/lib -lgssapi_krb5 -lkrb5"]>
    (<["GSSAPI_COMPILER_ARGS" := "-I/opt/include"]> ∅).

(** The [Config] constructed there. *)
Definition loading_config : Config :=
  {| library_dirs := []; libraries := ["gssapi_krb5"; "krb5"];
     link_args := ["-Wl,/opt/lib"];
     compile_args := ["-I/opt/include"; "-DHAS_GSSAPI_EXT_H"];
     enable_support_detect := true; gssapi_lib := Some no_symbols |}.

(** The state [Config.__init__] leaves on a host without [krb5-config]. *)
Definition warned_state (environ : gmap string string) : PyState :=
  {| os_environ := environ; ENUM_EXTS := [];
     stdout := ["WARNING: couldn't find krb5-config; assuming prefix of /usr"] |}.

(** [GSSAPI_MAIN_LIB] set on top of an environment. *)
Definition with_main_lib (p : string) (environ : gmap string string)
  : gmap string string :=
  <["GSSAPI_MAIN_LIB" := p]> environ.

(** A POSIX host in which every path exists and [ctypes.CDLL] loads the
    one library at [lib_path]. *)
Definition host_loading (lib_path : string) (lib : CDLL) : Host :=
  {| path_exists := fun _ => true;
     cython_importable := false;
     get_output := fun cmd => Raised (CalledProcessError cmd);
     shlex_split := fun s => Ok (String.words s);
     ctypes_CDLL := fun p =>
       if String.eqb p lib_path then Ok lib else Raised (OSError p);
     NoneType_hasattr := fun _ => false;
     os_path_join := posixpath.join;
     os_path_dirname := posixpath.dirname;
     os_pathsep := ":";
     sys_prefix := "/usr";
     ARCH := 64 |}.

(** The state [st'] differs from [st] by more companion files and more
    output only. *)
Definition grown_from (st st' : PyState) : Prop :=
  os_environ st' = os_environ st
  /\ (exists more, ENUM_EXTS st' = ENUM_EXTS st ++ more)
  /\ (exists lines, stdout st' = stdout st ++ lines).

(** An [Extension] as [make_extension] builds it from [config]: one source
    file, which exists and ends in the chosen extension, and the flags of
    [config]. *)
Definition well_built `{Host} (config : Config) (e : Extension.t) : Prop :=
  (exists stem,
     Extension.sources e = [stem +:+ "." +:+ SOURCE_EXT]
     /\ path_exists (stem +:+ "." +:+ SOURCE_EXT) = true)
  /\ Extension.extra_link_args e = link_args config
  /\ Extension.extra_compile_args e = compile_args config
  /\ Extension.library_dirs e = library_dirs config
  /\ Extension.libraries e = libraries config.

(** [c in s] and [s.count(c)] for a character [c]. *)
Fixpoint has_char (c : ascii) (s : string) : bool :=
  match s with
  | EmptyString => false
  | String c' s' => Ascii.eqb c' c || has_char c s'
  end.

Fixpoint count_char (c : ascii) (s : string) : nat :=
  match s with
  | EmptyString => O
  | String c' s' => (if Ascii.eqb c' c then 1 else 0) + count_char c s'
  end.

(** [GSSAPI_MECHS=krb5,ntlm,spnego] *)
Definition three_mechs_environ : gmap string string :=
  <["GSSAPI_MECHS" := "krb5,ntlm,spnego"]> ∅.

(** [s.isascii()] *)
Fixpoint isascii (s : string) : bool :=
  match s with
  | EmptyString => true
  | String c s' => (nat_of_ascii c <? 128)%nat && isascii s'
  end.

(** An ASCII string of at most 640 characters: whatever the encoding of
    the characters above 127 and whatever the limit on the digits,
    [PyInt.int] is [int] there. *)
Definition int_scope (s : string) : bool :=
  isascii s && (String.length s <=? 640)%nat.

(** [c in '0123456789'] *)
Definition is_digit (c : ascii) : bool :=
  match PyInt.digit_val c with
  | Some _ => true
  | None => false
  end.

(** A string of decimal digits, and a string of decimal digits and dots,
    the shape of a version [platform.mac_ver()[0]]; both may be empty. *)
Fixpoint all_digits (s : string) : bool :=
  match s with
  | EmptyString => true
  | String c s' => is_digit c && all_digits s'
  end.

Fixpoint dotted_digits (s : string) : bool :=
  match s with
  | EmptyString => true
  | String c s' => (is_digit c || Ascii.eqb c ".") && dotted_digits s'
  end.

(** What [Config._prefix] returns: the answer of the helper program, or
    [sys.prefix] when the helper ends in an exception. *)
Definition prefix_value `{Host} : string :=
  match get_output "krb5-config gssapi --prefix" with
  | Ok out => out
  | Raised _ => sys_prefix
  end.

(** The header [Config.__init__] looks for under that prefix, line 68. *)
Definition ext_h_path `{Host} : string :=
  os_path_join prefix_value "include/gssapi/gssapi_ext.h".

(** Every file exists but the source of the mechanism with the empty
    name. *)
Definition no_empty_mech_host : Host :=
  posix_host (fun p => negb (String.eqb p "gssapi/raw/mech_.c")) false.

(** A library with every symbol. *)
Definition all_symbols : CDLL := fun _ => true.

(** The part of a file name before its last dot (the whole name when it
    has no dot), as [os.path.splitext] gives it for a plain file name that
    does not start with a dot. *)
Fixpoint stem_go (acc cur : string) (seen_dot : bool) (s : string) : string :=
  match s with
  | EmptyString => if seen_dot then String.rev acc else String.rev cur
  | String c s' =>
      if Ascii.eqb c "."
      then stem_go cur (String c cur) true s'
      else stem_go acc (String c cur) seen_dot s'
  end.

Definition stem (name : string) : string := stem_go "" "" false name.

(** A Windows host: MIT Kerberos under Program Files with three import
    libraries, the framework found on darwin, a compiler version that
    [get_msvcr] does not know, a Cython that compiles every module to a C
    file of the same name, and a README. *)
Definition demo_libs : HostLibs :=
  {| ctypes_util_find_library := fun name =>
       if String.eqb name "GSS"
       then Some "/System/Library/Frameworks/GSS.framework/GSS" else None;
     os_path_join3 := fun a b c => a +:+ "\" +:+ b +:+ "\" +:+ c;
     os_path_splitext := fun name => (stem name, "");
     os_listdir := fun dir =>
       if String.eqb dir "C:\Program Files\MIT\Kerberos\lib\amd64"
       then Ok ["comerr64.lib"; "gssapi64.lib"; "krb5_64.lib"]
       else Raised (OSError dir);
     shutil_which := fun _ => None;
     get_msvcr := Raised (ValueError "Unknown MS Compiler version 1916");
     cythonize := fun mods => Ok mods;
     read_README := Ok "python-gssapi" |}.

(** The same libraries with another [ctypes.util.find_library]. *)
Definition with_find_library (f : string -> option string) (L : HostLibs)
  : HostLibs :=
  {| ctypes_util_find_library := f;
     os_path_join3 := @os_path_join3 L;
     os_path_splitext := @os_path_splitext L;
     os_listdir := @os_listdir L;
     shutil_which := @shutil_which L;
     get_msvcr := @get_msvcr L;
     cythonize := @cythonize L;
     read_README := @read_README L |}.

(** [ProgramFiles=C:\Program Files] *)
Definition windows_environ : gmap string string :=
  <["ProgramFiles" := "C:\Program Files"]> ∅.

(** A host on which the MIT Kerberos library loads. *)
Definition windows_host : Host :=
  host_loading "C:\Program Files\MIT\Kerberos\bin\gssapi64.dll" all_symbols.

(** A distribution object before any attribute is bound. *)
Definition fresh_distribution : Distribution :=
  {| _ext_modules := Unset; _cythonized_ext_modules := Unset;
     _last_run_command := Unset |}.

(** The distribution [d] with the compiled modules [c] remembered. *)
Definition with_cythonized (c : list Extension.t) (d : Distribution)
  : Distribution :=
  {| _ext_modules := _ext_modules d;
     _cythonized_ext_modules := Bound (Some c);
     _last_run_command := _last_run_command d |}.

(** A host with Cython and no marker file: the sources are the [pyx]
    files, which all exist. *)
Definition cython_host : Host :=
  posix_host (fun p => negb (String.eqb p SKIP_CYTHON_FILE)) true.

(** The same libraries with another [cythonize]. *)
Definition with_cythonize (f : list Extension.t -> Res (list Extension.t))
    (L : HostLibs) : HostLibs :=
  {| ctypes_util_find_library := @ctypes_util_find_library L;
     os_path_join3 := @os_path_join3 L;
     os_path_splitext := @os_path_splitext L;
     os_listdir := @os_listdir L;
     shutil_which := @shutil_which L;
     get_msvcr := @get_msvcr L;
     cythonize := f;
     read_README := @read_README L |}.

(** Two modules of the script as built from the [pyx] files, and a Cython
    that puts the C file it writes in the place of each source. *)
Definition demo_pyx_modules : list Extension.t :=
  [@core_ext cython_host (demo_config true (Some no_symbols)) "misc";
   @mech_ext cython_host (demo_config true (Some no_symbols)) "krb5"].

Definition compiled_module (e : Extension.t) : Extension.t :=
  {| Extension.name := Extension.name e;
     Extension.extra_link_args := Extension.extra_link_args e;
     Extension.extra_compile_args := Extension.extra_compile_args e;
     Extension.library_dirs := Extension.library_dirs e;
     Extension.libraries := Extension.libraries e;
     Extension.sources :=
       map (fun src => stem src +:+ ".c") (Extension.sources e);
     Extension.include_dirs := Extension.include_dirs e |}.

Definition cython_libs : HostLibs :=
  with_cythonize (fun mods => Ok (map compiled_module mods)) demo_libs.

(** A Cython that fails. *)
Definition failing_cython_libs : HostLibs :=
  with_cythonize
    (fun _ => Raised (Exception "Cython.Compiler.Errors.CompileError"))
    demo_libs.

(** The selection of [setup.py] on a full tree, for a library that lacks
    [gss_store_cred_into], after the warning of [Config._prefix]; and the
    same selection where the source of the one mechanism, of the empty
    name, is missing. *)
Definition demo_selection_run : Res (list Extension.t) * PyState :=
  @ext_modules full_tree_host (demo_config true (Some no_cred_store))
    setup_calls (warned_state two_mechs_environ).

Definition failing_selection_run : Res (list Extension.t) * PyState :=
  @ext_modules no_empty_mech_host (demo_config true (Some no_cred_store))
    setup_calls (warned_state (<["GSSAPI_MECHS" := EmptyString]> ∅)).

(** A packaging run that adds the archive to the tree, and one that
    fails. *)
Definition packaging (fs : FileSystem) : Res unit * FileSystem :=
  (Ok tt, <["dist/gssapi-1.5.1.tar.gz" := "archive"]> fs).

Definition failing_packaging (fs : FileSystem) : Res unit * FileSystem :=
  (Raised (OSError "dist"), fs).

(** * Properties *)

(** ** Runs of the definitions *)

Example partition_demo :
  partition_link_args ["-L/a"; "-lfoo"; "-Wl,-rpath,/b"]
  = {| lp_library_dirs := ["/a"]; lp_libraries := ["foo"];
       lp_link_args := ["-Wl,-rpath,/b"] |}.
Proof. reflexivity. Qed.

Example split_demo :
  PyStr.split "," "krb5,ntlm" = ["krb5"; "ntlm"] /\ PyStr.split "," "" = [""]
  /\ PyStr.split "." "10.7" = ["10"; "7"] /\ PyStr.format_s "gssapi.raw.%s" "misc" = "gssapi.raw.misc"
  /\ PyStr.str_of_int 64 = "64" /\ PyStr.lower "True " = "true ".
Proof. repeat split; reflexivity. Qed.

Example choose_demo :
  choose_config_class "posix" "darwin" "10.7.0" = Ok cls_DarwinGSSFrameWorkConfig
  /\ choose_config_class "posix" "darwin" "12.6" = Ok cls_DarwinGSSFrameWorkConfig
  /\ choose_config_class "posix" "darwin" "10.6.8" = Ok cls_Config
  /\ choose_config_class "posix" "darwin" "" = Raised (ValueError "")
  /\ choose_config_class "nt" "win32" "" = Ok cls_WindowsConfig
  /\ choose_config_class "posix" "msys" "" = Ok cls_MSYSConfig
  /\ choose_config_class "posix" "linux" "" = Ok cls_Config.
Proof. repeat split; reflexivity. Qed.

Example dirname_demo :
  posixpath.dirname "/mingw64/bin/libgss-3.dll" = "/mingw64/bin"
  /\ posixpath.dirname "/libgss" = "/" /\ posixpath.dirname "libgss" = ""
  /\ posixpath.join "/usr" "include/gssapi/gssapi_ext.h"
     = "/usr/include/gssapi/gssapi_ext.h".
Proof. repeat split; reflexivity. Qed.

Example int_demo :
  PyInt.int " 1_0 " = Some 10%Z /\ PyInt.int "1__0" = None
  /\ PyInt.int "-7" = Some (-7)%Z /\ PyInt.int "" = None
  /\ PyInt.int "7a" = None /\ mac_ver_ints "10.15.7" = Ok [10; 15; 7]%Z
  /\ PyInt.list_ge [10; 15; 7]%Z [10; 7; 0]%Z = true
  /\ PyInt.list_ge [10; 6; 8]%Z [10; 7; 0]%Z = false.
Proof. repeat split; reflexivity. Qed.

(** With the gate open and no library named [gssapi...] among the linker
    flags, construction ends in the exception of lines 80-85. *)
Example init_without_library :
  fst (@Config_init bare_host (@Config_members bare_host)
         (demo_state (<["GSSAPI_LINKER_ARGS" := "-L/a -lfoo"]>
                        (<["GSSAPI_COMPILER_ARGS" := "-I/a"]> ∅))))
  = Raised (Exception no_main_lib_message).
Proof. vm_compute. reflexivity. Qed.

(** The Heimdal layout: the library is looked for under the [-Wl,/...]
    directory; [bare_host] cannot load it. *)
Example init_heimdal :
  fst (@Config_init bare_host (@Config_members bare_host)
         (demo_state (<["GSSAPI_LINKER_ARGS" := "-Wl,/opt/heimdal/lib -lgssapi"]>
                        (<["GSSAPI_COMPILER_ARGS" := "-I/a"]> ∅))))
  = Raised (OSError "/opt/heimdal/lib/libgssapi.so").
Proof. vm_compute. reflexivity. Qed.

Example msys_init_demo :
  fst (@MSYSConfig_init full_tree_host (Some "/mingw64")
         (demo_state (<["GSSAPI_SUPPORT_DETECT" := "no"]> ∅)))
  = Ok {| library_dirs := []; libraries := ["gss"]; link_args := [];
          compile_args := ["-fPIC"; "-DHAS_GSSAPI_EXT_H"; "-D__MSYS__"];
          enable_support_detect := false; gssapi_lib := None |}.
Proof. vm_compute. reflexivity. Qed.

(** A run of the whole selection: the library lacks one symbol, two
    mechanisms are asked for. *)
Example ext_modules_demo :
  match @ext_modules full_tree_host (demo_config true (Some no_cred_store))
          (calls_of ["misc"; "creds"]
             [("s4u", "gss_acquire_cred_impersonate_name");
              ("cred_store", "gss_store_cred_into")])
          (demo_state two_mechs_environ) with
  | (Ok out, st) => Some (map Extension.name out, map Extension.sources out,
                          stdout st)
  | (Raised _, _) => None
  end
  = Some (["gssapi.raw.misc"; "gssapi.raw.creds"; "gssapi.raw.ext_s4u";
           "gssapi.raw.mech_krb5"; "gssapi.raw.mech_ntlm";
           "gssapi.raw._enum_extensions.ext_s4u"],
          [["gssapi/raw/misc.c"]; ["gssapi/raw/creds.c"];
           ["gssapi/raw/ext_s4u.c"]; ["gssapi/raw/mech_krb5.c"];
           ["gssapi/raw/mech_ntlm.c"];
           ["gssapi/raw/_enum_extensions/ext_s4u.c"]],
          ["Skipping the cred_store extension because it is not supported by your GSSAPI implementation..."]).
Proof. vm_compute. reflexivity. Qed.

(** ** [Config.__init__] in two halves *)

Section InitHalves.
Context `{Host}.

Lemma Config_init_split (cls : ConfigMembers) (st : PyState) :
  Config_init cls st
  = bind (before_gate cls) (fun tc => after_gate cls (fst tc) (snd tc)) st.
Proof.
  unfold Config_init, before_gate, after_gate, bind.
  destruct (environ_get_or _ _ st) as [[raw_link|e] st1]; [|reflexivity].
  destruct (shsplit raw_link st1) as [[tokens|e] st2]; [|reflexivity].
  destruct (environ_get_or _ _ st2) as [[raw_compile|e] st3]; [|reflexivity].
  destruct (shsplit raw_compile st3) as [[compile_args0|e] st4]; [|reflexivity].
  destruct (_prefix cls st4) as [[prefix|e] st5]; [|reflexivity].
  reflexivity.
Qed.

Lemma after_gate_fields (cls : ConfigMembers) (tokens cargs : list string)
    (st st' : PyState) (cfg : Config) :
  after_gate cls tokens cargs st = (Ok cfg, st') ->
  enable_support_detect cfg = support_detect_enabled (os_environ st)
  /\ library_dirs cfg = lp_library_dirs (partition_link_args tokens)
  /\ libraries cfg = lp_libraries (partition_link_args tokens)
  /\ link_args cfg = lp_link_args (partition_link_args tokens)
  /\ (enable_support_detect cfg = false -> gssapi_lib cfg = None /\ st' = st)
  /\ (enable_support_detect cfg = true -> exists lib, gssapi_lib cfg = Some lib).
Proof.
  unfold after_gate, bind, ret, raise, lift, environ_get.
  destruct (support_detect_enabled (os_environ st)) eqn:Hd.
  - destruct (os_environ st !! "GSSAPI_MAIN_LIB") as [p|].
    + destruct (ctypes_CDLL p) as [lib|e]; [|discriminate].
      intros [= <- <-]. cbn. repeat split; try discriminate; eauto.
    + destruct (_gssapi_lib_path cls _ _ st) as [[[p|]|e] st1]; try discriminate.
      destruct (ctypes_CDLL p) as [lib|e]; [|discriminate].
      intros [= <- <-]. cbn. repeat split; try discriminate; eauto.
  - intros [= <- <-]. cbn. repeat split; try discriminate; eauto.
Qed.

(** The attributes of a constructed [Config], from the tokens that were
    split. *)
Lemma Config_init_fields (cls : ConfigMembers) (st st' : PyState) (cfg : Config) :
  Config_init cls st = (Ok cfg, st') ->
  exists tokens cargs st1,
    before_gate cls st = (Ok (tokens, cargs), st1)
    /\ library_dirs cfg = lp_library_dirs (partition_link_args tokens)
    /\ libraries cfg = lp_libraries (partition_link_args tokens)
    /\ link_args cfg = lp_link_args (partition_link_args tokens).
Proof.
  rewrite Config_init_split. unfold bind.
  destruct (before_gate cls st) as [[[tokens cargs]|e] st1]; [|discriminate].
  cbn [fst snd]. intros Hafter. apply after_gate_fields in Hafter.
  destruct Hafter as (_ & Hd & Hl & Ha & _).
  exists tokens, cargs, st1. auto.
Qed.

End InitHalves.

(** ** The partition of the linker tokens *)

Lemma prefix_cons (a b : ascii) (s1 s2 : string) :
  String.prefix (String a s1) (String b s2)
  = if Ascii.eqb a b then String.prefix s1 s2 else false.
Proof.
  cbn [String.prefix]. destruct (ascii_dec a b) as [->|Hne].
  - rewrite Ascii.eqb_refl. reflexivity.
  - destruct (Ascii.eqb_spec a b); [contradiction | reflexivity].
Qed.

Lemma startswith_L_not_l (arg : string) :
  PyStr.startswith "-L" arg = true -> PyStr.startswith "-l" arg = false.
Proof.
  unfold PyStr.startswith.
  destruct arg as [|c1 [|c2 rest]]; try discriminate; rewrite !prefix_cons.
  - destruct (Ascii.eqb "-" c1); discriminate.
  - destruct (Ascii.eqb "-" c1); [|discriminate].
    destruct (Ascii.eqb_spec "L" c2) as [<-|]; [|discriminate]. reflexivity.
Qed.

Lemma partition_fold (tokens : list string) : forall acc,
  fold_left partition_step tokens acc
  = {| lp_library_dirs :=
         lp_library_dirs acc
         ++ map (PyStr.slice_from 2) (List.filter is_dir_token tokens);
       lp_libraries :=
         lp_libraries acc
         ++ map (PyStr.slice_from 2) (List.filter is_lib_token tokens);
       lp_link_args := lp_link_args acc ++ List.filter is_other_token tokens |}.
Proof.
  induction tokens as [|arg tokens IH]; intros acc.
  - simpl. rewrite !app_nil_r. destruct acc; reflexivity.
  - cbn [fold_left List.filter]. rewrite IH. clear IH.
    unfold partition_step, is_dir_token, is_lib_token, is_other_token.
    destruct (PyStr.startswith "-L" arg) eqn:HL.
    + rewrite (startswith_L_not_l arg HL). cbn.
      rewrite <- app_assoc. reflexivity.
    + destruct (PyStr.startswith "-l" arg) eqn:Hl; cbn;
        rewrite <- app_assoc; reflexivity.
Qed.

(** C1: the tokens are split by prefix, each token into exactly one of the
    three lists: [library_dirs] holds the remainders of the tokens that start
    with [-L], [libraries] the remainders of those that start with [-l],
    [link_args] all the others unchanged, each in the order of the input;
    the three lists together have as many elements as the input; and the
    tokens [-L/a], [-lfoo], [-Wl,-rpath,/b] give [/a], [foo] and
    [-Wl,-rpath,/b]; the three attributes of a constructed [Config] are
    this partition of the tokens [shsplit] returned. *)
Theorem partition_link_args_spec :
  (forall tokens : list string,
     lp_library_dirs (partition_link_args tokens)
     = map (PyStr.slice_from 2) (List.filter (PyStr.startswith "-L") tokens)
     /\ lp_libraries (partition_link_args tokens)
        = map (PyStr.slice_from 2) (List.filter (PyStr.startswith "-l") tokens)
     /\ lp_link_args (partition_link_args tokens)
        = List.filter
            (fun arg => negb (PyStr.startswith "-L" arg)
                        && negb (PyStr.startswith "-l" arg)) tokens
     /\ (length (lp_library_dirs (partition_link_args tokens))
         + length (lp_libraries (partition_link_args tokens))
         + length (lp_link_args (partition_link_args tokens))
         = length tokens)%nat)
  /\ (forall rest : string,
        PyStr.slice_from 2 ("-L" +:+ rest) = rest
        /\ PyStr.slice_from 2 ("-l" +:+ rest) = rest)
  /\ partition_link_args ["-L/a"; "-lfoo"; "-Wl,-rpath,/b"]
     = {| lp_library_dirs := ["/a"]; lp_libraries := ["foo"];
          lp_link_args := ["-Wl,-rpath,/b"] |}
  /\ (forall (H : Host) (cls : ConfigMembers) (st st' : PyState) (cfg : Config),
        Config_init cls st = (Ok cfg, st') ->
        exists tokens cargs st1,
          before_gate cls st = (Ok (tokens, cargs), st1)
          /\ library_dirs cfg = lp_library_dirs (partition_link_args tokens)
          /\ libraries cfg = lp_libraries (partition_link_args tokens)
          /\ link_args cfg = lp_link_args (partition_link_args tokens)).
Proof.
  split; [|split; [intros rest; split; reflexivity
                  |split; [reflexivity | intros H; apply Config_init_fields]]].
  intros tokens. unfold partition_link_args. rewrite partition_fold. cbn.
  repeat split; try reflexivity.
  rewrite !length_map.
  induction tokens as [|arg tokens IH]; [reflexivity|].
  cbn [List.filter length]. unfold is_dir_token, is_lib_token, is_other_token in *.
  destruct (PyStr.startswith "-L" arg) eqn:HL.
  - rewrite (startswith_L_not_l arg HL). cbn. lia.
  - destruct (PyStr.startswith "-l" arg); cbn; lia.
Qed.

Lemma partition_link_args_spec_witness :
  exists tokens cargs st1,
    @before_gate bare_host (@Config_members bare_host) gate_demo_state
    = (Ok (tokens, cargs), st1)
    /\ library_dirs gate_demo_config
       = lp_library_dirs (partition_link_args tokens)
    /\ libraries gate_demo_config = lp_libraries (partition_link_args tokens)
    /\ link_args gate_demo_config = lp_link_args (partition_link_args tokens).
Proof.
  apply (proj2 (proj2 (proj2 partition_link_args_spec))
           bare_host (@Config_members bare_host) gate_demo_state
           {| os_environ := gate_demo_environ; ENUM_EXTS := [];
              stdout := ["WARNING: couldn't find krb5-config; assuming prefix of /usr"] |}
           gate_demo_config).
  vm_compute. reflexivity.
Defined.

(** ** The class chosen for the platform *)

(** The choice is made for every input on which the version is not read or
    is a dotted list of integers; otherwise [int] raises. *)
Lemma choose_config_class_total (os_name sys_platform mac_ver : string) :
  (exists c, choose_config_class os_name sys_platform mac_ver = Ok c)
  \/ (os_name <> "nt" /\ sys_platform = "darwin"
      /\ exists e, mac_ver_ints mac_ver = Raised e
                   /\ choose_config_class os_name sys_platform mac_ver = Raised e).
Proof.
  unfold choose_config_class.
  destruct (String.eqb_spec os_name "nt") as [->|Hnt]; [left; eauto|].
  destruct (String.eqb_spec sys_platform "darwin") as [->|Hd].
  - destruct (mac_ver_ints mac_ver) as [v|e] eqn:Hv.
    + left. destruct (PyInt.list_ge v _); [eauto|].
      destruct (String.eqb "darwin" "msys"); eauto.
    + right. repeat split; eauto.
  - left. destruct (String.eqb sys_platform "msys"); eauto.
Qed.

(** Which class is chosen, in the order of the tests. *)
Lemma choose_config_class_cases (os_name sys_platform mac_ver : string) :
  (os_name = "nt" ->
     choose_config_class os_name sys_platform mac_ver = Ok cls_WindowsConfig)
  /\ (forall v, os_name <> "nt" -> sys_platform = "darwin" ->
        mac_ver_ints mac_ver = Ok v ->
        choose_config_class os_name sys_platform mac_ver
        = Ok (if PyInt.list_ge v [10; 7; 0]%Z then cls_DarwinGSSFrameWorkConfig
              else cls_Config))
  /\ (os_name <> "nt" -> sys_platform = "msys" ->
        choose_config_class os_name sys_platform mac_ver = Ok cls_MSYSConfig)
  /\ (os_name <> "nt" -> sys_platform <> "darwin" -> sys_platform <> "msys" ->
        choose_config_class os_name sys_platform mac_ver = Ok cls_Config).
Proof.
  unfold choose_config_class. repeat split.
  - intros ->. reflexivity.
  - intros v Hnt -> Hv. rewrite Hv.
    destruct (String.eqb_spec os_name "nt"); [contradiction|].
    cbn. destruct (PyInt.list_ge v _); reflexivity.
  - intros Hnt ->. destruct (String.eqb_spec os_name "nt"); [contradiction|].
    reflexivity.
  - intros Hnt Hd Hm.
    destruct (String.eqb_spec os_name "nt"); [contradiction|].
    destruct (String.eqb_spec sys_platform "darwin"); [contradiction|].
    destruct (String.eqb_spec sys_platform "msys"); [contradiction|].
    reflexivity.
Qed.

(** C2: on darwin with the version string [10.7] the version list is
    [[10; 7]], which is not [>= [10; 7; 0]], and the class chosen is the
    default [Config], not [DarwinGSSFrameWorkConfig]; [10.7.0] and [10.8] do
    choose the Darwin class. *)
Theorem choose_config_class_lion :
  mac_ver_ints "10.7" = Ok [10; 7]%Z
  /\ PyInt.list_ge [10; 7]%Z [10; 7; 0]%Z = false
  /\ choose_config_class "posix" "darwin" "10.7" = Ok cls_Config
  /\ choose_config_class "posix" "darwin" "10.7.0"
     = Ok cls_DarwinGSSFrameWorkConfig
  /\ choose_config_class "posix" "darwin" "10.8"
     = Ok cls_DarwinGSSFrameWorkConfig.
Proof. repeat split; reflexivity. Qed.

(** ** The source format *)

(** C4: with the marker file present the extension is [c] whether or not
    Cython can be imported; with the marker absent it is [pyx] exactly when
    Cython can be imported and [c] otherwise. *)
Theorem SOURCE_EXT_spec (H : Host) :
  (path_exists SKIP_CYTHON_FILE = true -> SOURCE_EXT = "c")
  /\ (path_exists SKIP_CYTHON_FILE = false ->
      (SOURCE_EXT = "pyx" <-> cython_importable = true)
      /\ (SOURCE_EXT = "c" <-> cython_importable = false)).
Proof.
  unfold SOURCE_EXT, source_format. split.
  - intros ->. reflexivity.
  - intros ->. destruct cython_importable; cbn; repeat split; congruence.
Qed.

Lemma SOURCE_EXT_spec_witness :
  @SOURCE_EXT (posix_host (fun _ => true) true) = "c"
  /\ @SOURCE_EXT (posix_host (fun _ => false) true) = "pyx"
  /\ @SOURCE_EXT (posix_host (fun _ => false) false) = "c".
Proof.
  split; [|split].
  - apply (proj1 (SOURCE_EXT_spec (posix_host (fun _ => true) true))).
    reflexivity.
  - apply (proj2 (SOURCE_EXT_spec (posix_host (fun _ => false) true))
             eq_refl). reflexivity.
  - apply (proj2 (SOURCE_EXT_spec (posix_host (fun _ => false) false))
             eq_refl). reflexivity.
Defined.

(** ** The support-detection gate *)

Lemma keeps_environ_ret {A} (a : A) : keeps_environ (ret a).
Proof. intros st. reflexivity. Qed.

Lemma keeps_environ_lift {A} (r : Res A) : keeps_environ (lift r).
Proof. intros st. reflexivity. Qed.

Lemma keeps_environ_bind {A B} (m : Py A) (k : A -> Py B) :
  keeps_environ m -> (forall a, keeps_environ (k a)) -> keeps_environ (bind m k).
Proof.
  intros Hm Hk st. unfold bind. specialize (Hm st).
  destruct (m st) as [[a|e] st1]; cbn in *; [|exact Hm].
  rewrite <- Hm. apply Hk.
Qed.

Lemma keeps_environ_print (line : string) : keeps_environ (print line).
Proof. intros st. reflexivity. Qed.

Lemma keeps_environ_environ_get (key : string) : keeps_environ (environ_get key).
Proof. intros st. reflexivity. Qed.

Create HintDb keeps.
#[local] Hint Resolve keeps_environ_ret keeps_environ_lift keeps_environ_print
  keeps_environ_environ_get : keeps.

Section GateWithHost.
Context `{Host}.

Lemma keeps_environ_shsplit (v : ArgsValue) : keeps_environ (shsplit v).
Proof. destruct v; cbn; auto with keeps. Qed.

Lemma keeps_environ_environ_get_or (key : string) (d : Py ArgsValue) :
  keeps_environ d -> keeps_environ (environ_get_or key d).
Proof.
  intros Hd. apply keeps_environ_bind; [auto with keeps|].
  intros [s|]; [destruct (PyStr.truthy s)|]; auto with keeps.
Qed.

Lemma keeps_environ_Config_prefix : keeps_environ Config_prefix.
Proof.
  unfold Config_prefix. destruct (get_output _); [auto with keeps|].
  apply keeps_environ_bind; auto with keeps.
Qed.

Lemma Config_members_keep_environ : members_keep_environ Config_members.
Proof.
  repeat split; cbn;
    try (apply keeps_environ_bind; intros; auto with keeps).
  apply keeps_environ_Config_prefix.
Qed.

Lemma MSYSConfig_members_keep_environ (mingw_prefix : option string) :
  members_keep_environ (MSYSConfig_members mingw_prefix).
Proof.
  unfold MSYSConfig_members.
  destruct (truthy_opt mingw_prefix);
    repeat split; cbn;
    try (apply keeps_environ_bind; intros; auto with keeps);
    auto using keeps_environ_Config_prefix with keeps.
Qed.

Lemma keeps_environ_before_gate (cls : ConfigMembers) :
  members_keep_environ cls -> keeps_environ (before_gate cls).
Proof.
  intros (Hl & Hc & Hp). unfold before_gate.
  repeat (apply keeps_environ_bind;
          [auto using keeps_environ_environ_get_or, keeps_environ_shsplit
          | intros ?]).
  auto with keeps.
Qed.

End GateWithHost.

Lemma support_detect_enabled_iff (environ : gmap string string) :
  support_detect_enabled environ = true
  <-> (environ !! "GSSAPI_SUPPORT_DETECT" = None
       \/ exists v, environ !! "GSSAPI_SUPPORT_DETECT" = Some v
                    /\ PyStr.lower v = "true").
Proof.
  unfold support_detect_enabled.
  destruct (environ !! "GSSAPI_SUPPORT_DETECT") as [v|]; cbn [default].
  - rewrite String.eqb_eq. split.
    + intros Hv. right. exists v. auto.
    + intros [Hn | (v' & [= <-] & Hv)]; [discriminate | exact Hv].
  - split; [intros _; left; reflexivity | intros _; reflexivity].
Qed.

(** C10: the gate is open exactly when [GSSAPI_SUPPORT_DETECT] is unset or
    its lowercased value is [true]; the values [1], [yes] and [True ] (with
    a blank) close it; the flag [Config.__init__] stores is that gate, with
    the gate closed [__init__] returns as soon as the flags are read, and
    then [gssapi_lib] is [None]. *)
Theorem support_detect_gate :
  (forall environ : gmap string string,
     support_detect_enabled environ = true
     <-> (environ !! "GSSAPI_SUPPORT_DETECT" = None
          \/ exists v, environ !! "GSSAPI_SUPPORT_DETECT" = Some v
                       /\ PyStr.lower v = "true"))
  /\ (forall (environ : gmap string string) (v : string),
        environ !! "GSSAPI_SUPPORT_DETECT" = Some v ->
        In v ["1"; "yes"; "True "] ->
        support_detect_enabled environ = false)
  /\ (forall (H : Host) (cls : ConfigMembers) (st st' : PyState) (cfg : Config),
        members_keep_environ cls ->
        Config_init cls st = (Ok cfg, st') ->
        enable_support_detect cfg = support_detect_enabled (os_environ st)
        /\ (enable_support_detect cfg = false -> gssapi_lib cfg = None))
  /\ (forall (H : Host) (cls : ConfigMembers) (st st1 : PyState)
             (tokens cargs : list string),
        members_keep_environ cls ->
        support_detect_enabled (os_environ st) = false ->
        before_gate cls st = (Ok (tokens, cargs), st1) ->
        exists cfg, Config_init cls st = (Ok cfg, st1)
                    /\ enable_support_detect cfg = false
                    /\ gssapi_lib cfg = None).
Proof.
  split; [exact support_detect_enabled_iff|]. split; [|split].
  - intros environ v Hv Hin. unfold support_detect_enabled. rewrite Hv.
    cbn [default]. cbn in Hin.
    destruct Hin as [<-|[<-|[<-|[]]]]; reflexivity.
  - intros H cls st st' cfg Hk. rewrite Config_init_split. unfold bind.
    pose proof (keeps_environ_before_gate cls Hk st) as Henv.
    destruct (before_gate cls st) as [[[tokens cargs]|e] st1]; [|discriminate].
    cbn in Henv. cbn [fst snd]. intros Hafter.
    apply after_gate_fields in Hafter.
    destruct Hafter as (He & _ & _ & _ & Hoff & _).
    rewrite Henv in He. split; [exact He|]. intros Hf. apply Hoff, Hf.
  - intros H cls st st1 tokens cargs Hk Hoff Hb.
    pose proof (keeps_environ_before_gate cls Hk st) as Henv.
    rewrite Hb in Henv. cbn in Henv.
    rewrite Config_init_split. unfold bind. rewrite Hb. cbn [fst snd].
    unfold after_gate, bind. rewrite Henv, Hoff.
    eexists. split; [reflexivity|]. split; reflexivity.
Qed.

Lemma support_detect_gate_witness :
  support_detect_enabled gate_demo_environ = false
  /\ enable_support_detect gate_demo_config
     = support_detect_enabled gate_demo_environ
  /\ gssapi_lib gate_demo_config = None.
Proof.
  pose (H := posix_host (fun _ => false) false).
  pose (st' := {| os_environ := gate_demo_environ; ENUM_EXTS := [];
                  stdout := ["WARNING: couldn't find krb5-config; assuming prefix of /usr"] |}).
  assert (Hrun : @Config_init H Config_members gate_demo_state
                 = (Ok gate_demo_config, st')) by (vm_compute; reflexivity).
  destruct support_detect_gate as (_ & Hvals & Hinit & _).
  split.
  - apply (Hvals gate_demo_environ "True "); [vm_compute; reflexivity|].
    cbn. auto.
  - destruct (Hinit H Config_members gate_demo_state st' gate_demo_config
                (@Config_members_keep_environ H) Hrun) as [He Hlib].
    split; [exact He|]. apply Hlib. reflexivity.
Defined.

(** ** The module selection, call by call *)

Section SelectorSpec.
Context `{Host}.
Variable config : Config.

#[local] Arguments skip_message : simpl never.
#[local] Arguments source_of : simpl never.
#[local] Arguments extension_of : simpl never.

Lemma make_extension_present (fmt m : string) (dirs : list string) (st : PyState) :
  path_exists (source_of fmt m) = true ->
  make_extension config fmt m dirs st = (Ok (extension_of config fmt m dirs), st).
Proof. intros Hp. unfold make_extension. rewrite Hp. reflexivity. Qed.

Lemma make_extension_missing (fmt m : string) (dirs : list string) (st : PyState) :
  path_exists (source_of fmt m) = false ->
  make_extension config fmt m dirs st = (Raised (OSError (source_of fmt m)), st).
Proof. intros Hp. unfold make_extension. rewrite Hp. reflexivity. Qed.

Lemma after_calls_nil (st : PyState) : after_calls config [] st = st.
Proof. unfold after_calls. cbn. rewrite !app_nil_r. destruct st; reflexivity. Qed.

Lemma after_calls_cons (c : ModuleCall) (calls : list ModuleCall) (st : PyState) :
  after_calls config (c :: calls) st = after_calls config calls (after_calls config [c] st).
Proof.
  unfold after_calls. cbn.
  destruct (call_companion config c), (call_message config c); cbn;
    rewrite ?app_nil_r, <- ?app_assoc; reflexivity.
Qed.

(** One call whose source is there. *)
Lemma eval_call_present (c : ModuleCall) (st : PyState) :
  source_present config c = true ->
  eval_call config c st = (Ok (call_result config c), after_calls config [c] st).
Proof.
  unfold source_present, after_calls.
  destruct c as [m | m canary]; cbn [eval_call omap list_omap];
    unfold call_source, call_result, call_companion, call_message.
  - intros Hp. unfold main_file, bind. rewrite make_extension_present by exact Hp.
    cbn. rewrite !app_nil_r. destruct st; reflexivity.
  - unfold extension_file. destruct (unsupported config canary).
    + intros _. cbn. rewrite app_nil_r. reflexivity.
    + intros Hp. unfold bind, pass_on_OSError.
      destruct (path_exists (source_of "gssapi.raw._enum_extensions.ext_%s" m))
        eqn:Hc.
      * rewrite make_extension_present by exact Hc. cbn.
        rewrite make_extension_present by exact Hp. cbn.
        rewrite app_nil_r. reflexivity.
      * rewrite make_extension_missing by exact Hc.
        rewrite make_extension_present by exact Hp. cbn.
        rewrite !app_nil_r. destruct st; reflexivity.
Qed.

(** One call whose source is missing. *)
Lemma eval_call_missing (c : ModuleCall) (st : PyState) :
  source_present config c = false ->
  exists s st', eval_call config c st = (Raised (OSError s), st')
                /\ call_source config c = Some s /\ path_exists s = false.
Proof.
  unfold source_present.
  destruct c as [m | m canary]; cbn [call_source eval_call].
  - intros Hp. unfold main_file, bind. rewrite make_extension_missing by exact Hp.
    eauto.
  - unfold extension_file. destruct (unsupported config canary); [discriminate|].
    intros Hp. unfold bind, pass_on_OSError.
    destruct (path_exists (source_of "gssapi.raw._enum_extensions.ext_%s" m))
      eqn:Hc.
    + rewrite make_extension_present by exact Hc. cbn.
      rewrite make_extension_missing by exact Hp. eauto.
    + rewrite make_extension_missing by exact Hc.
      rewrite make_extension_missing by exact Hp. eauto.
Qed.

Lemma for_each_calls_present (calls : list ModuleCall) : forall st,
  forallb (source_present config) calls = true ->
  for_each (eval_call config) calls st
  = (Ok (map (call_result config) calls), after_calls config calls st).
Proof.
  induction calls as [|c calls IH]; intros st Hall.
  - cbn. rewrite after_calls_nil. reflexivity.
  - cbn in Hall. apply andb_true_iff in Hall as [Hc Hrest].
    cbn [for_each]. unfold bind at 1. rewrite eval_call_present by exact Hc.
    unfold bind at 1. rewrite IH by exact Hrest.
    rewrite (after_calls_cons c calls). reflexivity.
Qed.

Lemma for_each_calls_missing (calls : list ModuleCall) : forall st,
  forallb (source_present config) calls = false ->
  exists s st', for_each (eval_call config) calls st = (Raised (OSError s), st')
                /\ path_exists s = false.
Proof.
  induction calls as [|c calls IH]; intros st Hall; [discriminate|].
  cbn in Hall. cbn [for_each]. unfold bind at 1.
  destruct (source_present config c) eqn:Hc.
  - rewrite eval_call_present by exact Hc.
    destruct (IH (after_calls config [c] st) Hall) as (s & st' & Hrun & Hs).
    unfold bind at 1. rewrite Hrun. eauto.
  - destruct (eval_call_missing c st Hc) as (s & st' & Hrun & _ & Hs).
    rewrite Hrun. eauto.
Qed.

Lemma for_each_mechs_present (mechs : list string) (st : PyState) :
  forallb mech_present mechs = true ->
  for_each (fun mech => make_extension config "gssapi.raw.mech_%s" mech [])
           mechs st
  = (Ok (map (mech_ext config) mechs), st).
Proof.
  induction mechs as [|m mechs IH]; intros Hall; [reflexivity|].
  cbn in Hall. apply andb_true_iff in Hall as [Hm Hrest].
  cbn [for_each]. unfold bind at 1.
  rewrite make_extension_present by exact Hm.
  unfold bind at 1. rewrite IH by exact Hrest. reflexivity.
Qed.

Lemma for_each_mechs_missing (mechs : list string) (st : PyState) :
  forallb mech_present mechs = false ->
  exists s, for_each (fun mech => make_extension config "gssapi.raw.mech_%s" mech [])
                     mechs st
            = (Raised (OSError s), st)
            /\ path_exists s = false.
Proof.
  induction mechs as [|m mechs IH]; intros Hall; [discriminate|].
  cbn in Hall. cbn [for_each]. unfold bind at 1.
  destruct (mech_present m) eqn:Hm.
  - rewrite make_extension_present by exact Hm.
    destruct (IH Hall) as (s & Hrun & Hs). unfold bind at 1. rewrite Hrun. eauto.
  - rewrite make_extension_missing by exact Hm. eauto.
Qed.

(** [gssapi_modules] when every mechanism has its source file. *)
Lemma gssapi_modules_present (lst : list (option Extension.t)) (st : PyState) :
  forallb mech_present (mechs_of (os_environ st)) = true ->
  gssapi_modules config lst st
  = (Ok (omap id lst ++ map (mech_ext config) (mechs_of (os_environ st)) ++ ENUM_EXTS st),
     st).
Proof.
  intros Hall. unfold gssapi_modules, bind at 1.
  unfold bind at 1. rewrite for_each_mechs_present by exact Hall.
  reflexivity.
Qed.

Lemma omap_id_map_call_result (calls : list ModuleCall) :
  omap id (map (call_result config) calls) = omap (call_result config) calls.
Proof.
  induction calls as [|c calls IH]; [reflexivity|].
  cbn. rewrite IH. destruct (call_result config c); reflexivity.
Qed.

(** The whole selection when no source file is missing. *)
Lemma ext_modules_present (calls : list ModuleCall) (st : PyState) :
  forallb (source_present config) calls = true ->
  forallb mech_present (mechs_of (os_environ st)) = true ->
  ext_modules config calls st
  = (Ok (omap (call_result config) calls
         ++ map (mech_ext config) (mechs_of (os_environ st))
         ++ ENUM_EXTS st ++ omap (call_companion config) calls),
     after_calls config calls st).
Proof.
  intros Hcalls Hmechs. unfold ext_modules, bind.
  rewrite for_each_calls_present by exact Hcalls.
  rewrite gssapi_modules_present by exact Hmechs.
  rewrite omap_id_map_call_result. reflexivity.
Qed.

(** The whole selection when the source of one of the calls is missing. *)
Lemma ext_modules_missing (calls : list ModuleCall) (st : PyState) :
  forallb (source_present config) calls = false ->
  exists s st', ext_modules config calls st = (Raised (OSError s), st')
                /\ path_exists s = false.
Proof.
  intros Hcalls. unfold ext_modules, bind.
  destruct (for_each_calls_missing calls st Hcalls) as (s & st' & Hrun & Hs).
  rewrite Hrun. eauto.
Qed.

End SelectorSpec.

(** ** The selection as a whole *)

Section Selection.
Context `{Host}.
Variable config : Config.

Lemma omap_app {A B} (f : A -> option B) (l1 l2 : list A) :
  omap f (l1 ++ l2) = omap f l1 ++ omap f l2.
Proof.
  induction l1 as [|a l1 IH]; [reflexivity|].
  cbn. rewrite IH. destruct (f a); reflexivity.
Qed.

Lemma omap_mains_result (cores : list string) :
  omap (call_result config) (map call_main_file cores)
  = map (core_ext config) cores.
Proof. induction cores as [|m cores IH]; [reflexivity|]. cbn. rewrite IH. reflexivity. Qed.

Lemma omap_mains_none (f : ModuleCall -> option Extension.t) (cores : list string) :
  (forall m, f (call_main_file m) = None) ->
  omap f (map call_main_file cores) = [].
Proof.
  intros Hf. induction cores as [|m cores IH]; [reflexivity|].
  cbn. rewrite Hf. exact IH.
Qed.

Lemma omap_mains_message (cores : list string) :
  omap (call_message config) (map call_main_file cores) = [].
Proof. induction cores as [|m cores IH]; [reflexivity|]. exact IH. Qed.

Lemma omap_opts_result (opts : list (string * string)) :
  omap (call_result config)
       (map (fun mc => call_extension_file (fst mc) (snd mc)) opts)
  = map (optional_ext config) (supported_modules config opts).
Proof.
  unfold supported_modules.
  induction opts as [|[m canary] opts IH]; [reflexivity|].
  cbn. rewrite IH. destruct (unsupported config canary); reflexivity.
Qed.

Lemma omap_opts_companion (opts : list (string * string)) :
  omap (call_companion config)
       (map (fun mc => call_extension_file (fst mc) (snd mc)) opts)
  = map (companion_ext config) (companion_modules config opts).
Proof.
  unfold companion_modules.
  induction opts as [|[m canary] opts IH]; [reflexivity|].
  cbn. rewrite IH. destruct (unsupported config canary); [reflexivity|].
  cbn. destruct (path_exists _); reflexivity.
Qed.

Lemma omap_opts_message (opts : list (string * string)) :
  omap (call_message config)
       (map (fun mc => call_extension_file (fst mc) (snd mc)) opts)
  = map skip_message (skipped_modules config opts).
Proof.
  unfold skipped_modules.
  induction opts as [|[m canary] opts IH]; [reflexivity|].
  cbn. rewrite IH. destruct (unsupported config canary); reflexivity.
Qed.

Lemma sources_present_calls (cores : list string) (opts : list (string * string))
    (environ : gmap string string) :
  sources_present config cores opts environ ->
  forallb (source_present config) (calls_of cores opts) = true
  /\ forallb (mech_present) (mechs_of environ) = true.
Proof.
  intros (Hc & Ho & Hm). split.
  - apply forallb_forall. intros c Hin. unfold calls_of in Hin.
    apply in_app_iff in Hin as [Hin | Hin]; apply in_map_iff in Hin.
    + destruct Hin as (m & <- & Hin). apply Hc, Hin.
    + destruct Hin as ([m canary] & <- & Hin). unfold source_present. cbn.
      destruct (unsupported config canary) eqn:Hu; [reflexivity|].
      apply Ho. unfold supported_modules. apply in_map_iff.
      exists (m, canary). split; [reflexivity|].
      apply filter_In. split; [exact Hin|]. cbn. rewrite Hu. reflexivity.
  - apply forallb_forall. intros m Hin. apply Hm, Hin.
Qed.

Lemma missing_core_calls (cores : list string) (opts : list (string * string))
    (m : string) :
  In m cores -> path_exists (source_of "gssapi.raw.%s" m) = false ->
  forallb (source_present config) (calls_of cores opts) = false.
Proof.
  intros Hin Hp.
  destruct (forallb _ _) eqn:Hall; [|reflexivity].
  rewrite forallb_forall in Hall.
  specialize (Hall (call_main_file m)). unfold source_present in Hall.
  cbn in Hall. rewrite Hp in Hall. symmetry. apply Hall.
  unfold calls_of. apply in_app_iff. left. apply in_map. exact Hin.
Qed.

(** What [ext_modules] returns and the state it leaves, when no needed
    source file is missing and [ENUM_EXTS] starts empty (line 293). *)
Lemma ext_modules_selection (cores : list string) (opts : list (string * string))
    (st : PyState) :
  ENUM_EXTS st = [] ->
  sources_present config cores opts (os_environ st) ->
  ext_modules config (calls_of cores opts) st
  = (Ok (selection config cores opts (os_environ st)),
     {| os_environ := os_environ st;
        ENUM_EXTS := map (companion_ext config) (companion_modules config opts);
        stdout := stdout st ++ map skip_message (skipped_modules config opts) |}).
Proof.
  intros Hempty Hsrc.
  destruct (sources_present_calls _ _ _ Hsrc) as [Hcalls Hmechs].
  rewrite ext_modules_present by assumption.
  unfold selection, after_calls, calls_of.
  rewrite !omap_app, omap_mains_result, omap_opts_result, omap_opts_companion,
    omap_opts_message, omap_mains_message, Hempty.
  rewrite (omap_mains_none (call_companion config)) by reflexivity.
  cbn [app]. rewrite <- !app_assoc. reflexivity.
Qed.

End Selection.

(** ** The order of the selection *)

(** C3, as stated, fails: for the list of [setup.py] itself, with every
    source file present and detection off, the element after the ten core
    files is [gssapi.raw.ext_s4u], not the mechanism file. *)
Lemma claimed_order_fails :
  ~ @claimed_order full_tree_host (demo_config false None)
      core_modules optional_modules (demo_state ∅).
Proof.
  intros Hclaim.
  edestruct Hclaim as [rest Hrest].
  { apply (@ext_modules_selection full_tree_host); [reflexivity|].
    repeat split; intros; reflexivity. }
  apply (f_equal (fun l => Extension.name <$> l !! 10%nat)) in Hrest.
  vm_compute in Hrest. discriminate Hrest.
Qed.

(** C3, amended: when no needed source file is missing, the list returned
    is the core files, then the optional files that pass the test of line
    297, then the mechanism files, then the companion files whose source
    exists, each group in the order of the list passed to
    [gssapi_modules]. *)
Theorem ext_modules_order (H : Host) (config : Config) (cores : list string)
    (opts : list (string * string)) (st : PyState) :
  ENUM_EXTS st = [] ->
  sources_present config cores opts (os_environ st) ->
  exists st',
    ext_modules config (calls_of cores opts) st
    = (Ok (map (core_ext config) cores
           ++ map (optional_ext config) (supported_modules config opts)
           ++ map (mech_ext config) (mechs_of (os_environ st))
           ++ map (companion_ext config) (companion_modules config opts)),
       st').
Proof.
  intros Hempty Hsrc. eexists.
  apply ext_modules_selection; assumption.
Qed.

Lemma ext_modules_order_witness :
  exists st',
    @ext_modules full_tree_host (demo_config false None) setup_calls
      (demo_state ∅)
    = (Ok (map (@core_ext full_tree_host (demo_config false None)) core_modules
           ++ map (@optional_ext full_tree_host (demo_config false None))
                  (map fst optional_modules)
           ++ [@mech_ext full_tree_host (demo_config false None) "krb5"]
           ++ map (@companion_ext full_tree_host (demo_config false None))
                  (map fst optional_modules)),
       st').
Proof.
  assert (Hsrc : @sources_present full_tree_host (demo_config false None)
                   core_modules optional_modules (os_environ (demo_state ∅)))
    by (repeat split; intros; reflexivity).
  exact (ext_modules_order full_tree_host (demo_config false None)
           core_modules optional_modules (demo_state ∅) eq_refl Hsrc).
Defined.

(** ** Detection switched off *)

Lemma filter_all {A} (f : A -> bool) (l : list A) :
  (forall a, f a = true) -> List.filter f l = l.
Proof.
  intros Hf. induction l as [|a l IH]; [reflexivity|].
  cbn. rewrite Hf, IH. reflexivity.
Qed.

Lemma filter_none {A} (f : A -> bool) (l : list A) :
  (forall a, f a = false) -> List.filter f l = [].
Proof.
  intros Hf. induction l as [|a l IH]; [reflexivity|].
  cbn. rewrite Hf. exact IH.
Qed.

Lemma List_filter_ext {A} (f g : A -> bool) (l : list A) :
  (forall a, f a = g a) -> List.filter f l = List.filter g l.
Proof.
  intros Hfg. induction l as [|a l IH]; [reflexivity|].
  cbn. rewrite Hfg, IH. reflexivity.
Qed.

Section DetectionOff.
Context `{Host}.
Variable config : Config.
Hypothesis detection_off : enable_support_detect config = false.

Lemma unsupported_off (canary : string) : unsupported config canary = false.
Proof. unfold unsupported. rewrite detection_off. reflexivity. Qed.

Lemma supported_modules_off (opts : list (string * string)) :
  supported_modules config opts = map fst opts.
Proof.
  unfold supported_modules. rewrite filter_all; [reflexivity|].
  intros mc. rewrite unsupported_off. reflexivity.
Qed.

Lemma skipped_modules_off (opts : list (string * string)) :
  skipped_modules config opts = [].
Proof.
  unfold skipped_modules. rewrite filter_none; [reflexivity|].
  intros mc. apply unsupported_off.
Qed.

Lemma unsupported_with_lib (lib : option CDLL) (canary : string) :
  unsupported (with_gssapi_lib config lib) canary = unsupported config canary.
Proof. unfold unsupported. cbn. rewrite detection_off. reflexivity. Qed.

Lemma supported_modules_with_lib (lib : option CDLL)
    (opts : list (string * string)) :
  supported_modules (with_gssapi_lib config lib) opts
  = supported_modules config opts.
Proof.
  unfold supported_modules. f_equal. apply List_filter_ext. intros mc.
  rewrite unsupported_with_lib. reflexivity.
Qed.

Lemma companion_modules_with_lib (lib : option CDLL)
    (opts : list (string * string)) :
  companion_modules (with_gssapi_lib config lib) opts
  = companion_modules config opts.
Proof.
  unfold companion_modules. f_equal. apply List_filter_ext. intros mc.
  rewrite unsupported_with_lib. reflexivity.
Qed.

Lemma skipped_modules_with_lib (lib : option CDLL)
    (opts : list (string * string)) :
  skipped_modules (with_gssapi_lib config lib) opts
  = skipped_modules config opts.
Proof.
  unfold skipped_modules. f_equal. apply List_filter_ext. intros mc.
  apply unsupported_with_lib.
Qed.

Lemma selection_off (lib : option CDLL) (cores : list string)
    (opts : list (string * string)) (environ : gmap string string) :
  selection (with_gssapi_lib config lib) cores opts environ
  = selection config cores opts environ.
Proof.
  unfold selection.
  rewrite supported_modules_with_lib, companion_modules_with_lib. reflexivity.
Qed.

End DetectionOff.

(** C5: with detection off and no needed source file missing, the list is
    returned and holds the file of every optional module of the list
    passed, nothing is skipped and nothing is printed, and the result is
    the same for every probe handle: [hasattr] is not consulted. *)
Theorem detection_off_keeps_optional (H : Host) (config : Config)
    (cores : list string) (opts : list (string * string)) (st : PyState) :
  enable_support_detect config = false ->
  ENUM_EXTS st = [] ->
  (forall m, In m cores -> path_exists (source_of "gssapi.raw.%s" m) = true) ->
  (forall m canary, In (m, canary) opts ->
     path_exists (source_of "gssapi.raw.ext_%s" m) = true) ->
  (forall m, In m (mechs_of (os_environ st)) ->
     path_exists (source_of "gssapi.raw.mech_%s" m) = true) ->
  exists out st',
    ext_modules config (calls_of cores opts) st = (Ok out, st')
    /\ (forall m canary, In (m, canary) opts -> In (optional_ext config m) out)
    /\ stdout st' = stdout st
    /\ (forall lib : option CDLL,
          ext_modules (with_gssapi_lib config lib) (calls_of cores opts) st
          = (Ok out, st')).
Proof.
  intros Hoff Hempty Hcores Hopts Hmechs.
  assert (Hsrc : forall lib, sources_present (with_gssapi_lib config lib)
                               cores opts (os_environ st)).
  { intros lib. repeat split; try assumption.
    intros m Hin. rewrite supported_modules_off in Hin by exact Hoff.
    apply in_map_iff in Hin as ([m' canary] & <- & Hin). eapply Hopts, Hin. }
  assert (Hsrc0 : sources_present config cores opts (os_environ st)).
  { repeat split; try assumption.
    intros m Hin. rewrite supported_modules_off in Hin by exact Hoff.
    apply in_map_iff in Hin as ([m' canary] & <- & Hin). eapply Hopts, Hin. }
  eexists. eexists. split; [apply ext_modules_selection; assumption|].
  split; [|split].
  - intros m canary Hin. unfold selection.
    apply in_app_iff. right. apply in_app_iff. left.
    rewrite supported_modules_off by exact Hoff.
    apply in_map. apply (in_map fst _ _ Hin).
  - cbn. rewrite skipped_modules_off by exact Hoff. apply app_nil_r.
  - intros lib. rewrite ext_modules_selection by (try apply Hsrc; assumption).
    rewrite selection_off, companion_modules_with_lib,
      skipped_modules_with_lib by exact Hoff.
    reflexivity.
Qed.

Lemma detection_off_keeps_optional_witness :
  exists out st',
    @ext_modules full_tree_host (demo_config false None) setup_calls
      (demo_state ∅) = (Ok out, st')
    /\ (forall m canary, In (m, canary) optional_modules ->
        In (@optional_ext full_tree_host (demo_config false None) m) out)
    /\ stdout st' = []
    /\ (forall lib : option CDLL,
          @ext_modules full_tree_host
            (with_gssapi_lib (demo_config false None) lib) setup_calls
            (demo_state ∅)
          = (Ok out, st')).
Proof.
  apply (detection_off_keeps_optional full_tree_host (demo_config false None)
           core_modules optional_modules (demo_state ∅));
    intros; reflexivity.
Defined.

(** ** Missing source files *)

(** C7: when the source file of a core module of the list is missing, the
    whole evaluation ends in an [OSError] and no list is returned;
    when only the companion file of an optional module is missing,
    [extension_file] returns the module's own file and leaves [ENUM_EXTS]
    and the output as they were. *)
Theorem missing_source_files (H : Host) (config : Config) :
  (forall (cores : list string) (opts : list (string * string)) (st : PyState)
          (m : string),
     In m cores ->
     path_exists (source_of "gssapi.raw.%s" m) = false ->
     exists s st',
       ext_modules config (calls_of cores opts) st = (Raised (OSError s), st')
       /\ path_exists s = false)
  /\ (forall (m canary : string) (st : PyState),
        unsupported config canary = false ->
        path_exists (source_of "gssapi.raw._enum_extensions.ext_%s" m) = false ->
        path_exists (source_of "gssapi.raw.ext_%s" m) = true ->
        extension_file config m canary st = (Ok (Some (optional_ext config m)), st)).
Proof.
  split.
  - intros cores opts st m Hin Hp.
    apply ext_modules_missing. eapply missing_core_calls; eassumption.
  - intros m canary st Hu Hc Hp.
    unfold extension_file, bind, pass_on_OSError. rewrite Hu.
    rewrite make_extension_missing by exact Hc.
    rewrite make_extension_present by exact Hp. reflexivity.
Qed.

Lemma missing_source_files_witness :
  (exists s st',
      @ext_modules no_creds_host (demo_config false None) setup_calls
        (demo_state ∅) = (Raised (OSError s), st')
      /\ @path_exists no_creds_host s = false)
  /\ @extension_file no_s4u_companion_host (demo_config false None)
       "s4u" "gss_acquire_cred_impersonate_name" (demo_state ∅)
     = (Ok (Some (@optional_ext no_s4u_companion_host (demo_config false None)
                    "s4u")),
        demo_state ∅).
Proof.
  split.
  - apply (proj1 (missing_source_files no_creds_host (demo_config false None))
             core_modules optional_modules (demo_state ∅) "creds").
    + cbn. auto.
    + reflexivity.
  - apply (proj2 (missing_source_files no_s4u_companion_host
                    (demo_config false None))); reflexivity.
Defined.

Example missing_creds_run :
  @ext_modules no_creds_host (demo_config false None) setup_calls (demo_state ∅)
  = (Raised (OSError "gssapi/raw/creds.c"), demo_state ∅).
Proof. vm_compute. reflexivity. Qed.

(** ** The mechanism files *)

Lemma string_app_cons (c : ascii) (s t : string) :
  String c s +:+ t = String c (s +:+ t).
Proof. reflexivity. Qed.

Lemma string_app_nil_r (s : string) : s +:+ "" = s.
Proof.
  induction s as [|c s IH]; [reflexivity|].
  rewrite string_app_cons, IH. reflexivity.
Qed.

Lemma rev_app_app (s t u : string) :
  String.rev_app s t +:+ u = String.rev_app s (t +:+ u).
Proof.
  revert t. induction s as [|c s IH]; intros t; [reflexivity|].
  cbn. rewrite IH. reflexivity.
Qed.

Lemma split_go_nonempty (sep : ascii) (s cur : string) :
  PyStr.split_go sep cur s <> [].
Proof.
  revert cur. induction s as [|c s IH]; intros cur; [discriminate|].
  cbn. destruct (Ascii.eqb c sep); [discriminate | apply IH].
Qed.

Lemma split_go_concat (sep : ascii) (s cur : string) :
  String.concat (String sep "") (PyStr.split_go sep cur s)
  = String.rev cur +:+ s.
Proof.
  revert cur. induction s as [|c s IH]; intros cur.
  - cbn. rewrite string_app_nil_r. reflexivity.
  - cbn [PyStr.split_go]. destruct (Ascii.eqb_spec c sep) as [->|Hne].
    + cbn [String.concat].
      destruct (PyStr.split_go sep "" s) as [|x xs] eqn:Hsplit.
      { exfalso. eapply split_go_nonempty, Hsplit. }
      rewrite <- Hsplit, IH. reflexivity.
    + rewrite IH. unfold String.rev. cbn [String.rev_app].
      rewrite !rev_app_app. reflexivity.
Qed.

(** Joining the pieces with the separator gives the string back. *)
Lemma split_concat (sep : ascii) (s : string) :
  String.concat (String sep "") (PyStr.split sep s) = s.
Proof. unfold PyStr.split. rewrite split_go_concat. reflexivity. Qed.

Lemma has_char_rev_app (c : ascii) (s t : string) :
  has_char c (String.rev_app s t) = has_char c s || has_char c t.
Proof.
  revert t. induction s as [|c' s IH]; intros t; [reflexivity|].
  cbn. rewrite IH. cbn. destruct (Ascii.eqb c' c), (has_char c s); reflexivity.
Qed.

Lemma split_go_pieces (sep : ascii) (s : string) : forall cur m,
  has_char sep cur = false ->
  In m (PyStr.split_go sep cur s) -> has_char sep m = false.
Proof.
  induction s as [|c s IH]; intros cur m Hcur.
  - cbn. intros [<-|[]]. unfold String.rev. rewrite has_char_rev_app, Hcur.
    reflexivity.
  - cbn [PyStr.split_go]. destruct (Ascii.eqb c sep) eqn:Hc.
    + intros [<-|Hin].
      * unfold String.rev. rewrite has_char_rev_app, Hcur. reflexivity.
      * eapply IH; [|exact Hin]. reflexivity.
    + apply IH. cbn. rewrite Hc, Hcur. reflexivity.
Qed.

Lemma split_go_length (sep : ascii) (s : string) : forall cur,
  length (PyStr.split_go sep cur s) = S (count_char sep s).
Proof.
  induction s as [|c s IH]; intros cur; [reflexivity|].
  cbn [PyStr.split_go count_char]. destruct (Ascii.eqb c sep).
  - cbn. rewrite IH. reflexivity.
  - rewrite IH. reflexivity.
Qed.

(** A piece without the separator is read whole: up to the end of the
    string, or up to the separator that follows it. *)
Lemma split_go_piece (sep : ascii) (m : string) : forall cur,
  has_char sep m = false ->
  PyStr.split_go sep cur m = [String.rev cur +:+ m]
  /\ (forall rest,
        PyStr.split_go sep cur (m +:+ String sep rest)
        = (String.rev cur +:+ m) :: PyStr.split_go sep "" rest).
Proof.
  induction m as [|c m IH]; intros cur Hm.
  - rewrite string_app_nil_r. split; [reflexivity|].
    intros rest. change ("" +:+ String sep rest) with (String sep rest).
    cbn [PyStr.split_go]. rewrite Ascii.eqb_refl. reflexivity.
  - cbn in Hm. apply orb_false_iff in Hm as [Hc Hm].
    assert (Hrev : String.rev (String c cur) +:+ m
                   = String.rev cur +:+ String c m).
    { unfold String.rev. cbn [String.rev_app]. rewrite !rev_app_app.
      reflexivity. }
    destruct (IH (String c cur) Hm) as [IHend IHsep]. split.
    + cbn [PyStr.split_go]. rewrite Hc, IHend, Hrev. reflexivity.
    + intros rest. rewrite string_app_cons. cbn [PyStr.split_go].
      rewrite Hc, IHsep, Hrev. reflexivity.
Qed.

(** Names without the separator, joined by it, are split into the same
    names. *)
Lemma split_concat_names (sep : ascii) (names : list string) :
  names <> [] ->
  (forall m, In m names -> has_char sep m = false) ->
  PyStr.split sep (String.concat (String sep "") names) = names.
Proof.
  unfold PyStr.split.
  induction names as [|m names IH]; intros Hne Hall; [contradiction|].
  assert (Hm : has_char sep m = false) by (apply Hall; left; reflexivity).
  destruct names as [|m2 names].
  - cbn [String.concat].
    rewrite (proj1 (split_go_piece sep m "" Hm)). reflexivity.
  - change (String.concat (String sep "") (m :: m2 :: names))
      with (m +:+ String sep (String.concat (String sep "") (m2 :: names))).
    rewrite (proj2 (split_go_piece sep m "" Hm)), IH;
      [reflexivity | discriminate |].
    intros m' Hin. apply Hall. right. exact Hin.
Qed.

Lemma mech_ext_name `{Host} (config : Config) (m : string) :
  Extension.name (mech_ext config m) = "gssapi.raw.mech_" +:+ m.
Proof. cbn. rewrite string_app_nil_r. reflexivity. Qed.

(** C8: when the source file of every listed mechanism exists,
    [gssapi_modules] returns the list it was given without its [None]s,
    then one file per name of the comma-separated [GSSAPI_MECHS], in that
    order, then [ENUM_EXTS]; the file of the name [m] is called
    [gssapi.raw.mech_m].  The names are the pieces of the value between
    the commas: joined by commas they give the value back, there is one
    more of them than there are commas, none holds a comma, and so every
    list of names without commas, joined by commas, is read back as that
    very list, one file per listed name; they are [krb5] and [ntlm] for
    [krb5,ntlm], three names for [krb5,ntlm,spnego], and [krb5] alone when
    the variable is unset.  None of this reads the gate or the probe
    handle. *)
Theorem mechanism_files (H : Host) (config : Config) :
  (forall (lst : list (option Extension.t)) (st : PyState),
     (forall m, In m (mechs_of (os_environ st)) ->
        path_exists (source_of "gssapi.raw.mech_%s" m) = true) ->
     gssapi_modules config lst st
     = (Ok (omap id lst
            ++ map (mech_ext config) (mechs_of (os_environ st))
            ++ ENUM_EXTS st),
        st))
  /\ (forall environ : gmap string string,
        map Extension.name (map (mech_ext config) (mechs_of environ))
        = map (fun m => "gssapi.raw.mech_" +:+ m) (mechs_of environ)
        /\ length (map (mech_ext config) (mechs_of environ))
           = length (mechs_of environ))
  /\ (forall (environ : gmap string string) (v : string),
        environ !! "GSSAPI_MECHS" = Some v ->
        String.concat "," (mechs_of environ) = v)
  /\ (forall environ : gmap string string,
        length (mechs_of environ)
        = S (count_char "," (default "krb5" (environ !! "GSSAPI_MECHS")))
        /\ (forall m, In m (mechs_of environ) -> has_char "," m = false))
  /\ (forall (environ : gmap string string) (names : list string),
        names <> [] ->
        (forall m, In m names -> has_char "," m = false) ->
        environ !! "GSSAPI_MECHS" = Some (String.concat "," names) ->
        mechs_of environ = names
        /\ map Extension.name (map (mech_ext config) (mechs_of environ))
           = map (fun m => "gssapi.raw.mech_" +:+ m) names)
  /\ (forall environ : gmap string string,
        environ !! "GSSAPI_MECHS" = Some "krb5,ntlm" ->
        mechs_of environ = ["krb5"; "ntlm"])
  /\ (forall environ : gmap string string,
        environ !! "GSSAPI_MECHS" = Some "krb5,ntlm,spnego" ->
        mechs_of environ = ["krb5"; "ntlm"; "spnego"])
  /\ (forall environ : gmap string string,
        environ !! "GSSAPI_MECHS" = None -> mechs_of environ = ["krb5"])
  /\ (forall (detect : bool) (lib : option CDLL) (m : string),
        mech_ext (with_probe config detect lib) m = mech_ext config m).
Proof.
  assert (Hnames : forall environ : gmap string string,
            map Extension.name (map (mech_ext config) (mechs_of environ))
            = map (fun m => "gssapi.raw.mech_" +:+ m) (mechs_of environ)).
  { intros environ. rewrite map_map. apply map_ext. intros m.
    apply mech_ext_name. }
  split; [|split; [|split; [|split; [|split; [|split; [|split; [|split]]]]]]].
  - intros lst st Hm. apply gssapi_modules_present.
    apply forallb_forall. exact Hm.
  - intros environ. split; [apply Hnames | apply length_map].
  - intros environ v Hv. unfold mechs_of. rewrite Hv. apply split_concat.
  - intros environ. unfold mechs_of, PyStr.split.
    split; [apply split_go_length|].
    intros m. apply split_go_pieces. reflexivity.
  - intros environ names Hne Hall Hv.
    assert (Hsplit : mechs_of environ = names).
    { unfold mechs_of. rewrite Hv. apply split_concat_names; assumption. }
    split; [exact Hsplit|]. rewrite Hnames, Hsplit. reflexivity.
  - intros environ Hv. unfold mechs_of. rewrite Hv. reflexivity.
  - intros environ Hv. unfold mechs_of. rewrite Hv. reflexivity.
  - intros environ Hv. unfold mechs_of. rewrite Hv. reflexivity.
  - intros detect lib m. reflexivity.
Qed.

Lemma mechanism_files_witness :
  @gssapi_modules full_tree_host (demo_config true (Some no_symbols))
    [None; None] (demo_state two_mechs_environ)
  = (Ok [@mech_ext full_tree_host (demo_config true (Some no_symbols)) "krb5";
         @mech_ext full_tree_host (demo_config true (Some no_symbols)) "ntlm"],
     demo_state two_mechs_environ)
  /\ @gssapi_modules full_tree_host (demo_config false None)
       [None] (demo_state three_mechs_environ)
     = (Ok [@mech_ext full_tree_host (demo_config false None) "krb5";
            @mech_ext full_tree_host (demo_config false None) "ntlm";
            @mech_ext full_tree_host (demo_config false None) "spnego"],
        demo_state three_mechs_environ)
  /\ mechs_of three_mechs_environ = ["krb5"; "ntlm"; "spnego"]
  /\ map Extension.name
       (map (@mech_ext full_tree_host (demo_config false None))
          (mechs_of three_mechs_environ))
     = ["gssapi.raw.mech_krb5"; "gssapi.raw.mech_ntlm";
        "gssapi.raw.mech_spnego"].
Proof.
  split; [|split].
  - exact (proj1 (mechanism_files full_tree_host
                    (demo_config true (Some no_symbols)))
             [None; None] (demo_state two_mechs_environ)
             (fun m _ => eq_refl)).
  - exact (proj1 (mechanism_files full_tree_host (demo_config false None))
             [None] (demo_state three_mechs_environ)
             (fun m _ => eq_refl)).
  - apply (proj1 (proj2 (proj2 (proj2 (proj2
             (mechanism_files full_tree_host (demo_config false None))))))
             three_mechs_environ ["krb5"; "ntlm"; "spnego"]).
    + discriminate.
    + intros m [<-|[<-|[<-|[]]]]; reflexivity.
    + vm_compute. reflexivity.
Defined.

(** ** Modules the library does not support *)

Lemma core_ext_name `{Host} (config : Config) (m : string) :
  Extension.name (core_ext config m) = "gssapi.raw." +:+ m.
Proof. cbn. rewrite string_app_nil_r. reflexivity. Qed.

Lemma optional_ext_name `{Host} (config : Config) (m : string) :
  Extension.name (optional_ext config m) = "gssapi.raw." +:+ ("ext_" +:+ m).
Proof. cbn. rewrite string_app_nil_r. reflexivity. Qed.

Lemma companion_ext_name `{Host} (config : Config) (m : string) :
  Extension.name (companion_ext config m)
  = "gssapi.raw." +:+ ("_enum_extensions.ext_" +:+ m).
Proof. cbn. rewrite string_app_nil_r. reflexivity. Qed.

Lemma mech_ext_name' `{Host} (config : Config) (m : string) :
  Extension.name (mech_ext config m) = "gssapi.raw." +:+ ("mech_" +:+ m).
Proof. rewrite mech_ext_name. reflexivity. Qed.

Lemma NoDup_fst_unique {A B} (l : list (A * B)) (a : A) (b b' : B) :
  List.NoDup (map fst l) -> In (a, b) l -> In (a, b') l -> b = b'.
Proof.
  induction l as [|[a0 b0] l IH]; intros Hnd Hin Hin'; [destruct Hin|].
  cbn in Hnd. apply List.NoDup_cons_iff in Hnd as [Hnotin Hnd].
  destruct Hin as [[= -> ->]|Hin], Hin' as [[= <-]|Hin'].
  - reflexivity.
  - exfalso. apply Hnotin. apply (in_map fst _ _ Hin').
  - exfalso. apply Hnotin. subst. apply (in_map fst _ _ Hin).
  - apply IH; assumption.
Qed.

Section Skipped.
Context `{Host}.
Variable config : Config.
Variables (cores : list string) (opts : list (string * string)).
Variables (m canary : string).
Hypothesis opts_distinct : List.NoDup (map fst opts).
Hypothesis listed : In (m, canary) opts.
Hypothesis lacking : unsupported config canary = true.
Hypothesis cores_apart :
  forall c, In c cores -> c <> "ext_" +:+ m /\ c <> "_enum_extensions.ext_" +:+ m.

Lemma skipped_not_supported : ~ In m (supported_modules config opts).
Proof.
  unfold supported_modules. intros Hin.
  apply in_map_iff in Hin as ([m' canary'] & Hm & Hin). cbn in Hm. subst m'.
  apply filter_In in Hin as [Hin Hpass]. cbn in Hpass.
  rewrite (NoDup_fst_unique opts m canary' canary opts_distinct Hin listed)
    in Hpass.
  rewrite lacking in Hpass. discriminate Hpass.
Qed.

Lemma skipped_no_companion : ~ In m (companion_modules config opts).
Proof.
  unfold companion_modules. intros Hin.
  apply in_map_iff in Hin as ([m' canary'] & Hm & Hin). cbn in Hm. subst m'.
  apply filter_In in Hin as [Hin Hpass]. cbn in Hpass.
  rewrite (NoDup_fst_unique opts m canary' canary opts_distinct Hin listed)
    in Hpass.
  rewrite lacking in Hpass. discriminate Hpass.
Qed.

Lemma skipped_listed : In m (skipped_modules config opts).
Proof.
  unfold skipped_modules. apply in_map_iff. exists (m, canary).
  split; [reflexivity|]. apply filter_In. split; [exact listed | exact lacking].
Qed.

Lemma skipped_name_absent (environ : gmap string string) :
  ~ In (Extension.name (optional_ext config m))
       (map Extension.name (selection config cores opts environ)).
Proof.
  unfold selection. rewrite !map_app, !in_app_iff, !in_map_iff.
  rewrite optional_ext_name.
  intros [(e & He & Hin) | [(e & He & Hin) | [(e & He & Hin) | (e & He & Hin)]]];
    apply in_map_iff in Hin as (x & <- & Hin).
  - rewrite core_ext_name in He. apply (inj (String.app "gssapi.raw.")) in He.
    apply (proj1 (cores_apart x Hin)), He.
  - rewrite optional_ext_name in He.
    apply (inj (String.app "gssapi.raw.")) in He.
    apply (inj (String.app "ext_")) in He. subst x.
    apply skipped_not_supported, Hin.
  - rewrite mech_ext_name' in He. apply (inj (String.app "gssapi.raw.")) in He.
    discriminate He.
  - rewrite companion_ext_name in He.
    apply (inj (String.app "gssapi.raw.")) in He. discriminate He.
Qed.

Lemma skipped_companion_name_absent (environ : gmap string string) :
  ~ In (Extension.name (companion_ext config m))
       (map Extension.name (selection config cores opts environ)).
Proof.
  unfold selection. rewrite !map_app, !in_app_iff, !in_map_iff.
  rewrite companion_ext_name.
  intros [(e & He & Hin) | [(e & He & Hin) | [(e & He & Hin) | (e & He & Hin)]]];
    apply in_map_iff in Hin as (x & <- & Hin).
  - rewrite core_ext_name in He. apply (inj (String.app "gssapi.raw.")) in He.
    apply (proj2 (cores_apart x Hin)), He.
  - rewrite optional_ext_name in He.
    apply (inj (String.app "gssapi.raw.")) in He. discriminate He.
  - rewrite mech_ext_name' in He. apply (inj (String.app "gssapi.raw.")) in He.
    discriminate He.
  - rewrite companion_ext_name in He.
    apply (inj (String.app "gssapi.raw.")) in He.
    apply (inj (String.app "_enum_extensions.ext_")) in He. subst x.
    apply skipped_no_companion, Hin.
Qed.

End Skipped.

Lemma optional_modules_distinct : List.NoDup (map fst optional_modules).
Proof.
  cbn. repeat (apply List.NoDup_cons; [cbn; intuition discriminate|]).
  apply List.NoDup_nil.
Qed.

Lemma core_modules_apart (m c : string) :
  In c core_modules ->
  c <> "ext_" +:+ m /\ c <> "_enum_extensions.ext_" +:+ m.
Proof.
  cbn. intros Hin.
  repeat (destruct Hin as [<-|Hin]; [split; discriminate|]).
  destruct Hin.
Qed.

(** C6: with detection on and the library lacking the symbol of an
    optional module of [setup.py], and no needed source file missing, the
    list is returned; neither the module's own file nor its companion file
    is in it; the line naming the module is printed; and the file of every
    core module is in it. *)
Theorem unsupported_module_skipped (H : Host) (config : Config) (st : PyState)
    (m canary : string) :
  enable_support_detect config = true ->
  In (m, canary) optional_modules ->
  hasattr (gssapi_lib config) canary = false ->
  ENUM_EXTS st = [] ->
  sources_present config core_modules optional_modules (os_environ st) ->
  exists out st',
    ext_modules config setup_calls st = (Ok out, st')
    /\ ~ In (Extension.name (optional_ext config m)) (map Extension.name out)
    /\ ~ In (Extension.name (companion_ext config m)) (map Extension.name out)
    /\ In (skip_message m) (stdout st')
    /\ (forall c, In c core_modules -> In (core_ext config c) out).
Proof.
  intros Hon Hlisted Hlack Hempty Hsrc.
  assert (Hu : unsupported config canary = true).
  { unfold unsupported. rewrite Hon, Hlack. reflexivity. }
  eexists. eexists.
  split; [apply ext_modules_selection; assumption|].
  split; [|split; [|split]].
  - eapply skipped_name_absent;
      eauto using optional_modules_distinct, core_modules_apart.
  - eapply skipped_companion_name_absent;
      eauto using optional_modules_distinct, core_modules_apart.
  - cbn [stdout]. apply in_app_iff. right. apply in_map.
    eapply skipped_listed; eassumption.
  - intros c Hc. unfold selection. apply in_app_iff. left.
    apply in_map, Hc.
Qed.

Lemma unsupported_module_skipped_witness :
  exists out st',
    @ext_modules full_tree_host (demo_config true (Some no_cred_store))
      setup_calls (demo_state ∅) = (Ok out, st')
    /\ ~ In "gssapi.raw.ext_cred_store" (map Extension.name out)
    /\ ~ In "gssapi.raw._enum_extensions.ext_cred_store"
            (map Extension.name out)
    /\ In "Skipping the cred_store extension because it is not supported by your GSSAPI implementation..."
          (stdout st')
    /\ (forall c, In c core_modules ->
        In (@core_ext full_tree_host (demo_config true (Some no_cred_store)) c)
           out).
Proof.
  assert (Hsrc : @sources_present full_tree_host
                   (demo_config true (Some no_cred_store))
                   core_modules optional_modules (os_environ (demo_state ∅)))
    by (repeat split; intros; reflexivity).
  assert (Hlisted : In ("cred_store", "gss_store_cred_into") optional_modules)
    by (cbn; auto).
  exact (unsupported_module_skipped full_tree_host
           (demo_config true (Some no_cred_store)) (demo_state ∅)
           "cred_store" "gss_store_cred_into"
           eq_refl Hlisted eq_refl eq_refl Hsrc).
Defined.

(** ** Discovery of the library on msys *)

(** C9, as stated, fails: with [PATH=/usr/bin] and the library present the
    new value is [/usr/bin:/mingw64/bin]; the directory comes last. *)
Lemma discovery_prepends_fails :
  ~ @discovery_prepends full_tree_host (demo_state path_environ).
Proof.
  intros Hclaim.
  destruct (Hclaim "/usr/bin" eq_refl eq_refl) as (st' & Hrun & Hpath).
  vm_compute in Hrun. injection Hrun as <-.
  vm_compute in Hpath. discriminate Hpath.
Qed.

(** C9, amended: on msys with [MINGW_PREFIX] unset or empty, when the
    library file [/mingwN/bin/libgss-3.dll] exists and [PATH] is set, the
    discovery appends [os.pathsep] and the directory of the library to
    [PATH], changes nothing else and returns the path of the library; when
    the file does not exist it returns [None] and changes nothing. *)
Theorem msys_discovery (H : Host) (mingw_prefix : option string)
    (link_args libraries : list string) (st : PyState) :
  truthy_opt mingw_prefix = false ->
  (forall p,
     path_exists mingw_main_lib = true ->
     os_environ st !! "PATH" = Some p ->
     _gssapi_lib_path (MSYSConfig_members mingw_prefix) link_args libraries st
     = (Ok (Some mingw_main_lib),
        {| os_environ :=
             <["PATH" := p +:+ (os_pathsep +:+ os_path_dirname mingw_main_lib)]>
               (os_environ st);
           ENUM_EXTS := ENUM_EXTS st;
           stdout := stdout st |}))
  /\ (path_exists mingw_main_lib = false ->
      _gssapi_lib_path (MSYSConfig_members mingw_prefix) link_args libraries st
      = (Ok None, st)).
Proof.
  intros Hroot. unfold MSYSConfig_members. rewrite Hroot.
  cbn [_gssapi_lib_path]. unfold MSYSConfig_gssapi_lib_path. split.
  - intros p Hlib Hpath. rewrite Hlib.
    unfold bind, environ_item, environ_set. rewrite Hpath. reflexivity.
  - intros Hlib. rewrite Hlib. reflexivity.
Qed.

Lemma msys_discovery_witness :
  (@_gssapi_lib_path (@MSYSConfig_members full_tree_host None) [] ["gss"]
     (demo_state path_environ)
   = (Ok (Some "/mingw64/bin/libgss-3.dll"),
      demo_state (<["PATH" := "/usr/bin:/mingw64/bin"]> path_environ)))
  /\ (@_gssapi_lib_path
        (@MSYSConfig_members (posix_host (fun _ => false) false) (Some ""))
        [] ["gss"] (demo_state path_environ)
      = (Ok None, demo_state path_environ)).
Proof.
  split.
  - exact (proj1 (msys_discovery full_tree_host None [] ["gss"]
                    (demo_state path_environ) eq_refl)
             "/usr/bin" eq_refl eq_refl).
  - exact (proj2 (msys_discovery (posix_host (fun _ => false) false) (Some "")
                    [] ["gss"] (demo_state path_environ) eq_refl)
             eq_refl).
Defined.

(** * Further properties *)

(** ** More on the class chosen for the platform *)

Example int_blanks_demo :
  PyInt.int (String (ascii_of_nat 9) "12" +:+ String (ascii_of_nat 10) "")
  = Some 12%Z
  /\ PyInt.int ("0" +:+ String (ascii_of_nat 31) "") = None
  /\ PyInt.int ("0" +:+ String (ascii_of_nat 160) "") = Some 0%Z
  /\ mac_ver_ints ("10.7.0" +:+ String (ascii_of_nat 31) "")
     = Raised (ValueError ("0" +:+ String (ascii_of_nat 31) ""))
  /\ int_scope "10.15.7" = true
  /\ int_scope ("10.7.0" +:+ String (ascii_of_nat 160) "") = false.
Proof. repeat split; vm_compute; reflexivity. Qed.

Lemma digit_not_space (c : ascii) :
  is_digit c = true -> PyInt.is_space c = false.
Proof.
  destruct c as [[] [] [] [] [] [] [] []]; vm_compute; congruence.
Qed.

Lemma digit_not_sign (c : ascii) :
  is_digit c = true -> Ascii.eqb c "+" = false /\ Ascii.eqb c "-" = false.
Proof.
  destruct c as [[] [] [] [] [] [] [] []]; vm_compute; intuition congruence.
Qed.

Lemma all_digits_rev_app (s t : string) :
  all_digits (String.rev_app s t) = all_digits s && all_digits t.
Proof.
  revert t. induction s as [|c s IH]; intros t; [reflexivity|].
  cbn. rewrite IH. cbn.
  destruct (is_digit c), (all_digits s); reflexivity.
Qed.

Lemma rev_app_rev_app (s t u : string) :
  String.rev_app (String.rev_app s t) u = String.rev_app t (s +:+ u).
Proof.
  revert t u. induction s as [|c s IH]; intros t u; [reflexivity|].
  cbn [String.rev_app]. rewrite IH. reflexivity.
Qed.

Lemma rev_rev (s : string) : String.rev (String.rev s) = s.
Proof.
  unfold String.rev. rewrite rev_app_rev_app. cbn.
  apply string_app_nil_r.
Qed.

Lemma lstrip_all_digits (s : string) :
  all_digits s = true -> PyInt.lstrip s = s.
Proof.
  destruct s as [|c s]; [reflexivity|]. cbn.
  intros [Hc _]%andb_true_iff. rewrite (digit_not_space c Hc). reflexivity.
Qed.

Lemma strip_all_digits (s : string) :
  all_digits s = true -> PyInt.strip s = s.
Proof.
  intros Hs. unfold PyInt.strip. rewrite (lstrip_all_digits s Hs).
  rewrite lstrip_all_digits, rev_rev; [reflexivity|].
  unfold String.rev. rewrite all_digits_rev_app, Hs. reflexivity.
Qed.

Lemma digits_all_digits (s : string) : forall acc after_digit,
  all_digits s = true -> s <> "" \/ after_digit = true ->
  exists n, PyInt.digits acc after_digit s = Some n.
Proof.
  induction s as [|c s IH]; intros acc b Hs Hne.
  - destruct Hne as [Hne| ->]; [contradiction|]. cbn. eauto.
  - cbn in Hs. apply andb_true_iff in Hs as [Hc Hs].
    cbn [PyInt.digits]. unfold is_digit in Hc.
    destruct (PyInt.digit_val c) as [d|]; [|discriminate].
    apply IH; auto.
Qed.

(** [int] of a string of decimal digits that is not empty is an integer. *)
Lemma int_all_digits (s : string) :
  all_digits s = true -> s <> "" -> exists n, PyInt.int s = Some n.
Proof.
  intros Hs Hne. unfold PyInt.int. rewrite (strip_all_digits s Hs).
  destruct s as [|c s]; [contradiction|].
  assert (Hc : is_digit c = true).
  { cbn in Hs. apply andb_true_iff in Hs. tauto. }
  destruct (digit_not_sign c Hc) as [Hplus Hminus].
  destruct (digits_all_digits (String c s) 0 false Hs) as [n Hn];
    [left; discriminate|].
  exists n. rewrite <- Hn. clear -Hplus Hminus.
  destruct c as [[] [] [] [] [] [] [] []]; try reflexivity;
    vm_compute in Hplus, Hminus; discriminate.
Qed.

Lemma split_go_dotted (s : string) : forall cur v,
  dotted_digits s = true -> all_digits cur = true ->
  In v (PyStr.split_go "." cur s) -> all_digits v = true.
Proof.
  induction s as [|c s IH]; intros cur v Hs Hcur.
  - cbn. intros [<-|[]]. unfold String.rev.
    rewrite all_digits_rev_app, Hcur. reflexivity.
  - cbn in Hs. apply andb_true_iff in Hs as [Hc Hs].
    cbn [PyStr.split_go]. destruct (Ascii.eqb c ".") eqn:Hdot.
    + intros [<-|Hin].
      * unfold String.rev. rewrite all_digits_rev_app, Hcur. reflexivity.
      * exact (IH "" v Hs eq_refl Hin).
    + rewrite orb_false_r in Hc. apply IH; [exact Hs|].
      cbn. rewrite Hc, Hcur. reflexivity.
Qed.

(** On strings of digits the list comprehension fails exactly at an empty
    one. *)
Lemma ints_of_all_digits (l : list string) :
  (forall v, In v l -> all_digits v = true) ->
  (In "" l -> ints_of l = Raised (ValueError ""))
  /\ (~ In "" l -> exists ns, ints_of l = Ok ns).
Proof.
  induction l as [|v l IH]; intros Hall.
  - split; [intros [] | intros _; cbn; eauto].
  - destruct IH as [IHin IHout]; [intros w Hw; apply Hall; right; exact Hw|].
    destruct v as [|c v].
    + split; [intros _; reflexivity | intros Hn; exfalso; apply Hn; left; reflexivity].
    + destruct (int_all_digits (String c v)) as [n Hn];
        [apply Hall; left; reflexivity | discriminate |].
      cbn [ints_of]. rewrite Hn. split.
      * intros [Hv|Hin]; [discriminate|]. rewrite (IHin Hin). reflexivity.
      * intros Hout. destruct IHout as [ns Hns].
        { intros Hin. apply Hout. right. exact Hin. }
        rewrite Hns. eauto.
Qed.

(** X1: which platforms and versions make the choice of the class raise.
    On Windows the version is never read, so the Windows class is chosen
    whatever the version; off darwin the version is not read either and a
    class is always chosen.  On darwin (and not Windows), for an ASCII
    version string of at most 640 characters, the choice raises exactly
    when [int] rejects a component, with its exception; and for a version
    of decimal digits and dots it raises, with the [ValueError] of the
    empty literal, exactly when a component is empty, as in the empty
    version, and chooses the Darwin class or the default class
    otherwise. *)
Theorem choose_config_class_raises (os_name sys_platform mac_ver : string) :
  (os_name = "nt" ->
     choose_config_class os_name sys_platform mac_ver = Ok cls_WindowsConfig)
  /\ (sys_platform <> "darwin" ->
      exists c, choose_config_class os_name sys_platform mac_ver = Ok c)
  /\ (int_scope mac_ver = true ->
      forall e,
        choose_config_class os_name sys_platform mac_ver = Raised e
        <-> (os_name <> "nt" /\ sys_platform = "darwin"
             /\ mac_ver_ints mac_ver = Raised e))
  /\ (os_name <> "nt" -> sys_platform = "darwin" ->
      dotted_digits mac_ver = true -> (String.length mac_ver <= 640)%nat ->
      (In "" (PyStr.split "." mac_ver) ->
       choose_config_class os_name sys_platform mac_ver
       = Raised (ValueError ""))
      /\ (~ In "" (PyStr.split "." mac_ver) ->
          choose_config_class os_name sys_platform mac_ver
          = Ok cls_DarwinGSSFrameWorkConfig
          \/ choose_config_class os_name sys_platform mac_ver
             = Ok cls_Config)).
Proof.
  split; [|split; [|split]].
  - intros ->. reflexivity.
  - intros Hd. unfold choose_config_class.
    destruct (String.eqb os_name "nt"); [eauto|].
    destruct (String.eqb_spec sys_platform "darwin"); [contradiction|].
    destruct (String.eqb sys_platform "msys"); eauto.
  - intros _ e. unfold choose_config_class.
    destruct (String.eqb_spec os_name "nt") as [->|Hnt].
    + split; [discriminate | intros (Hn & _); contradiction].
    + destruct (String.eqb_spec sys_platform "darwin") as [->|Hd].
      * destruct (mac_ver_ints mac_ver) as [v|e'] eqn:Hv.
        -- split.
           ++ destruct (PyInt.list_ge v _); [discriminate|].
              destruct (String.eqb "darwin" "msys"); discriminate.
           ++ intros (_ & _ & [=]).
        -- split; [intros [= ->]; auto | intros (_ & _ & [= ->]); reflexivity].
      * split.
        -- destruct (String.eqb sys_platform "msys"); discriminate.
        -- intros (_ & Hd' & _). contradiction.
  - intros Hnt -> Hdots _.
    destruct (ints_of_all_digits (PyStr.split "." mac_ver)) as [Hin Hout].
    { intros v. apply split_go_dotted; [exact Hdots | reflexivity]. }
    split.
    + intros Hempty. unfold choose_config_class.
      destruct (String.eqb_spec os_name "nt"); [contradiction|].
      cbn. unfold mac_ver_ints. rewrite (Hin Hempty). reflexivity.
    + intros Hnone. destruct (Hout Hnone) as [ns Hns].
      destruct (choose_config_class_cases os_name "darwin" mac_ver)
        as (_ & Hdarwin & _).
      rewrite (Hdarwin ns Hnt eq_refl Hns).
      destruct (PyInt.list_ge ns _); auto.
Qed.

Lemma choose_config_class_raises_witness :
  choose_config_class "nt" "darwin" "not.a.version" = Ok cls_WindowsConfig
  /\ (exists c, choose_config_class "posix" "linux" "not.a.version" = Ok c)
  /\ (choose_config_class "posix" "darwin" "10.x" = Raised (ValueError "x")
      <-> ("posix" <> "nt" /\ "darwin" = "darwin"
           /\ mac_ver_ints "10.x" = Raised (ValueError "x")))
  /\ choose_config_class "posix" "darwin" "" = Raised (ValueError "")
  /\ choose_config_class "posix" "darwin" "10..7" = Raised (ValueError "")
  /\ (choose_config_class "posix" "darwin" "10.15.7"
      = Ok cls_DarwinGSSFrameWorkConfig
      \/ choose_config_class "posix" "darwin" "10.15.7" = Ok cls_Config).
Proof.
  split; [|split; [|split; [|split; [|split]]]].
  - exact (proj1 (choose_config_class_raises "nt" "darwin" "not.a.version")
             eq_refl).
  - apply (proj1 (proj2 (choose_config_class_raises "posix" "linux"
                           "not.a.version"))).
    discriminate.
  - exact (proj1 (proj2 (proj2 (choose_config_class_raises "posix" "darwin"
                                  "10.x")))
             eq_refl (ValueError "x")).
  - apply (proj2 (proj2 (proj2 (choose_config_class_raises "posix" "darwin"
                                  ""))));
      [discriminate | reflexivity | reflexivity | cbn; lia | cbn; auto].
  - apply (proj2 (proj2 (proj2 (choose_config_class_raises "posix" "darwin"
                                  "10..7"))));
      [discriminate | reflexivity | reflexivity | cbn; lia | cbn; auto].
  - apply (proj2 (proj2 (proj2 (choose_config_class_raises "posix" "darwin"
                                  "10.15.7"))));
      [discriminate | reflexivity | reflexivity | cbn; lia |].
    cbn. intros [H|[H|[H|[]]]]; discriminate.
Defined.

Lemma list_ge_three (x y z : Z) :
  (0 <= z)%Z ->
  PyInt.list_ge [x; y; z] [10; 7; 0]%Z = true
  <-> (10 < x \/ (x = 10 /\ 7 <= y))%Z.
Proof.
  intros Hz. cbn.
  destruct (Z.eqb_spec x 10) as [->|Hx].
  - destruct (Z.eqb_spec y 7) as [->|Hy].
    + destruct (Z.eqb_spec z 0) as [->|Hz0].
      * split; [intros _; right; lia | reflexivity].
      * rewrite Z.ltb_lt. split; [intros _; right; lia | lia].
    + rewrite Z.ltb_lt. lia.
  - rewrite Z.ltb_lt. lia.
Qed.

Lemma list_ge_two (x y : Z) :
  PyInt.list_ge [x; y] [10; 7; 0]%Z = true
  <-> (10 < x \/ (x = 10 /\ 7 < y))%Z.
Proof.
  cbn. destruct (Z.eqb_spec x 10) as [->|Hx].
  - destruct (Z.eqb_spec y 7) as [->|Hy].
    + split; [discriminate | lia].
    + rewrite Z.ltb_lt. lia.
  - rewrite Z.ltb_lt. lia.
Qed.

(** X2: on darwin (and not Windows), for an ASCII version string of at
    most 640 characters: a version of three components [x.y.z], [z] not
    negative, chooses the Darwin class exactly when [(x, y)] is at least
    [(10, 7)], and the default class otherwise; a version of two components
    [x.y] chooses it exactly when [(x, y)] is strictly above [(10, 7)]. *)
Theorem darwin_version_threshold (os_name mac_ver : string) (x y z : Z) :
  os_name <> "nt" ->
  int_scope mac_ver = true ->
  (mac_ver_ints mac_ver = Ok [x; y; z] -> (0 <= z)%Z ->
     choose_config_class os_name "darwin" mac_ver
     = Ok (if (10 <? x)%Z || ((x =? 10)%Z && (7 <=? y)%Z)
           then cls_DarwinGSSFrameWorkConfig else cls_Config))
  /\ (mac_ver_ints mac_ver = Ok [x; y] ->
      choose_config_class os_name "darwin" mac_ver
      = Ok (if (10 <? x)%Z || ((x =? 10)%Z && (7 <? y)%Z)
            then cls_DarwinGSSFrameWorkConfig else cls_Config)).
Proof.
  intros Hnt _.
  destruct (choose_config_class_cases os_name "darwin" mac_ver)
    as (_ & Hdarwin & _).
  split.
  - intros Hv Hz. rewrite (Hdarwin _ Hnt eq_refl Hv).
    pose proof (list_ge_three x y z Hz) as Hge.
    destruct (PyInt.list_ge [x; y; z] _).
    + destruct (proj1 Hge eq_refl) as [Hx | [-> Hy]].
      * apply Z.ltb_lt in Hx. rewrite Hx. reflexivity.
      * apply Z.leb_le in Hy. rewrite Hy. reflexivity.
    + destruct ((10 <? x)%Z || ((x =? 10)%Z && (7 <=? y)%Z)) eqn:Hb;
        [|reflexivity].
      assert (false = true) as [=]. apply Hge.
      apply orb_true_iff in Hb as [Hb|Hb]; [left; lia|].
      apply andb_true_iff in Hb as [Hb1 Hb2]. right. lia.
  - intros Hv. rewrite (Hdarwin _ Hnt eq_refl Hv).
    pose proof (list_ge_two x y) as Hge.
    destruct (PyInt.list_ge [x; y] _).
    + destruct (proj1 Hge eq_refl) as [Hx | [-> Hy]].
      * apply Z.ltb_lt in Hx. rewrite Hx. reflexivity.
      * apply Z.ltb_lt in Hy. rewrite Hy. reflexivity.
    + destruct ((10 <? x)%Z || ((x =? 10)%Z && (7 <? y)%Z)) eqn:Hb;
        [|reflexivity].
      assert (false = true) as [=]. apply Hge.
      apply orb_true_iff in Hb as [Hb|Hb]; [left; lia|].
      apply andb_true_iff in Hb as [Hb1 Hb2]. right. lia.
Qed.

Lemma darwin_version_threshold_witness :
  choose_config_class "posix" "darwin" "10.7.5"
  = Ok cls_DarwinGSSFrameWorkConfig
  /\ choose_config_class "posix" "darwin" "10.6.8" = Ok cls_Config
  /\ choose_config_class "posix" "darwin" "10.6"= Ok cls_Config
  /\ choose_config_class "posix" "darwin" "11.0"
     = Ok cls_DarwinGSSFrameWorkConfig.
Proof.
  split; [|split; [|split]].
  - exact (proj1 (darwin_version_threshold "posix" "10.7.5" 10 7 5
                    ltac:(discriminate) eq_refl) eq_refl ltac:(lia)).
  - exact (proj1 (darwin_version_threshold "posix" "10.6.8" 10 6 8
                    ltac:(discriminate) eq_refl) eq_refl ltac:(lia)).
  - exact (proj2 (darwin_version_threshold "posix" "10.6" 10 6 0
                    ltac:(discriminate) eq_refl) eq_refl).
  - exact (proj2 (darwin_version_threshold "posix" "11.0" 11 0 0
                    ltac:(discriminate) eq_refl) eq_refl).
Defined.

(** ** More on [Config.__init__] *)

Section MoreInit.
Context `{Host}.

(** [before_gate] when both flag variables are set and not empty: the
    class defaults are not run. *)
Lemma before_gate_from_environ (cls : ConfigMembers) (st : PyState)
    (l c : string) :
  os_environ st !! "GSSAPI_LINKER_ARGS" = Some l -> PyStr.truthy l = true ->
  os_environ st !! "GSSAPI_COMPILER_ARGS" = Some c -> PyStr.truthy c = true ->
  before_gate cls st
  = match shlex_split l with
    | Raised e => (Raised e, st)
    | Ok tokens =>
        match shlex_split c with
        | Raised e => (Raised e, st)
        | Ok cargs =>
            bind (_prefix cls)
              (fun prefix =>
                 ret (tokens,
                      if path_exists
                           (os_path_join prefix "include/gssapi/gssapi_ext.h")
                      then cargs ++ ["-DHAS_GSSAPI_EXT_H"] else cargs)) st
        end
    end.
Proof.
  intros Hl Htl Hc Htc.
  unfold before_gate, bind at 1, environ_get_or, bind at 1, environ_get.
  rewrite Hl, Htl. cbn [ret].
  unfold bind at 1. cbn [shsplit lift].
  destruct (shlex_split l) as [tokens|e]; [|reflexivity].
  unfold bind at 1, bind at 1. rewrite Hc, Htc. cbn [ret].
  unfold bind at 1. cbn [shsplit lift].
  destruct (shlex_split c) as [cargs|e]; reflexivity.
Qed.

End MoreInit.

(** X3: when [GSSAPI_LINKER_ARGS] and [GSSAPI_COMPILER_ARGS] are both set
    and not empty, [Config.__init__] does not run the class's default
    flags: two classes with the same [_prefix] and [_gssapi_lib_path]
    construct the same; an exception of [shlex.split] on the linker
    variable ends the construction with the state untouched; and the
    directories, libraries and link arguments of a constructed [Config]
    are the partition of the split of the variable. *)
Theorem flags_from_environment (H : Host) (cls1 cls2 : ConfigMembers)
    (st : PyState) (l c : string) :
  os_environ st !! "GSSAPI_LINKER_ARGS" = Some l -> PyStr.truthy l = true ->
  os_environ st !! "GSSAPI_COMPILER_ARGS" = Some c -> PyStr.truthy c = true ->
  _prefix cls1 = _prefix cls2 ->
  _gssapi_lib_path cls1 = _gssapi_lib_path cls2 ->
  Config_init cls1 st = Config_init cls2 st
  /\ (forall e, shlex_split l = Raised e ->
        Config_init cls1 st = (Raised e, st))
  /\ (forall tokens cfg st',
        shlex_split l = Ok tokens ->
        Config_init cls1 st = (Ok cfg, st') ->
        library_dirs cfg = lp_library_dirs (partition_link_args tokens)
        /\ libraries cfg = lp_libraries (partition_link_args tokens)
        /\ link_args cfg = lp_link_args (partition_link_args tokens)).
Proof.
  intros Hl Htl Hc Htc Hprefix Hlib.
  split; [|split].
  - rewrite !Config_init_split. unfold bind.
    rewrite !(before_gate_from_environ _ st l c) by assumption.
    rewrite Hprefix.
    destruct (shlex_split l) as [tokens|e]; [|reflexivity].
    destruct (shlex_split c) as [cargs|e]; [|reflexivity].
    unfold bind. destruct (_prefix cls2 st) as [[prefix|e] st1]; [|reflexivity].
    cbn [ret fst snd]. unfold after_gate. rewrite Hlib. reflexivity.
  - intros e He. rewrite Config_init_split. unfold bind.
    rewrite (before_gate_from_environ _ st l c) by assumption.
    rewrite He. reflexivity.
  - intros tokens cfg st' Htok Hinit.
    destruct (Config_init_fields cls1 st st' cfg Hinit)
      as (tokens' & cargs & st1 & Hb & Hd & Hli & Ha).
    rewrite (before_gate_from_environ _ st l c) in Hb by assumption.
    rewrite Htok in Hb.
    destruct (shlex_split c) as [cargs0|e]; [|discriminate].
    unfold bind in Hb.
    destruct (_prefix cls1 st) as [[prefix|e] st2]; [|discriminate].
    cbn in Hb. injection Hb as <- _ _. auto.
Qed.

Lemma flags_from_environment_witness :
  @Config_init bare_host (@Config_members bare_host) gate_demo_state
  = @Config_init bare_host
      {| _default_link_args := raise (Exception "not reached");
         _default_compile_args := raise (Exception "not reached");
         _prefix := @Config_prefix bare_host;
         _gssapi_lib_path := @Config_gssapi_lib_path bare_host |}
      gate_demo_state.
Proof.
  apply (flags_from_environment bare_host (@Config_members bare_host) _
           gate_demo_state "-L/a -lfoo -Wl,-rpath,/b" "-I/a/include");
    reflexivity.
Defined.

(** Where the library of a [Config] constructed with the gate open comes
    from. *)
Lemma open_gate_library_aux `{Host} (cls : ConfigMembers) (st st' : PyState)
    (cfg : Config) :
  Config_init cls st = (Ok cfg, st') ->
  enable_support_detect cfg = true ->
  exists tokens cargs st1 p lib,
    before_gate cls st = (Ok (tokens, cargs), st1)
    /\ ctypes_CDLL p = Ok lib
    /\ gssapi_lib cfg = Some lib
    /\ ((os_environ st1 !! "GSSAPI_MAIN_LIB" = Some p /\ st' = st1)
        \/ (os_environ st1 !! "GSSAPI_MAIN_LIB" = None
            /\ _gssapi_lib_path cls
                 (lp_link_args (partition_link_args tokens))
                 (lp_libraries (partition_link_args tokens)) st1
               = (Ok (Some p), st'))).
Proof.
  rewrite Config_init_split. unfold bind at 1.
  destruct (before_gate cls st) as [[[tokens cargs]|e] st1]; [|discriminate].
  cbn [fst snd]. unfold after_gate, bind, ret, raise, lift, environ_get.
  destruct (support_detect_enabled (os_environ st1)) eqn:Hd.
  - destruct (os_environ st1 !! "GSSAPI_MAIN_LIB") as [p|] eqn:Hov.
    + destruct (ctypes_CDLL p) as [lib|e] eqn:Hload; [|discriminate].
      intros [= <- <-] _. exists tokens, cargs, st1, p, lib. auto 10.
    + destruct (_gssapi_lib_path cls _ _ st1) as [[[p|]|e] st2] eqn:Hdisc;
        try discriminate.
      destruct (ctypes_CDLL p) as [lib|e] eqn:Hload; [|discriminate].
      intros [= <- <-] _. exists tokens, cargs, st1, p, lib. auto 10.
  - intros [= <- <-]. cbn. discriminate.
Qed.

(** X4: a [Config] constructed with the gate open holds a library that
    [ctypes.CDLL] did load, from the path [GSSAPI_MAIN_LIB] gives when it
    is set, and otherwise from the path the class's discovery returned. *)
Theorem open_gate_library (H : Host) (cls : ConfigMembers) (st st' : PyState)
    (cfg : Config) :
  Config_init cls st = (Ok cfg, st') ->
  enable_support_detect cfg = true ->
  exists tokens cargs st1 p lib,
    before_gate cls st = (Ok (tokens, cargs), st1)
    /\ ctypes_CDLL p = Ok lib
    /\ gssapi_lib cfg = Some lib
    /\ ((os_environ st1 !! "GSSAPI_MAIN_LIB" = Some p /\ st' = st1)
        \/ (os_environ st1 !! "GSSAPI_MAIN_LIB" = None
            /\ _gssapi_lib_path cls
                 (lp_link_args (partition_link_args tokens))
                 (lp_libraries (partition_link_args tokens)) st1
               = (Ok (Some p), st'))).
Proof. apply open_gate_library_aux. Qed.

Lemma open_gate_library_witness :
  exists tokens cargs st1 p lib,
    @before_gate loading_host (@Config_members loading_host)
      (demo_state loading_environ) = (Ok (tokens, cargs), st1)
    /\ @ctypes_CDLL loading_host p = Ok lib
    /\ gssapi_lib loading_config = Some lib
    /\ ((os_environ st1 !! "GSSAPI_MAIN_LIB" = Some p
         /\ warned_state loading_environ = st1)
        \/ (os_environ st1 !! "GSSAPI_MAIN_LIB" = None
            /\ _gssapi_lib_path (@Config_members loading_host)
                 (lp_link_args (partition_link_args tokens))
                 (lp_libraries (partition_link_args tokens)) st1
               = (Ok (Some p), warned_state loading_environ))).
Proof.
  apply (open_gate_library loading_host (@Config_members loading_host)
           (demo_state loading_environ) (warned_state loading_environ)
           loading_config).
  - vm_compute. reflexivity.
  - reflexivity.
Defined.

(** X5: when [GSSAPI_MAIN_LIB] is set, to the empty string included, the
    class's discovery is not run: two classes that differ in
    [_gssapi_lib_path] only construct the same, and with the gate open the
    library of a constructed [Config] is the one [ctypes.CDLL] loads from
    the value of the variable. *)
Theorem main_lib_override (H : Host) (cls1 cls2 : ConfigMembers) (st : PyState)
    (p : string) :
  members_keep_environ cls1 ->
  os_environ st !! "GSSAPI_MAIN_LIB" = Some p ->
  _default_link_args cls1 = _default_link_args cls2 ->
  _default_compile_args cls1 = _default_compile_args cls2 ->
  _prefix cls1 = _prefix cls2 ->
  Config_init cls1 st = Config_init cls2 st
  /\ (forall cfg st',
        Config_init cls1 st = (Ok cfg, st') ->
        enable_support_detect cfg = true ->
        exists lib, ctypes_CDLL p = Ok lib /\ gssapi_lib cfg = Some lib).
Proof.
  intros Hkeep Hov Hl Hc Hp.
  assert (Hbefore : before_gate cls1 = before_gate cls2).
  { unfold before_gate. rewrite Hl, Hc, Hp. reflexivity. }
  pose proof (keeps_environ_before_gate cls1 Hkeep st) as Henv.
  split.
  - rewrite !Config_init_split. unfold bind at 1 2. rewrite <- Hbefore.
    destruct (before_gate cls1 st) as [[[tokens cargs]|e] st1]; [|reflexivity].
    cbn in Henv. cbn [fst snd]. rewrite <- Henv in Hov.
    unfold after_gate, bind, environ_get, ret, lift, raise. cbv beta iota.
    destruct (support_detect_enabled (os_environ st1)); [|reflexivity].
    rewrite Hov. reflexivity.
  - intros cfg st' Hinit Hon.
    destruct (open_gate_library_aux cls1 st st' cfg Hinit Hon)
      as (tokens & cargs & st1 & p' & lib & Hb & Hload & Hlib & Hfrom).
    rewrite Hb in Henv. cbn in Henv. rewrite Henv, Hov in Hfrom.
    destruct Hfrom as [[[= <-] _] | [[=] _]]. eauto.
Qed.

Lemma main_lib_override_witness :
  @Config_init loading_host (@Config_members loading_host)
    (demo_state (with_main_lib "" loading_environ))
  = @Config_init loading_host
      {| _default_link_args := @Config_default_link_args loading_host;
         _default_compile_args := @Config_default_compile_args loading_host;
         _prefix := @Config_prefix loading_host;
         _gssapi_lib_path := fun _ _ => raise (Exception "not reached") |}
      (demo_state (with_main_lib "" loading_environ)).
Proof.
  apply (main_lib_override loading_host (@Config_members loading_host) _
           (demo_state (with_main_lib "" loading_environ)) "").
  - apply (@Config_members_keep_environ loading_host).
  - vm_compute. reflexivity.
  - reflexivity.
  - reflexivity.
  - reflexivity.
Defined.

Example main_lib_empty_run :
  fst (@Config_init loading_host (@Config_members loading_host)
         (demo_state (with_main_lib "" loading_environ)))
  = Raised (OSError "").
Proof. vm_compute. reflexivity. Qed.

(** ** The discovery of the base class *)

Lemma lib_token_gssapi (t : string) :
  PyStr.startswith "-l" t = true ->
  PyStr.startswith "gssapi" (PyStr.slice_from 2 t)
  = PyStr.startswith "-lgssapi" t.
Proof.
  unfold PyStr.startswith.
  destruct t as [|c1 [|c2 r]]; try discriminate; rewrite !prefix_cons.
  - destruct (Ascii.eqb "-" c1); discriminate.
  - destruct (Ascii.eqb "-" c1); [|discriminate].
    destruct (Ascii.eqb "l" c2); [|discriminate].
    intros _. reflexivity.
Qed.

Lemma not_lib_token_gssapi (t : string) :
  PyStr.startswith "-l" t = false -> PyStr.startswith "-lgssapi" t = false.
Proof.
  unfold PyStr.startswith.
  destruct t as [|c1 [|c2 r]]; try reflexivity; rewrite !prefix_cons.
  - destruct (Ascii.eqb "-" c1); reflexivity.
  - destruct (Ascii.eqb "-" c1); [|reflexivity].
    destruct (Ascii.eqb "l" c2); [destruct r; discriminate | reflexivity].
Qed.

Lemma linker_path_token_other (t : string) :
  PyStr.startswith "-Wl,/" t = true -> is_other_token t = true.
Proof.
  unfold is_other_token, PyStr.startswith.
  destruct t as [|c1 [|c2 r]]; try discriminate; rewrite !prefix_cons.
  - destruct (Ascii.eqb "-" c1); discriminate.
  - destruct (Ascii.eqb "-" c1); [|discriminate].
    destruct (Ascii.eqb_spec "W" c2) as [<-|]; [|discriminate].
    reflexivity.
Qed.

Lemma libraries_first_gssapi (tokens : list string) :
  List.filter (PyStr.startswith "gssapi")
    (map (PyStr.slice_from 2) (List.filter is_lib_token tokens))
  = map (PyStr.slice_from 2)
      (List.filter (PyStr.startswith "-lgssapi") tokens).
Proof.
  induction tokens as [|t tokens IH]; [reflexivity|].
  cbn [List.filter]. unfold is_lib_token at 1.
  destruct (PyStr.startswith "-l" t) eqn:Hl.
  - cbn [map List.filter]. rewrite (lib_token_gssapi t Hl), IH.
    destruct (PyStr.startswith "-lgssapi" t); reflexivity.
  - rewrite (not_lib_token_gssapi t Hl). exact IH.
Qed.

Lemma link_args_linker_paths (tokens : list string) :
  List.filter (PyStr.startswith "-Wl,/") (List.filter is_other_token tokens)
  = List.filter (PyStr.startswith "-Wl,/") tokens.
Proof.
  induction tokens as [|t tokens IH]; [reflexivity|].
  cbn [List.filter].
  destruct (PyStr.startswith "-Wl,/" t) eqn:Hw.
  - rewrite (linker_path_token_other t Hw). cbn [List.filter].
    rewrite Hw, IH. reflexivity.
  - destruct (is_other_token t); cbn [List.filter]; rewrite ?Hw; exact IH.
Qed.

Lemma filter_head_find {A} (f : A -> bool) (l : list A) :
  List.find f l = match List.filter f l with x :: _ => Some x | [] => None end.
Proof.
  induction l as [|a l IH]; [reflexivity|].
  cbn. destruct (f a); [reflexivity | exact IH].
Qed.

(** The discovery of the base class, on the tokens it was split from. *)
Lemma Config_gssapi_lib_path_tokens (H : Host) (tokens : list string) (st : PyState) :
  Config_gssapi_lib_path (lp_link_args (partition_link_args tokens))
    (lp_libraries (partition_link_args tokens)) st
  = (Ok match first_such (PyStr.startswith "-lgssapi") tokens with
        | None => None
        | Some t =>
            Some (os_path_join
                    match first_such (PyStr.startswith "-Wl,/") tokens with
                    | Some o => PyStr.slice_from 4 o
                    | None => ""
                    end
                    ("lib" +:+ PyStr.slice_from 2 t +:+ ".so"))
        end,
     st).
Proof.
  unfold partition_link_args. rewrite partition_fold. cbn [lp_link_args
    lp_libraries app]. unfold Config_gssapi_lib_path, first_such.
  rewrite libraries_first_gssapi, link_args_linker_paths, !filter_head_find.
  destruct (List.filter (PyStr.startswith "-lgssapi") tokens) as [|t ts];
    [reflexivity|].
  cbn [map].
  destruct (List.filter (PyStr.startswith "-Wl,/") tokens) as [|o os];
    reflexivity.
Qed.

(** X6: on the partition of a list of linker tokens, the discovery of the
    base class returns [None] exactly when no token starts with
    [-lgssapi]; otherwise it returns the file [lib<name>.so] of the first
    such token [-l<name>], joined to what follows [-Wl,] in the first token
    that starts with [-Wl,/], or to the empty path when there is none; and
    it changes nothing. *)
Theorem base_discovery (H : Host) (tokens : list string) (st : PyState) :
  Config_gssapi_lib_path (lp_link_args (partition_link_args tokens))
    (lp_libraries (partition_link_args tokens)) st
  = (Ok match first_such (PyStr.startswith "-lgssapi") tokens with
        | None => None
        | Some t =>
            Some (os_path_join
                    match first_such (PyStr.startswith "-Wl,/") tokens with
                    | Some o => PyStr.slice_from 4 o
                    | None => ""
                    end
                    ("lib" +:+ PyStr.slice_from 2 t +:+ ".so"))
        end,
     st).
Proof. apply Config_gssapi_lib_path_tokens. Qed.


Example base_discovery_run :
  fst (@Config_gssapi_lib_path bare_host
         (lp_link_args (partition_link_args
                          ["-L/usr/lib"; "-lgssapi_krb5"; "-lkrb5"]))
         (lp_libraries (partition_link_args
                          ["-L/usr/lib"; "-lgssapi_krb5"; "-lkrb5"]))
         (demo_state ∅))
  = Ok (Some "libgssapi_krb5.so").
Proof. vm_compute. reflexivity. Qed.

(** X7: with the gate open, [GSSAPI_MAIN_LIB] unset and no linker token
    that starts with [-lgssapi], the construction of the base class ends in
    the exception of lines 81-85, whatever else the flags hold. *)
Theorem no_gssapi_library (H : Host) (st st1 : PyState)
    (tokens cargs : list string) :
  before_gate Config_members st = (Ok (tokens, cargs), st1) ->
  support_detect_enabled (os_environ st1) = true ->
  os_environ st1 !! "GSSAPI_MAIN_LIB" = None ->
  first_such (PyStr.startswith "-lgssapi") tokens = None ->
  Config_init Config_members st = (Raised (Exception no_main_lib_message), st1).
Proof.
  intros Hb Hon Hov Hnone.
  rewrite Config_init_split. unfold bind at 1. rewrite Hb. cbn [fst snd].
  unfold after_gate, bind, environ_get, ret, lift, raise. cbv beta iota.
  rewrite Hon, Hov. cbn [_gssapi_lib_path Config_members].
  rewrite Config_gssapi_lib_path_tokens, Hnone. reflexivity.
Qed.

Lemma no_gssapi_library_witness :
  @Config_init bare_host (@Config_members bare_host)
    (demo_state (<["GSSAPI_LINKER_ARGS" := "-L/a -lfoo"]>
                   (<["GSSAPI_COMPILER_ARGS" := "-I/a"]> ∅)))
  = (Raised (Exception no_main_lib_message),
     warned_state (<["GSSAPI_LINKER_ARGS" := "-L/a -lfoo"]>
                     (<["GSSAPI_COMPILER_ARGS" := "-I/a"]> ∅))).
Proof.
  apply (no_gssapi_library bare_host _ _ ["-L/a"; "-lfoo"] ["-I/a"]).
  - vm_compute. reflexivity.
  - vm_compute. reflexivity.
  - vm_compute. reflexivity.
  - reflexivity.
Defined.

(** ** The prefix *)

Lemma Config_prefix_cases `{Host} (st : PyState) :
  exists p st', Config_prefix st = (Ok p, st').
Proof.
  unfold Config_prefix.
  destruct (get_output _); [eexists; eexists; reflexivity|].
  unfold bind, print, ret. cbn. eexists; eexists; reflexivity.
Qed.

(** [Config._prefix] returns [prefix_value] and leaves [os.environ] as it
    is. *)
Lemma Config_prefix_value `{Host} (st : PyState) :
  exists st',
    Config_prefix st = (Ok prefix_value, st')
    /\ os_environ st' = os_environ st.
Proof.
  unfold Config_prefix, prefix_value.
  destruct (get_output _); [eexists; split; reflexivity|].
  unfold bind, print, ret. cbn. eexists; split; reflexivity.
Qed.

(** X8: [Config._prefix] never raises: it returns what the helper program
    prints and changes nothing, or, when the helper ends in any exception,
    prints the one warning line and returns [sys.prefix]. *)
Theorem Config_prefix_never_raises (H : Host) (st : PyState) :
  (forall out, get_output "krb5-config gssapi --prefix" = Ok out ->
     Config_prefix st = (Ok out, st))
  /\ (forall e, get_output "krb5-config gssapi --prefix" = Raised e ->
        Config_prefix st
        = (Ok sys_prefix,
           {| os_environ := os_environ st; ENUM_EXTS := ENUM_EXTS st;
              stdout := stdout st
                ++ ["WARNING: couldn't find krb5-config; assuming prefix of "
                    +:+ sys_prefix] |}))
  /\ exists p st', Config_prefix st = (Ok p, st').
Proof.
  unfold Config_prefix. split; [|split].
  - intros out ->. reflexivity.
  - intros e ->. unfold bind, print, ret. cbn.
    rewrite string_app_nil_r. reflexivity.
  - destruct (get_output _); [eexists; eexists; reflexivity|].
    unfold bind, print, ret. cbn. eexists; eexists; reflexivity.
Qed.

Lemma Config_prefix_never_raises_witness :
  @Config_prefix bare_host (demo_state ∅)
  = (Ok "/usr", warned_state ∅).
Proof.
  exact (proj1 (proj2 (Config_prefix_never_raises bare_host (demo_state ∅)))
           (CalledProcessError "krb5-config gssapi --prefix") eq_refl).
Defined.

(** ** What construction does to the environment *)

Lemma keeps_environ_raise {A} (e : exn) : keeps_environ (@raise A e).
Proof. intros st. reflexivity. Qed.

Lemma changes_only_PATH_keeps {A} (m : Py A) :
  keeps_environ m -> changes_only_PATH m.
Proof. intros Hm st k _. rewrite Hm. reflexivity. Qed.

Lemma changes_only_PATH_bind {A B} (m : Py A) (k : A -> Py B) :
  changes_only_PATH m -> (forall a, changes_only_PATH (k a)) ->
  changes_only_PATH (bind m k).
Proof.
  intros Hm Hk st key Hkey. unfold bind. specialize (Hm st key Hkey).
  destruct (m st) as [[a|e] st1]; cbn in *; [|exact Hm].
  rewrite <- Hm. apply Hk, Hkey.
Qed.

Section InitEnvironment.
Context `{Host}.

Lemma keeps_environ_after_gate (cls : ConfigMembers) (tokens cargs : list string) :
  (forall la libs, keeps_environ (_gssapi_lib_path cls la libs)) ->
  keeps_environ (after_gate cls tokens cargs).
Proof.
  intros Hdisc. unfold after_gate.
  apply keeps_environ_bind; [intros st; reflexivity|]. intros [|];
    [|auto with keeps].
  apply keeps_environ_bind; [auto with keeps|]. intros override.
  apply keeps_environ_bind.
  - destruct override; auto with keeps.
  - intros [p|]; [|apply keeps_environ_raise].
    apply keeps_environ_bind; auto with keeps.
Qed.

Lemma changes_only_PATH_after_gate (cls : ConfigMembers)
    (tokens cargs : list string) :
  (forall la libs, changes_only_PATH (_gssapi_lib_path cls la libs)) ->
  changes_only_PATH (after_gate cls tokens cargs).
Proof.
  intros Hdisc. unfold after_gate.
  apply changes_only_PATH_bind;
    [apply changes_only_PATH_keeps; intros st; reflexivity|].
  intros [|]; [|apply changes_only_PATH_keeps; auto with keeps].
  apply changes_only_PATH_bind;
    [apply changes_only_PATH_keeps; auto with keeps|].
  intros override. apply changes_only_PATH_bind.
  - destruct override; [apply changes_only_PATH_keeps; auto with keeps|].
    apply Hdisc.
  - intros [p|]; apply changes_only_PATH_keeps;
      [|apply keeps_environ_raise].
    apply keeps_environ_bind; auto with keeps.
Qed.

Lemma keeps_environ_Config_init (cls : ConfigMembers) :
  members_keep_environ cls ->
  (forall la libs, keeps_environ (_gssapi_lib_path cls la libs)) ->
  keeps_environ (Config_init cls).
Proof.
  intros Hm Hdisc st. rewrite Config_init_split.
  apply (keeps_environ_bind (before_gate cls)
           (fun tc => after_gate cls (fst tc) (snd tc))).
  - apply keeps_environ_before_gate, Hm.
  - intros tc. apply keeps_environ_after_gate, Hdisc.
Qed.

Lemma changes_only_PATH_Config_init (cls : ConfigMembers) :
  members_keep_environ cls ->
  (forall la libs, changes_only_PATH (_gssapi_lib_path cls la libs)) ->
  changes_only_PATH (Config_init cls).
Proof.
  intros Hm Hdisc st. rewrite Config_init_split.
  apply (changes_only_PATH_bind (before_gate cls)
           (fun tc => after_gate cls (fst tc) (snd tc))).
  - apply changes_only_PATH_keeps, keeps_environ_before_gate, Hm.
  - intros tc. apply changes_only_PATH_after_gate, Hdisc.
Qed.

Lemma keeps_environ_Config_gssapi_lib_path (la libs : list string) :
  keeps_environ (Config_gssapi_lib_path la libs).
Proof.
  unfold Config_gssapi_lib_path.
  destruct (List.filter _ libs); auto with keeps.
Qed.

Lemma changes_only_PATH_MSYS_discovery :
  changes_only_PATH MSYSConfig_gssapi_lib_path.
Proof.
  intros st k Hk. unfold MSYSConfig_gssapi_lib_path.
  destruct (path_exists mingw_main_lib); [|reflexivity].
  unfold bind, environ_item, environ_set, ret.
  destruct (os_environ st !! "PATH") as [p|]; [|reflexivity].
  cbn. apply lookup_insert_ne. congruence.
Qed.

End InitEnvironment.

(** X9: the construction of the base class leaves [os.environ] as it was,
    whatever its outcome; the construction of [MSYSConfig] changes no
    variable but [PATH], and none at all when [MINGW_PREFIX] names the
    install root. *)
Theorem construction_environment (H : Host) :
  keeps_environ (Config_init Config_members)
  /\ (forall mingw_prefix, changes_only_PATH (MSYSConfig_init mingw_prefix))
  /\ (forall mingw_prefix,
        truthy_opt mingw_prefix = true ->
        keeps_environ (MSYSConfig_init mingw_prefix)).
Proof.
  split; [|split].
  - apply keeps_environ_Config_init.
    + apply Config_members_keep_environ.
    + apply keeps_environ_Config_gssapi_lib_path.
  - intros mp. unfold MSYSConfig_init.
    apply changes_only_PATH_bind;
      [|intros cfg; apply changes_only_PATH_keeps; auto with keeps].
    apply changes_only_PATH_Config_init.
    + apply MSYSConfig_members_keep_environ.
    + intros la libs. unfold MSYSConfig_members.
      destruct (truthy_opt mp); cbn [_gssapi_lib_path].
      * apply changes_only_PATH_keeps. auto with keeps.
      * apply changes_only_PATH_MSYS_discovery.
  - intros mp Hroot. unfold MSYSConfig_init.
    apply keeps_environ_bind; [|intros cfg; auto with keeps].
    apply keeps_environ_Config_init.
    + apply MSYSConfig_members_keep_environ.
    + intros la libs. unfold MSYSConfig_members. rewrite Hroot.
      cbn [_gssapi_lib_path]. auto with keeps.
Qed.

Lemma construction_environment_witness :
  os_environ
    (snd (@MSYSConfig_init full_tree_host (Some "/mingw64")
            (demo_state path_environ)))
  = path_environ.
Proof.
  exact (proj2 (proj2 (construction_environment full_tree_host))
           (Some "/mingw64") eq_refl (demo_state path_environ)).
Defined.

(** ** More on [MSYSConfig] *)

(** X10: on msys with [MINGW_PREFIX] naming the install root, no flag
    variable set, the gate open, [GSSAPI_MAIN_LIB] unset and the library
    [<root>/bin/libgss-3.dll] loading, the construction succeeds without
    asking the helper program for flags: the only library is [gss], there
    is no library directory and no other link argument, the compile
    arguments are [-fPIC], then [-DHAS_GSSAPI_EXT_H] exactly when the
    header [include/gssapi/gssapi_ext.h] exists under the prefix (what the
    helper program answers, or [sys.prefix]), and [-D__MSYS__] last; the
    environment is unchanged. *)
Theorem msys_with_prefix (H : Host) (root : string) (st : PyState) (lib : CDLL) :
  PyStr.truthy root = true ->
  os_environ st !! "GSSAPI_LINKER_ARGS" = None ->
  os_environ st !! "GSSAPI_COMPILER_ARGS" = None ->
  support_detect_enabled (os_environ st) = true ->
  os_environ st !! "GSSAPI_MAIN_LIB" = None ->
  ctypes_CDLL (root +:+ "/bin/libgss-3.dll") = Ok lib ->
  exists cfg st',
    MSYSConfig_init (Some root) st = (Ok cfg, st')
    /\ os_environ st' = os_environ st
    /\ library_dirs cfg = [] /\ libraries cfg = ["gss"] /\ link_args cfg = []
    /\ gssapi_lib cfg = Some lib
    /\ compile_args cfg
       = ["-fPIC"]
         ++ (if path_exists ext_h_path then ["-DHAS_GSSAPI_EXT_H"] else [])
         ++ ["-D__MSYS__"].
Proof.
  intros Hroot Hl Hc Hon Hov Hload.
  unfold MSYSConfig_init, bind at 1, Config_init, MSYSConfig_members.
  cbn [truthy_opt]. rewrite Hroot.
  cbn [_default_link_args _default_compile_args _prefix _gssapi_lib_path].
  unfold bind at 1, environ_get_or, bind at 1, environ_get. rewrite Hl.
  cbn [ret]. unfold bind at 1. cbn [shsplit ret].
  unfold bind at 1, bind at 1. rewrite Hc. cbn [ret].
  unfold bind at 1. cbn [shsplit ret]. unfold bind at 1.
  destruct (Config_prefix_value st) as (st1 & Hprefix & Hpenv).
  rewrite Hprefix.
  unfold bind at 1. rewrite Hpenv, Hon.
  unfold bind at 1, environ_get. rewrite Hpenv, Hov.
  unfold bind at 1. cbn [ret default]. unfold bind at 1, lift, id.
  rewrite Hload. cbn [ret].
  eexists. eexists. split; [reflexivity|]. cbn.
  split; [exact Hpenv|]. repeat split.
  unfold ext_h_path. destruct (path_exists _); reflexivity.
Qed.

Lemma msys_with_prefix_witness :
  (exists cfg st',
     @MSYSConfig_init (host_loading "/mingw64/bin/libgss-3.dll" no_symbols)
       (Some "/mingw64") (demo_state path_environ) = (Ok cfg, st')
     /\ os_environ st' = path_environ
     /\ library_dirs cfg = [] /\ libraries cfg = ["gss"] /\ link_args cfg = []
     /\ gssapi_lib cfg = Some no_symbols
     /\ compile_args cfg = ["-fPIC"; "-DHAS_GSSAPI_EXT_H"; "-D__MSYS__"])
  /\ (exists cfg st',
        @MSYSConfig_init
          (host_on ∅ (host_loading "/mingw64/bin/libgss-3.dll" no_symbols))
          (Some "/mingw64") (demo_state path_environ) = (Ok cfg, st')
        /\ os_environ st' = path_environ
        /\ library_dirs cfg = [] /\ libraries cfg = ["gss"]
        /\ link_args cfg = []
        /\ gssapi_lib cfg = Some no_symbols
        /\ compile_args cfg = ["-fPIC"; "-D__MSYS__"]).
Proof.
  split.
  - exact (msys_with_prefix
             (host_loading "/mingw64/bin/libgss-3.dll" no_symbols)
             "/mingw64" (demo_state path_environ) no_symbols
             eq_refl eq_refl eq_refl eq_refl eq_refl eq_refl).
  - exact (msys_with_prefix
             (host_on ∅ (host_loading "/mingw64/bin/libgss-3.dll" no_symbols))
             "/mingw64" (demo_state path_environ) no_symbols
             eq_refl eq_refl eq_refl eq_refl eq_refl eq_refl).
Defined.

(** X11: on msys without [MINGW_PREFIX], with the gate open and
    [GSSAPI_MAIN_LIB] unset, when the library file exists but [PATH] is not
    set, the construction ends in [KeyError('PATH')]: the library is found
    and still no [Config] is made. *)
Theorem msys_path_unset (H : Host) (mingw_prefix : option string)
    (st st1 : PyState) (tokens cargs : list string) :
  truthy_opt mingw_prefix = false ->
  before_gate (MSYSConfig_members mingw_prefix) st = (Ok (tokens, cargs), st1) ->
  support_detect_enabled (os_environ st1) = true ->
  os_environ st1 !! "GSSAPI_MAIN_LIB" = None ->
  path_exists mingw_main_lib = true ->
  os_environ st1 !! "PATH" = None ->
  MSYSConfig_init mingw_prefix st = (Raised (KeyError "PATH"), st1).
Proof.
  intros Hroot Hb Hon Hov Hlib Hpath.
  unfold MSYSConfig_init, bind at 1. rewrite Config_init_split.
  unfold bind at 1. rewrite Hb. cbn [fst snd].
  unfold after_gate, bind, environ_get, ret, lift, raise. cbv beta iota.
  rewrite Hon, Hov. unfold MSYSConfig_members. rewrite Hroot.
  cbn [_gssapi_lib_path]. unfold MSYSConfig_gssapi_lib_path. rewrite Hlib.
  unfold bind, environ_item. rewrite Hpath. reflexivity.
Qed.

Lemma msys_path_unset_witness :
  @MSYSConfig_init full_tree_host None (demo_state loading_environ)
  = (Raised (KeyError "PATH"), warned_state loading_environ).
Proof.
  apply (msys_path_unset full_tree_host None (demo_state loading_environ)
           (warned_state loading_environ)
           ["-Wl,/opt/lib"; "-lgssapi_krb5"; "-lkrb5"]
           ["-I/opt/include"; "-DHAS_GSSAPI_EXT_H"]).
  - reflexivity.
  - vm_compute. reflexivity.
  - vm_compute. reflexivity.
  - vm_compute. reflexivity.
  - reflexivity.
  - vm_compute. reflexivity.
Defined.

(** ** More on the selection *)

Section MoreSelection.
Context `{Host}.
Variable config : Config.

Lemma gssapi_modules_missing (lst : list (option Extension.t)) (st : PyState) :
  forallb mech_present (mechs_of (os_environ st)) = false ->
  exists s, gssapi_modules config lst st = (Raised (OSError s), st)
            /\ path_exists s = false.
Proof.
  intros Hall. unfold gssapi_modules, bind at 1. unfold bind at 1.
  destruct (for_each_mechs_missing config (mechs_of (os_environ st)) st Hall)
    as (s & Hrun & Hs).
  rewrite Hrun. eauto.
Qed.

Lemma calls_present_sources (cores : list string) (opts : list (string * string))
    (environ : gmap string string) :
  forallb (source_present config) (calls_of cores opts) = true ->
  forallb mech_present (mechs_of environ) = true ->
  sources_present config cores opts environ.
Proof.
  intros Hcalls Hmechs. rewrite forallb_forall in Hcalls, Hmechs.
  repeat split.
  - intros m Hin. apply (Hcalls (call_main_file m)).
    unfold calls_of. apply in_app_iff. left. apply in_map, Hin.
  - intros m Hin. unfold supported_modules in Hin.
    apply in_map_iff in Hin as ([m' canary] & <- & Hin).
    apply filter_In in Hin as [Hin Hpass]. cbn in Hpass.
    specialize (Hcalls (call_extension_file m' canary)).
    unfold source_present in Hcalls. cbn in Hcalls.
    destruct (unsupported config canary); [discriminate|].
    apply Hcalls. unfold calls_of. apply in_app_iff. right.
    apply in_map_iff. exists (m', canary). auto.
  - intros m Hin. apply Hmechs, Hin.
Qed.

(** The three ways the selection can end. *)
Lemma ext_modules_outcome (cores : list string) (opts : list (string * string))
    (st : PyState) :
  (sources_present config cores opts (os_environ st)
   /\ ext_modules config (calls_of cores opts) st
      = (Ok (omap (call_result config) (calls_of cores opts)
             ++ map (mech_ext config) (mechs_of (os_environ st))
             ++ ENUM_EXTS st
             ++ omap (call_companion config) (calls_of cores opts)),
         after_calls config (calls_of cores opts) st))
  \/ (~ sources_present config cores opts (os_environ st)
      /\ exists s st',
           ext_modules config (calls_of cores opts) st
           = (Raised (OSError s), st')
           /\ path_exists s = false).
Proof.
  destruct (forallb (source_present config) (calls_of cores opts)) eqn:Hcalls.
  - destruct (forallb mech_present (mechs_of (os_environ st))) eqn:Hmechs.
    + left. split; [apply calls_present_sources; assumption|].
      apply ext_modules_present; assumption.
    + right. split.
      * intros Hsrc. apply sources_present_calls in Hsrc as [_ Hm].
        congruence.
      * unfold ext_modules, bind.
        rewrite for_each_calls_present by exact Hcalls.
        destruct (gssapi_modules_missing
                    (map (call_result config) (calls_of cores opts))
                    (after_calls config (calls_of cores opts) st) Hmechs)
          as (s & Hrun & Hs).
        rewrite Hrun. eauto.
  - right. split.
    + intros Hsrc. apply sources_present_calls in Hsrc as [Hc _]. congruence.
    + apply ext_modules_missing, Hcalls.
Qed.

End MoreSelection.

(** X12: the selection returns a list exactly when every source file it
    cannot do without exists: those of the core modules, of the optional
    modules that pass the test of line 297 and of the mechanisms; in every
    other case it ends in an [OSError] that names a file that does not
    exist. *)
Theorem ext_modules_returns_iff (H : Host) (config : Config)
    (cores : list string) (opts : list (string * string)) (st : PyState) :
  ((exists out st', ext_modules config (calls_of cores opts) st = (Ok out, st'))
   <-> sources_present config cores opts (os_environ st))
  /\ ((exists out st',
         ext_modules config (calls_of cores opts) st = (Ok out, st'))
      \/ (exists s st',
            ext_modules config (calls_of cores opts) st
            = (Raised (OSError s), st')
            /\ path_exists s = false)).
Proof.
  destruct (ext_modules_outcome config cores opts st)
    as [[Hsrc Hrun] | [Hno (s & st' & Hrun & Hs)]].
  - split; [|left; eauto]. split; [intros _; exact Hsrc | eauto].
  - split; [|right; eauto]. split.
    + intros (out & st2 & Hok). rewrite Hrun in Hok. discriminate.
    + intros Hsrc. contradiction.
Qed.

Example ext_modules_returns_iff_run :
  fst (@ext_modules no_creds_host (demo_config false None) setup_calls
         (demo_state ∅))
  = Raised (OSError "gssapi/raw/creds.c").
Proof. vm_compute. reflexivity. Qed.

Section Grows.
Context `{Host}.
Variable config : Config.

Lemma grown_from_refl (st : PyState) : grown_from st st.
Proof.
  repeat split; [exists [] | exists []]; rewrite app_nil_r; reflexivity.
Qed.

Lemma grown_from_trans (st1 st2 st3 : PyState) :
  grown_from st1 st2 -> grown_from st2 st3 -> grown_from st1 st3.
Proof.
  intros (He1 & [m1 Hm1] & [l1 Hl1]) (He2 & [m2 Hm2] & [l2 Hl2]).
  repeat split.
  - congruence.
  - exists (m1 ++ m2). rewrite Hm2, Hm1, app_assoc. reflexivity.
  - exists (l1 ++ l2). rewrite Hl2, Hl1, app_assoc. reflexivity.
Qed.

Lemma make_extension_state (fmt m : string) (dirs : list string)
    (st st' : PyState) (r : Res Extension.t) :
  make_extension config fmt m dirs st = (r, st') -> st' = st.
Proof.
  unfold make_extension. destruct (path_exists _); intros [= _ <-]; reflexivity.
Qed.

Lemma eval_call_grows (c : ModuleCall) (st st' : PyState)
    (r : Res (option Extension.t)) :
  eval_call config c st = (r, st') -> grown_from st st'.
Proof.
  destruct c as [m | m canary]; cbn [eval_call].
  - unfold main_file, bind.
    destruct (make_extension config _ m [] st) as [[e|e] st1] eqn:Hmk;
      apply make_extension_state in Hmk; subst st1;
      intros [= _ <-]; apply grown_from_refl.
  - unfold extension_file. destruct (unsupported config canary).
    + unfold bind, print, ret. intros [= _ <-].
      repeat split; cbn; [exists [] | eexists; reflexivity].
      rewrite app_nil_r. reflexivity.
    + unfold bind at 1, pass_on_OSError, bind at 1.
      destruct (make_extension config _ m ["gssapi/raw/"] st)
        as [[e|e] st1] eqn:Hc; apply make_extension_state in Hc; subst st1.
      * unfold ENUM_EXTS_append. unfold bind.
        destruct (make_extension config _ m [] _) as [[e'|e'] st2] eqn:Hp;
          apply make_extension_state in Hp; subst st2;
          intros [= _ <-]; (repeat split; cbn;
            [eexists; reflexivity | exists []; rewrite app_nil_r; reflexivity]).
      * assert (Hrest : forall st0 r0 st0',
                  bind (make_extension config "gssapi.raw.ext_%s" m [])
                       (fun e0 => ret (Some e0)) st0 = (r0, st0') ->
                  grown_from st0 st0').
        { intros st0 r0 st0'. unfold bind.
          destruct (make_extension config _ m [] st0) as [[e'|e'] st2] eqn:Hp;
            apply make_extension_state in Hp; subst st2;
            intros [= _ <-]; apply grown_from_refl. }
        destruct e; try (intros [= _ <-]; apply grown_from_refl);
          apply Hrest.
Qed.

Lemma for_each_calls_grow (calls : list ModuleCall) : forall st st' r,
  for_each (eval_call config) calls st = (r, st') -> grown_from st st'.
Proof.
  induction calls as [|c calls IH]; intros st st' r.
  - intros [= _ <-]. apply grown_from_refl.
  - cbn [for_each]. unfold bind at 1.
    destruct (eval_call config c st) as [[y|e] st1] eqn:Hc;
      apply eval_call_grows in Hc.
    + unfold bind at 1.
      destruct (for_each (eval_call config) calls st1) as [[ys|e] st2] eqn:Hr;
        apply IH in Hr; intros [= _ <-];
        eapply grown_from_trans; eassumption.
    + intros [= _ <-]. exact Hc.
Qed.

Lemma for_each_mechs_state (mechs : list string) : forall st st' r,
  for_each (fun mech => make_extension config "gssapi.raw.mech_%s" mech [])
           mechs st = (r, st') ->
  st' = st.
Proof.
  induction mechs as [|m mechs IH]; intros st st' r.
  - intros [= _ <-]. reflexivity.
  - cbn [for_each]. unfold bind at 1.
    destruct (make_extension config _ m [] st) as [[y|e] st1] eqn:Hm;
      apply make_extension_state in Hm; subst st1.
    + unfold bind at 1.
      destruct (for_each _ mechs st) as [[ys|e] st2] eqn:Hr;
        apply IH in Hr; subst st2; intros [= _ <-]; reflexivity.
    + intros [= _ <-]. reflexivity.
Qed.

Lemma gssapi_modules_state (lst : list (option Extension.t))
    (st st' : PyState) (r : Res (list Extension.t)) :
  gssapi_modules config lst st = (r, st') -> st' = st.
Proof.
  unfold gssapi_modules, bind at 1. unfold bind at 1.
  destruct (for_each _ (mechs_of (os_environ st)) st) as [[ys|e] st1] eqn:Hr;
    apply for_each_mechs_state in Hr; subst st1; intros [= _ <-]; reflexivity.
Qed.

Lemma ext_modules_grows (calls : list ModuleCall) (st st' : PyState)
    (r : Res (list Extension.t)) :
  ext_modules config calls st = (r, st') -> grown_from st st'.
Proof.
  unfold ext_modules, bind.
  destruct (for_each (eval_call config) calls st) as [[lst|e] st1] eqn:Hc;
    apply for_each_calls_grow in Hc.
  - intros Hg. apply gssapi_modules_state in Hg. subst st'. exact Hc.
  - intros [= _ <-]. exact Hc.
Qed.

End Grows.

(** X13: however the selection ends, with a list or with an exception, it
    leaves [os.environ] as it was and only adds to [ENUM_EXTS] and to the
    output; this holds for any list of calls. *)
Theorem selection_only_adds (H : Host) (config : Config)
    (calls : list ModuleCall) (st st' : PyState) (r : Res (list Extension.t)) :
  ext_modules config calls st = (r, st') ->
  os_environ st' = os_environ st
  /\ (exists more, ENUM_EXTS st' = ENUM_EXTS st ++ more)
  /\ (exists lines, stdout st' = stdout st ++ lines).
Proof. apply ext_modules_grows. Qed.

Lemma selection_only_adds_witness :
  (exists out,
     fst demo_selection_run = Ok out /\ length out = 38%nat)
  /\ stdout (snd demo_selection_run)
     = ["WARNING: couldn't find krb5-config; assuming prefix of /usr";
        "Skipping the cred_store extension because it is not supported by your GSSAPI implementation..."]
  /\ length (ENUM_EXTS (snd demo_selection_run)) = 13%nat
  /\ (os_environ (snd demo_selection_run) = two_mechs_environ
      /\ (exists more, ENUM_EXTS (snd demo_selection_run) = [] ++ more)
      /\ (exists lines,
            stdout (snd demo_selection_run)
            = ["WARNING: couldn't find krb5-config; assuming prefix of /usr"]
              ++ lines))
  /\ fst failing_selection_run = Raised (OSError "gssapi/raw/mech_.c")
  /\ length (stdout (snd failing_selection_run)) = 2%nat
  /\ length (ENUM_EXTS (snd failing_selection_run)) = 13%nat
  /\ (os_environ (snd failing_selection_run) = <["GSSAPI_MECHS" := EmptyString]> ∅
      /\ (exists more, ENUM_EXTS (snd failing_selection_run) = [] ++ more)
      /\ (exists lines,
            stdout (snd failing_selection_run)
            = ["WARNING: couldn't find krb5-config; assuming prefix of /usr"]
              ++ lines)).
Proof.
  split; [eexists; split; vm_compute; reflexivity|].
  split; [vm_compute; reflexivity|].
  split; [vm_compute; reflexivity|].
  split.
  { apply (selection_only_adds full_tree_host
             (demo_config true (Some no_cred_store)) setup_calls
             (warned_state two_mechs_environ)
             (snd demo_selection_run) (fst demo_selection_run)).
    apply surjective_pairing. }
  split; [vm_compute; reflexivity|].
  split; [vm_compute; reflexivity|].
  split; [vm_compute; reflexivity|].
  exact (selection_only_adds no_empty_mech_host
           (demo_config true (Some no_cred_store)) setup_calls
           (warned_state (<["GSSAPI_MECHS" := EmptyString]> ∅))
           (snd failing_selection_run) (fst failing_selection_run)
           (surjective_pairing _)).
Defined.

Section WellBuilt.
Context `{Host}.
Variable config : Config.

Lemma well_built_extension_of (fmt m : string) (dirs : list string) :
  path_exists (source_of fmt m) = true ->
  well_built config (extension_of config fmt m dirs).
Proof.
  intros Hp. split; [|repeat split].
  exists (PyStr.format_s (PyStr.replace_char "." "/" fmt) m).
  split; [reflexivity | exact Hp].
Qed.

Lemma well_built_selection (cores : list string) (opts : list (string * string))
    (environ : gmap string string) :
  sources_present config cores opts environ ->
  Forall (well_built config) (selection config cores opts environ).
Proof.
  intros (Hc & Ho & Hm). unfold selection.
  repeat (apply Forall_app; split); apply List.Forall_forall; intros e Hin;
    apply in_map_iff in Hin as (m & <- & Hin);
    apply well_built_extension_of; auto.
  unfold companion_modules in Hin.
  apply in_map_iff in Hin as ([m' canary] & <- & Hin).
  apply filter_In in Hin as [_ Hpass].
  apply andb_true_iff in Hpass as [_ Hpass]. exact Hpass.
Qed.

End WellBuilt.

(** X14: every [Extension] of a returned list has exactly one source file,
    which exists and ends in the chosen extension, and carries the link
    arguments, compile arguments, library directories and libraries of the
    configuration; the list has one element per core module, per optional
    module that passes, per mechanism and per companion file that
    exists. *)
Theorem returned_extensions_well_built (H : Host) (config : Config)
    (cores : list string) (opts : list (string * string))
    (st st' : PyState) (out : list Extension.t) :
  ENUM_EXTS st = [] ->
  ext_modules config (calls_of cores opts) st = (Ok out, st') ->
  Forall (well_built config) out
  /\ length out
     = (length cores + length (supported_modules config opts)
        + length (mechs_of (os_environ st))
        + length (companion_modules config opts))%nat.
Proof.
  intros Hempty Hrun.
  destruct (ext_modules_outcome config cores opts st)
    as [[Hsrc _] | [_ (s & st2 & Hfail & _)]].
  - rewrite ext_modules_selection in Hrun by assumption.
    injection Hrun as <- _. split.
    + apply well_built_selection, Hsrc.
    + unfold selection. rewrite !length_app, !length_map. lia.
  - rewrite Hfail in Hrun. discriminate.
Qed.

Lemma returned_extensions_well_built_witness :
  Forall (@well_built full_tree_host (demo_config true (Some no_cred_store)))
    (@selection full_tree_host (demo_config true (Some no_cred_store))
       core_modules optional_modules two_mechs_environ)
  /\ length (@selection full_tree_host (demo_config true (Some no_cred_store))
               core_modules optional_modules two_mechs_environ)
     = 38%nat.
Proof.
  assert (Hsrc : @sources_present full_tree_host
                   (demo_config true (Some no_cred_store))
                   core_modules optional_modules
                   (os_environ (demo_state two_mechs_environ)))
    by (repeat split; intros; reflexivity).
  exact (returned_extensions_well_built full_tree_host
           (demo_config true (Some no_cred_store))
           core_modules optional_modules (demo_state two_mechs_environ) _ _
           eq_refl
           (@ext_modules_selection full_tree_host
              (demo_config true (Some no_cred_store))
              core_modules optional_modules (demo_state two_mechs_environ)
              eq_refl Hsrc)).
Defined.

(** ** More on the mechanisms *)

Lemma split_go_trailing (sep : ascii) (v : string) : forall cur,
  In "" (PyStr.split_go sep cur (v +:+ String sep "")).
Proof.
  induction v as [|c v IH]; intros cur.
  - change (In "" (PyStr.split_go sep cur (String sep ""))).
    cbn. rewrite Ascii.eqb_refl. cbn. auto.
  - rewrite string_app_cons. cbn [PyStr.split_go].
    destruct (Ascii.eqb c sep); [right|]; apply IH.
Qed.

(** X15: the names of the mechanisms are the pieces of [GSSAPI_MECHS]
    (or of [krb5]) between the commas: there is one more name than there
    are commas, so never none, and no name holds a comma. *)
Theorem mechanism_names (environ : gmap string string) :
  length (mechs_of environ)
  = S (count_char "," (default "krb5" (environ !! "GSSAPI_MECHS")))
  /\ mechs_of environ <> []
  /\ (forall m, In m (mechs_of environ) -> has_char "," m = false).
Proof.
  unfold mechs_of, PyStr.split. split; [apply split_go_length|]. split.
  - apply split_go_nonempty.
  - intros m. apply split_go_pieces. reflexivity.
Qed.

(** X16: an empty [GSSAPI_MECHS] names the one mechanism with the empty
    name, and a value that ends in a comma names it too; and whenever the
    source file of a named mechanism is missing, [gssapi_modules] ends in
    an [OSError] that names a missing file, without changing the state. *)
Theorem missing_mechanism (H : Host) (config : Config) :
  (forall environ : gmap string string,
     environ !! "GSSAPI_MECHS" = Some "" -> mechs_of environ = [""])
  /\ (forall (environ : gmap string string) (v : string),
        environ !! "GSSAPI_MECHS" = Some (v +:+ ",") ->
        In "" (mechs_of environ))
  /\ (forall (lst : list (option Extension.t)) (st : PyState) (m : string),
        In m (mechs_of (os_environ st)) ->
        path_exists (source_of "gssapi.raw.mech_%s" m) = false ->
        exists s,
          gssapi_modules config lst st = (Raised (OSError s), st)
          /\ path_exists s = false).
Proof.
  split; [|split].
  - intros environ Hv. unfold mechs_of. rewrite Hv. reflexivity.
  - intros environ v Hv. unfold mechs_of, PyStr.split. rewrite Hv.
    apply split_go_trailing.
  - intros lst st m Hin Hp. apply gssapi_modules_missing.
    destruct (forallb _ _) eqn:Hall; [|reflexivity].
    rewrite forallb_forall in Hall. specialize (Hall m Hin).
    unfold mech_present in Hall. congruence.
Qed.

Lemma missing_mechanism_witness :
  exists s,
    @gssapi_modules no_empty_mech_host (demo_config false None) []
      (demo_state (<["GSSAPI_MECHS" := "krb5,"]> ∅))
    = (Raised (OSError s), demo_state (<["GSSAPI_MECHS" := "krb5,"]> ∅))
    /\ @path_exists no_empty_mech_host s = false.
Proof.
  apply (proj2 (proj2 (missing_mechanism no_empty_mech_host
                         (demo_config false None)))
           [] (demo_state (<["GSSAPI_MECHS" := "krb5,"]> ∅)) "").
  - vm_compute. auto.
  - reflexivity.
Defined.

(** ** Detection with a complete library *)

Lemma for_each_ext {A B} (f g : A -> Py B) (xs : list A) :
  (forall x, In x xs -> f x = g x) -> for_each f xs = for_each g xs.
Proof.
  induction xs as [|x xs IH]; intros Hfg; [reflexivity|].
  cbn [for_each]. rewrite (Hfg x) by (cbn; auto).
  rewrite IH by (intros y Hy; apply Hfg; cbn; auto). reflexivity.
Qed.

(** X17: when the library has the symbol of every optional module of the
    list, the selection with detection on is the selection with detection
    off, for every outcome: the same list or the same exception, and the
    same state. *)
Theorem complete_library_as_detection_off (H : Host) (config : Config)
    (calls : list ModuleCall) (st : PyState) :
  (forall m canary, In (call_extension_file m canary) calls ->
     hasattr (gssapi_lib config) canary = true) ->
  ext_modules config calls st
  = ext_modules (with_probe config false None) calls st.
Proof.
  intros Hall. unfold ext_modules.
  rewrite (for_each_ext (eval_call config)
             (eval_call (with_probe config false None)) calls);
    [reflexivity|].
  intros [m | m canary] Hin; [reflexivity|].
  cbn [eval_call]. unfold extension_file, unsupported.
  rewrite (Hall m canary Hin). cbn [with_probe enable_support_detect].
  rewrite andb_false_r. reflexivity.
Qed.

Lemma complete_library_as_detection_off_witness :
  @ext_modules full_tree_host (demo_config true (Some all_symbols)) setup_calls
    (demo_state ∅)
  = @ext_modules full_tree_host
      (with_probe (demo_config true (Some all_symbols)) false None)
      setup_calls (demo_state ∅).
Proof.
  apply (complete_library_as_detection_off full_tree_host
           (demo_config true (Some all_symbols)) setup_calls (demo_state ∅)).
  intros m canary _. reflexivity.
Defined.

(** ** The names of the returned extensions *)

Lemma NoDup_map_inj {A B} (f : A -> B) (l : list A) :
  (forall x y, f x = f y -> x = y) -> List.NoDup l -> List.NoDup (map f l).
Proof.
  intros Hinj Hnd. induction Hnd as [|a l Hnotin Hnd IH]; cbn.
  - apply List.NoDup_nil.
  - apply List.NoDup_cons; [|exact IH].
    intros Hin. apply in_map_iff in Hin as (x & Hx & Hin).
    apply Hinj in Hx. subst x. contradiction.
Qed.

Lemma NoDup_fst_filter {A B} (f : A * B -> bool) (l : list (A * B)) :
  List.NoDup (map fst l) -> List.NoDup (map fst (List.filter f l)).
Proof.
  induction l as [|ab l IH]; intros Hnd; [exact Hnd|].
  cbn in Hnd. apply List.NoDup_cons_iff in Hnd as [Hnotin Hnd].
  cbn. destruct (f ab); [|apply IH, Hnd].
  cbn. apply List.NoDup_cons; [|apply IH, Hnd].
  intros Hin. apply Hnotin.
  apply in_map_iff in Hin as (x & Hx & Hin).
  apply filter_In in Hin as [Hin _]. rewrite <- Hx. apply in_map, Hin.
Qed.

Lemma core_modules_distinct : List.NoDup core_modules.
Proof.
  unfold core_modules.
  repeat (apply List.NoDup_cons; [cbn; intuition discriminate|]).
  apply List.NoDup_nil.
Qed.

Lemma core_modules_not_mech (c k : string) :
  In c core_modules -> c <> "mech_" +:+ k.
Proof.
  cbn. intros Hin.
  repeat (destruct Hin as [<-|Hin]; [discriminate|]).
  destruct Hin.
Qed.

Section Names.
Context `{Host}.
Variable config : Config.

(** The names of the selection, without their common prefix. *)
Lemma selection_names (cores : list string) (opts : list (string * string))
    (environ : gmap string string) :
  map Extension.name (selection config cores opts environ)
  = map (String.app "gssapi.raw.")
      (cores
       ++ map (String.app "ext_") (supported_modules config opts)
       ++ map (String.app "mech_") (mechs_of environ)
       ++ map (String.app "_enum_extensions.ext_")
            (companion_modules config opts)).
Proof.
  unfold selection. rewrite !map_app, !map_map.
  f_equal; [|f_equal; [|f_equal]]; apply map_ext; intros m.
  - apply core_ext_name.
  - apply optional_ext_name.
  - apply mech_ext_name'.
  - apply companion_ext_name.
Qed.

Lemma setup_names_distinct (environ : gmap string string) :
  List.NoDup (mechs_of environ) ->
  List.NoDup
    (map Extension.name
       (selection config core_modules optional_modules environ)).
Proof.
  intros Hmechs. rewrite selection_names.
  apply NoDup_map_inj; [intros x y; apply (inj (String.app "gssapi.raw."))|].
  assert (Hsup : List.NoDup (supported_modules config optional_modules))
    by apply NoDup_fst_filter, optional_modules_distinct.
  assert (Hcomp : List.NoDup (companion_modules config optional_modules))
    by apply NoDup_fst_filter, optional_modules_distinct.
  apply List.NoDup_app; [apply core_modules_distinct| |].
  - apply List.NoDup_app.
    + apply NoDup_map_inj; [intros x y; apply (inj (String.app "ext_"))|].
      exact Hsup.
    + apply List.NoDup_app.
      * apply NoDup_map_inj; [intros x y; apply (inj (String.app "mech_"))|].
        exact Hmechs.
      * apply NoDup_map_inj;
          [intros x y; apply (inj (String.app "_enum_extensions.ext_"))|].
        exact Hcomp.
      * intros a Ha Hb. apply in_map_iff in Ha as (x & <- & _).
        apply in_map_iff in Hb as (y & Hy & _). discriminate Hy.
    + intros a Ha Hb. apply in_map_iff in Ha as (x & <- & _).
      apply in_app_iff in Hb as [Hb|Hb];
        apply in_map_iff in Hb as (y & Hy & _); discriminate Hy.
  - intros c Hc Hin.
    apply in_app_iff in Hin as [Hin|Hin];
      [|apply in_app_iff in Hin as [Hin|Hin]];
      apply in_map_iff in Hin as (y & Hy & _).
    + apply (proj1 (core_modules_apart y c Hc)). symmetry. exact Hy.
    + apply (core_modules_not_mech c y Hc). symmetry. exact Hy.
    + apply (proj2 (core_modules_apart y c Hc)). symmetry. exact Hy.
Qed.

End Names.

(** X18: for the list of [setup.py], when the names of the mechanisms are
    pairwise different, so are the names of the extensions of a returned
    list: no module is listed twice. *)
Theorem returned_names_distinct (H : Host) (config : Config)
    (st st' : PyState) (out : list Extension.t) :
  ENUM_EXTS st = [] ->
  List.NoDup (mechs_of (os_environ st)) ->
  ext_modules config setup_calls st = (Ok out, st') ->
  List.NoDup (map Extension.name out).
Proof.
  intros Hempty Hmechs Hrun.
  destruct (ext_modules_outcome config core_modules optional_modules st)
    as [[Hsrc _] | [_ (s & st2 & Hfail & _)]].
  - unfold setup_calls in Hrun.
    rewrite ext_modules_selection in Hrun by assumption.
    injection Hrun as <- _. apply setup_names_distinct, Hmechs.
  - unfold setup_calls in Hrun. rewrite Hfail in Hrun. discriminate.
Qed.

Lemma returned_names_distinct_witness :
  List.NoDup
    (map Extension.name
       (@selection full_tree_host (demo_config true (Some no_cred_store))
          core_modules optional_modules two_mechs_environ)).
Proof.
  assert (Hsrc : @sources_present full_tree_host
                   (demo_config true (Some no_cred_store))
                   core_modules optional_modules
                   (os_environ (demo_state two_mechs_environ)))
    by (repeat split; intros; reflexivity).
  assert (Hmechs : List.NoDup (mechs_of two_mechs_environ)).
  { vm_compute. repeat constructor; cbn; intuition discriminate. }
  exact (returned_names_distinct full_tree_host
           (demo_config true (Some no_cred_store))
           (demo_state two_mechs_environ) _ _ eq_refl Hmechs
           (@ext_modules_selection full_tree_host
              (demo_config true (Some no_cred_store))
              core_modules optional_modules (demo_state two_mechs_environ)
              eq_refl Hsrc)).
Defined.

(** ** The other classes *)

Section GateCases.
Context `{Host}.

Lemma environ_get_or_unset (key : string) (d : Py ArgsValue) (st : PyState) :
  truthy_opt (os_environ st !! key) = false ->
  environ_get_or key d st = d st.
Proof.
  unfold environ_get_or, bind, environ_get, truthy_opt.
  destruct (os_environ st !! key) as [s|]; [|reflexivity].
  intros ->. reflexivity.
Qed.

(** [before_gate] when neither flag variable is set and the class gives
    its default flags as lists. *)
Lemma before_gate_list_defaults (cls : ConfigMembers) (st : PyState)
    (l c : list string) :
  truthy_opt (os_environ st !! "GSSAPI_LINKER_ARGS") = false ->
  truthy_opt (os_environ st !! "GSSAPI_COMPILER_ARGS") = false ->
  _default_link_args cls st = (Ok (ArgList l), st) ->
  _default_compile_args cls st = (Ok (ArgList c), st) ->
  before_gate cls st
  = bind (_prefix cls)
      (fun prefix =>
         ret (l, if path_exists
                      (os_path_join prefix "include/gssapi/gssapi_ext.h")
                 then c ++ ["-DHAS_GSSAPI_EXT_H"] else c)) st.
Proof.
  intros Hl Hc Hdl Hdc. unfold before_gate.
  unfold bind at 1. rewrite environ_get_or_unset, Hdl by exact Hl.
  unfold bind at 1. cbn [shsplit ret].
  unfold bind at 1. rewrite environ_get_or_unset, Hdc by exact Hc.
  unfold bind at 1. cbn [shsplit ret]. reflexivity.
Qed.

(** [after_gate] with the gate open and no override. *)
Lemma after_gate_open (cls : ConfigMembers) (tokens cargs : list string)
    (st : PyState) :
  support_detect_enabled (os_environ st) = true ->
  os_environ st !! "GSSAPI_MAIN_LIB" = None ->
  after_gate cls tokens cargs st
  = match _gssapi_lib_path cls (lp_link_args (partition_link_args tokens))
            (lp_libraries (partition_link_args tokens)) st with
    | (Ok (Some p), st') =>
        match ctypes_CDLL p with
        | Ok lib =>
            (Ok {| library_dirs := lp_library_dirs (partition_link_args tokens);
                   libraries := lp_libraries (partition_link_args tokens);
                   link_args := lp_link_args (partition_link_args tokens);
                   compile_args := cargs;
                   enable_support_detect := true;
                   gssapi_lib := Some lib |}, st')
        | Raised e => (Raised e, st')
        end
    | (Ok None, st') => (Raised (Exception no_main_lib_message), st')
    | (Raised e, st') => (Raised e, st')
    end.
Proof.
  intros Hon Hov.
  unfold after_gate, bind, environ_get, ret, lift, raise. cbv beta iota.
  rewrite Hon, Hov.
  destruct (_gssapi_lib_path cls _ _ st) as [[[p|]|e] st']; reflexivity.
Qed.

(** [after_gate] with the gate closed. *)
Lemma after_gate_closed (cls : ConfigMembers) (tokens cargs : list string)
    (st : PyState) :
  support_detect_enabled (os_environ st) = false ->
  after_gate cls tokens cargs st
  = (Ok {| library_dirs := lp_library_dirs (partition_link_args tokens);
           libraries := lp_libraries (partition_link_args tokens);
           link_args := lp_link_args (partition_link_args tokens);
           compile_args := cargs;
           enable_support_detect := false;
           gssapi_lib := None |}, st).
Proof.
  intros Hoff. unfold after_gate, bind, ret. cbv beta iota.
  rewrite Hoff. reflexivity.
Qed.

End GateCases.

(** X19: on darwin with no flag variable set, the gate open and
    [GSSAPI_MAIN_LIB] unset: when [find_library('GSS')] finds nothing the
    construction ends in the exception of lines 81-85; when it finds a path
    that loads, the [Config] has no library directory and no library, the
    two framework flags are its link arguments, and its compile arguments
    are those two, [-DOSX_HAS_GSS_FRAMEWORK], and then [-DHAS_GSSAPI_EXT_H]
    exactly when the header [include/gssapi/gssapi_ext.h] exists under the
    prefix (what the helper program answers, or [sys.prefix]). *)
Theorem darwin_construction (H : Host) (L : HostLibs) (st : PyState) :
  truthy_opt (os_environ st !! "GSSAPI_LINKER_ARGS") = false ->
  truthy_opt (os_environ st !! "GSSAPI_COMPILER_ARGS") = false ->
  support_detect_enabled (os_environ st) = true ->
  os_environ st !! "GSSAPI_MAIN_LIB" = None ->
  (ctypes_util_find_library "GSS" = None ->
   exists st',
     Config_init DarwinGSSFrameWorkConfig_members st
     = (Raised (Exception no_main_lib_message), st'))
  /\ (forall p lib,
        ctypes_util_find_library "GSS" = Some p ->
        ctypes_CDLL p = Ok lib ->
        exists cfg st',
          Config_init DarwinGSSFrameWorkConfig_members st = (Ok cfg, st')
          /\ library_dirs cfg = [] /\ libraries cfg = []
          /\ link_args cfg = ["-framework"; "GSS"]
          /\ gssapi_lib cfg = Some lib
          /\ compile_args cfg
             = ["-framework"; "GSS"; "-DOSX_HAS_GSS_FRAMEWORK"]
               ++ (if path_exists ext_h_path then ["-DHAS_GSSAPI_EXT_H"]
                   else [])).
Proof.
  intros Hl Hc Hon Hov.
  assert (Hrun : forall st1,
            Config_prefix st = (Ok prefix_value, st1) ->
            Config_init DarwinGSSFrameWorkConfig_members st
            = after_gate DarwinGSSFrameWorkConfig_members
                Darwin_default_link_args
                (if path_exists ext_h_path
                 then Darwin_default_compile_args ++ ["-DHAS_GSSAPI_EXT_H"]
                 else Darwin_default_compile_args) st1).
  { intros st1 Hp. rewrite Config_init_split. unfold bind at 1.
    rewrite (before_gate_list_defaults _ st Darwin_default_link_args
               Darwin_default_compile_args) by (assumption || reflexivity).
    cbn [_prefix DarwinGSSFrameWorkConfig_members]. unfold bind at 1.
    rewrite Hp. reflexivity. }
  destruct (Config_prefix_value st) as (st1 & Hp & Henv).
  rewrite (Hrun st1 Hp), after_gate_open by (rewrite Henv; assumption).
  cbn [_gssapi_lib_path DarwinGSSFrameWorkConfig_members ret].
  split.
  - intros ->. eauto.
  - intros p lib -> ->. eexists. eexists. split; [reflexivity|].
    cbn. repeat split. destruct (path_exists _); reflexivity.
Qed.

Lemma darwin_construction_witness :
  (exists st',
     @Config_init
       (host_loading "/System/Library/Frameworks/GSS.framework/GSS" all_symbols)
       (@DarwinGSSFrameWorkConfig_members
          (host_loading "/System/Library/Frameworks/GSS.framework/GSS"
             all_symbols)
          (with_find_library (fun _ => None) demo_libs))
       (demo_state ∅)
     = (Raised (Exception no_main_lib_message), st'))
  /\ (exists cfg st',
        @Config_init
          (host_loading "/System/Library/Frameworks/GSS.framework/GSS"
             all_symbols)
          (@DarwinGSSFrameWorkConfig_members
             (host_loading "/System/Library/Frameworks/GSS.framework/GSS"
                all_symbols) demo_libs)
          (demo_state ∅) = (Ok cfg, st')
        /\ library_dirs cfg = [] /\ libraries cfg = []
        /\ link_args cfg = ["-framework"; "GSS"]
        /\ gssapi_lib cfg = Some all_symbols
        /\ compile_args cfg
           = ["-framework"; "GSS"; "-DOSX_HAS_GSS_FRAMEWORK";
              "-DHAS_GSSAPI_EXT_H"])
  /\ (exists cfg st',
        @Config_init
          (host_on ∅
             (host_loading "/System/Library/Frameworks/GSS.framework/GSS"
                all_symbols))
          (@DarwinGSSFrameWorkConfig_members
             (host_on ∅
                (host_loading "/System/Library/Frameworks/GSS.framework/GSS"
                   all_symbols)) demo_libs)
          (demo_state ∅) = (Ok cfg, st')
        /\ library_dirs cfg = [] /\ libraries cfg = []
        /\ link_args cfg = ["-framework"; "GSS"]
        /\ gssapi_lib cfg = Some all_symbols
        /\ compile_args cfg
           = ["-framework"; "GSS"; "-DOSX_HAS_GSS_FRAMEWORK"]).
Proof.
  split; [|split].
  - exact (proj1 (darwin_construction
                    (host_loading
                       "/System/Library/Frameworks/GSS.framework/GSS"
                       all_symbols)
                    (with_find_library (fun _ => None) demo_libs)
                    (demo_state ∅) eq_refl eq_refl eq_refl eq_refl)
             eq_refl).
  - exact (proj2 (darwin_construction
                    (host_loading
                       "/System/Library/Frameworks/GSS.framework/GSS"
                       all_symbols)
                    demo_libs (demo_state ∅) eq_refl eq_refl eq_refl eq_refl)
             "/System/Library/Frameworks/GSS.framework/GSS" all_symbols
             eq_refl eq_refl).
  - exact (proj2 (darwin_construction
                    (host_on ∅
                       (host_loading
                          "/System/Library/Frameworks/GSS.framework/GSS"
                          all_symbols))
                    demo_libs (demo_state ∅) eq_refl eq_refl eq_refl eq_refl)
             "/System/Library/Frameworks/GSS.framework/GSS" all_symbols
             eq_refl eq_refl).
Defined.

Section Windows.
Context `{Host} `{HostLibs}.

Lemma keeps_environ_find_krb : keeps_environ WindowsConfig_find_krb.
Proof.
  intros st. unfold WindowsConfig_find_krb, bind, environ_item.
  destruct (os_environ st !! "ProgramFiles") as [pf|]; [|reflexivity].
  destruct (path_exists _); [reflexivity|].
  destruct (shutil_which "kinit"); reflexivity.
Qed.

Lemma WindowsConfig_members_keep_environ (krb_path : string) :
  members_keep_environ (WindowsConfig_members krb_path).
Proof.
  repeat split; cbn; auto with keeps.
  apply keeps_environ_bind; intros; auto with keeps.
Qed.

Lemma prefix_nil (s : string) : String.prefix "" s = true.
Proof. destruct s; reflexivity. Qed.

Lemma dir_token_kinds (d : string) :
  is_dir_token (PyStr.format_s "-L%s" d) = true
  /\ is_lib_token (PyStr.format_s "-L%s" d) = false
  /\ is_other_token (PyStr.format_s "-L%s" d) = false
  /\ PyStr.slice_from 2 (PyStr.format_s "-L%s" d) = d.
Proof.
  unfold is_dir_token, is_lib_token, is_other_token, PyStr.startswith.
  cbn [PyStr.format_s]. rewrite string_app_nil_r, !prefix_cons, prefix_nil.
  repeat split.
Qed.

Lemma lib_token_kinds (l : string) :
  is_dir_token (PyStr.format_s "-l%s" l) = false
  /\ is_lib_token (PyStr.format_s "-l%s" l) = true
  /\ is_other_token (PyStr.format_s "-l%s" l) = false
  /\ PyStr.slice_from 2 (PyStr.format_s "-l%s" l) = l.
Proof.
  unfold is_dir_token, is_lib_token, is_other_token, PyStr.startswith.
  cbn [PyStr.format_s]. rewrite string_app_nil_r, !prefix_cons, prefix_nil.
  repeat split.
Qed.

Lemma lib_tokens_filters (stems : list string) :
  List.filter is_dir_token (map (fun s => PyStr.format_s "-l%s" s) stems) = []
  /\ map (PyStr.slice_from 2)
       (List.filter is_lib_token
          (map (fun s => PyStr.format_s "-l%s" s) stems)) = stems
  /\ List.filter is_other_token
       (map (fun s => PyStr.format_s "-l%s" s) stems) = [].
Proof.
  induction stems as [|s stems (IH1 & IH2 & IH3)]; [repeat split|].
  destruct (lib_token_kinds s) as (Hd & Hl & Ho & Hslice).
  cbn [map List.filter]. rewrite Hd, Hl, Ho. cbn [map].
  rewrite Hslice, IH1, IH2, IH3. repeat split.
Qed.

(** The tokens [WindowsConfig._default_link_args] returns, partitioned. *)
Lemma windows_tokens_partition (libs : string) (stems : list string) :
  partition_link_args
    (PyStr.format_s "-L%s" libs
     :: map (fun s => PyStr.format_s "-l%s" s) stems)
  = {| lp_library_dirs := [libs]; lp_libraries := stems; lp_link_args := [] |}.
Proof.
  unfold partition_link_args. rewrite partition_fold.
  destruct (dir_token_kinds libs) as (Hd & Hl & Ho & Hslice).
  destruct (lib_tokens_filters stems) as (F1 & F2 & F3).
  cbn [lp_library_dirs lp_libraries lp_link_args app List.filter].
  rewrite Hd, Hl, Ho. cbn [map]. rewrite Hslice, F1, F2, F3. reflexivity.
Qed.

End Windows.

(** X20: how the construction of [WindowsConfig] fails before the flags
    are read: with [ProgramFiles] unset it ends in [KeyError], whether or
    not [kinit] could be found; with neither the Kerberos directory under
    Program Files nor [kinit] on the search path it ends in the [OSError]
    of line 188; an exception of [get_msvcr] other than [ValueError] ends
    it too; a [ValueError] of [get_msvcr] does not, and the construction
    goes on as that of the base class with the Windows members. *)
Theorem windows_init_errors (H : Host) (L : HostLibs) (st : PyState) :
  (os_environ st !! "ProgramFiles" = None ->
   WindowsConfig_init st = (Raised (KeyError "ProgramFiles"), st))
  /\ (forall pf,
        os_environ st !! "ProgramFiles" = Some pf ->
        path_exists (os_path_join3 pf "MIT" "Kerberos") = false ->
        shutil_which "kinit" = None ->
        WindowsConfig_init st
        = (Raised (OSError "Failed find MIT kerberos!"), st))
  /\ (forall krb e,
        WindowsConfig_find_krb st = (Ok krb, st) ->
        get_msvcr = Raised e ->
        (forall msg, e <> ValueError msg) ->
        WindowsConfig_init st = (Raised e, st))
  /\ (forall krb msg,
        WindowsConfig_find_krb st = (Ok krb, st) ->
        get_msvcr = Raised (ValueError msg) ->
        WindowsConfig_init st = Config_init (WindowsConfig_members krb) st).
Proof.
  unfold WindowsConfig_init. repeat split.
  - intros Hpf. unfold bind at 1, WindowsConfig_find_krb, bind, environ_item.
    rewrite Hpf. reflexivity.
  - intros pf Hpf Hdir Hkinit.
    unfold bind at 1, WindowsConfig_find_krb, bind, environ_item.
    rewrite Hpf, Hdir, Hkinit. reflexivity.
  - intros krb e Hkrb Hmsvcr Hother. unfold bind at 1. rewrite Hkrb.
    unfold bind, lift. rewrite Hmsvcr. cbn.
    destruct e; try reflexivity. exfalso. eapply Hother. reflexivity.
  - intros krb msg Hkrb Hmsvcr. unfold bind at 1. rewrite Hkrb.
    unfold bind, lift. rewrite Hmsvcr. reflexivity.
Qed.

Lemma windows_init_errors_witness :
  @WindowsConfig_init bare_host demo_libs (demo_state windows_environ)
  = (Raised (OSError "Failed find MIT kerberos!"), demo_state windows_environ).
Proof.
  destruct (windows_init_errors bare_host demo_libs
              (demo_state windows_environ)) as (_ & Hnone & _).
  apply (Hnone "C:\Program Files"); vm_compute; reflexivity.
Defined.

(** The default link flags of [WindowsConfig] and their partition. *)
Lemma windows_link_flags_aux `{Host} `{HostLibs} (krb_path : string)
    (st : PyState) :
  (forall files,
     os_listdir (WindowsConfig_libs krb_path) = Ok files ->
     exists tokens,
       _default_link_args (WindowsConfig_members krb_path) st
       = (Ok (ArgList tokens), st)
       /\ partition_link_args tokens
          = {| lp_library_dirs := [WindowsConfig_libs krb_path];
               lp_libraries := map (fun f => fst (os_path_splitext f)) files;
               lp_link_args := [] |})
  /\ (forall e,
        os_listdir (WindowsConfig_libs krb_path) = Raised e ->
        _default_link_args (WindowsConfig_members krb_path) st = (Raised e, st)).
Proof.
  cbn [_default_link_args WindowsConfig_members]. split.
  - intros files Hfiles. unfold bind, lift. rewrite Hfiles. cbn [ret app].
    eexists. split; [reflexivity|].
    rewrite <- (map_map (fun f => fst (os_path_splitext f))
                  (fun s => PyStr.format_s "-l%s" s)).
    apply windows_tokens_partition.
  - intros e He. unfold bind, lift. rewrite He. reflexivity.
Qed.

(** X21: the default link flags of [WindowsConfig] are one [-L] flag for
    the architecture's directory under [lib] and one [-l] flag per file of
    that directory, without its extension; partitioned, they give that
    directory as the only library directory, the names of the files
    without extension as the libraries, in the order of [os.listdir], and
    no other link argument.  When the directory cannot be listed the
    exception of [os.listdir] is the outcome. *)
Theorem windows_link_flags (H : Host) (L : HostLibs) (krb_path : string)
    (st : PyState) :
  (forall files,
     os_listdir (WindowsConfig_libs krb_path) = Ok files ->
     exists tokens,
       _default_link_args (WindowsConfig_members krb_path) st
       = (Ok (ArgList tokens), st)
       /\ partition_link_args tokens
          = {| lp_library_dirs := [WindowsConfig_libs krb_path];
               lp_libraries := map (fun f => fst (os_path_splitext f)) files;
               lp_link_args := [] |})
  /\ (forall e,
        os_listdir (WindowsConfig_libs krb_path) = Raised e ->
        _default_link_args (WindowsConfig_members krb_path) st = (Raised e, st)).
Proof. apply windows_link_flags_aux. Qed.

Lemma windows_link_flags_witness :
  exists tokens,
    _default_link_args
      (@WindowsConfig_members bare_host demo_libs
         "C:\Program Files\MIT\Kerberos") (demo_state ∅)
    = (Ok (ArgList tokens), demo_state ∅)
    /\ partition_link_args tokens
       = {| lp_library_dirs := ["C:\Program Files\MIT\Kerberos\lib\amd64"];
            lp_libraries := ["comerr64"; "gssapi64"; "krb5_64"];
            lp_link_args := [] |}.
Proof.
  exact (proj1 (windows_link_flags bare_host demo_libs
                  "C:\Program Files\MIT\Kerberos" (demo_state ∅))
           ["comerr64.lib"; "gssapi64.lib"; "krb5_64.lib"] eq_refl).
Defined.

(** X22: [WindowsConfig] with no flag variable set, the gate open,
    [GSSAPI_MAIN_LIB] unset and the library directory listed: when no file
    name starts with [gssapi] the construction ends in the exception of
    lines 81-85; otherwise the library is the file [<name>.dll] under [bin]
    for the first such name without its extension, and when it loads the
    [Config] holds the partition of the default flags, the include
    directory and [-DMS_WIN64] (and the header definition when the header
    exists) as compile arguments, and that library; nothing is printed. *)
Theorem windows_construction (H : Host) (L : HostLibs) (krb_path : string)
    (st : PyState) (files : list string) :
  truthy_opt (os_environ st !! "GSSAPI_LINKER_ARGS") = false ->
  truthy_opt (os_environ st !! "GSSAPI_COMPILER_ARGS") = false ->
  support_detect_enabled (os_environ st) = true ->
  os_environ st !! "GSSAPI_MAIN_LIB" = None ->
  os_listdir (WindowsConfig_libs krb_path) = Ok files ->
  (first_such (PyStr.startswith "gssapi")
     (map (fun f => fst (os_path_splitext f)) files) = None ->
   Config_init (WindowsConfig_members krb_path) st
   = (Raised (Exception no_main_lib_message), st))
  /\ (forall opt lib,
        first_such (PyStr.startswith "gssapi")
          (map (fun f => fst (os_path_splitext f)) files) = Some opt ->
        ctypes_CDLL (os_path_join3 krb_path "bin" (opt +:+ ".dll")) = Ok lib ->
        Config_init (WindowsConfig_members krb_path) st
        = (Ok {| library_dirs := [WindowsConfig_libs krb_path];
                 libraries := map (fun f => fst (os_path_splitext f)) files;
                 link_args := [];
                 compile_args :=
                   ["-I" +:+ os_path_join krb_path "include"; "-DMS_WIN64"]
                   ++ (if path_exists
                            (os_path_join krb_path
                               "include/gssapi/gssapi_ext.h")
                       then ["-DHAS_GSSAPI_EXT_H"] else []);
                 enable_support_detect := true;
                 gssapi_lib := Some lib |},
           st)).
Proof.
  intros Hl Hc Hon Hov Hfiles.
  destruct (proj1 (windows_link_flags_aux krb_path st) files Hfiles)
    as (tokens & Hdl & Hpart).
  assert (Hrun :
    Config_init (WindowsConfig_members krb_path) st
    = after_gate (WindowsConfig_members krb_path) tokens
        (if path_exists (os_path_join krb_path "include/gssapi/gssapi_ext.h")
         then [PyStr.format_s "-I%s" (os_path_join krb_path "include");
               "-DMS_WIN64"] ++ ["-DHAS_GSSAPI_EXT_H"]
         else [PyStr.format_s "-I%s" (os_path_join krb_path "include");
               "-DMS_WIN64"]) st).
  { rewrite Config_init_split. unfold bind at 1.
    rewrite (before_gate_list_defaults _ st tokens
               [PyStr.format_s "-I%s" (os_path_join krb_path "include");
                "-DMS_WIN64"]) by (assumption || reflexivity).
    reflexivity. }
  rewrite Hrun, after_gate_open, Hpart by assumption.
  cbn [lp_library_dirs lp_libraries lp_link_args _gssapi_lib_path
       WindowsConfig_members].
  unfold first_such. rewrite !filter_head_find.
  assert (Hinc : PyStr.format_s "-I%s" (os_path_join krb_path "include")
                 = "-I" +:+ os_path_join krb_path "include").
  { cbn. rewrite string_app_nil_r. reflexivity. }
  split.
  - destruct (List.filter _ _) as [|opt rest]; [reflexivity | discriminate].
  - intros opt lib Hopt Hload.
    destruct (List.filter _ _) as [|opt' rest]; [discriminate|].
    injection Hopt as ->.
    change (PyStr.format_s "%s.dll" opt) with (opt +:+ ".dll").
    cbn [ret]. rewrite Hload, Hinc.
    destruct (path_exists _); reflexivity.
Qed.

Lemma windows_construction_witness :
  @Config_init windows_host
    (@WindowsConfig_members windows_host demo_libs
       "C:\Program Files\MIT\Kerberos") (demo_state ∅)
  = (Ok {| library_dirs := ["C:\Program Files\MIT\Kerberos\lib\amd64"];
           libraries := ["comerr64"; "gssapi64"; "krb5_64"];
           link_args := [];
           compile_args := ["-IC:\Program Files\MIT\Kerberos/include";
                            "-DMS_WIN64"; "-DHAS_GSSAPI_EXT_H"];
           enable_support_detect := true;
           gssapi_lib := Some all_symbols |},
     demo_state ∅).
Proof.
  refine (proj2 (windows_construction windows_host demo_libs
                   "C:\Program Files\MIT\Kerberos" (demo_state ∅)
                   ["comerr64.lib"; "gssapi64.lib"; "krb5_64.lib"] _ _ _ _ _)
            "gssapi64" all_symbols _ _);
    vm_compute; reflexivity.
Defined.

(** ** The script as a whole *)

Section Script.
Context `{Host} `{HostLibs}.

(** The flag a constructed [Config] stores is the gate of the environment
    the construction started in. *)
Lemma Config_init_gate (cls : ConfigMembers) (st st' : PyState) (cfg : Config) :
  members_keep_environ cls ->
  Config_init cls st = (Ok cfg, st') ->
  enable_support_detect cfg = support_detect_enabled (os_environ st).
Proof.
  intros Hk. rewrite Config_init_split. unfold bind.
  pose proof (keeps_environ_before_gate cls Hk st) as Henv.
  destruct (before_gate cls st) as [[[tokens cargs]|e] st1]; [|discriminate].
  cbn in Henv. cbn [fst snd]. intros Hafter.
  apply after_gate_fields in Hafter as (He & _). rewrite Henv in He. exact He.
Qed.

Lemma Darwin_members_keep_environ :
  members_keep_environ DarwinGSSFrameWorkConfig_members.
Proof.
  repeat split; cbn; auto using keeps_environ_Config_prefix with keeps.
Qed.

Lemma make_config_gate (os_name sys_platform mac_ver : string)
    (st st' : PyState) (cfg : Config) :
  make_config os_name sys_platform mac_ver st = (Ok cfg, st') ->
  enable_support_detect cfg = support_detect_enabled (os_environ st).
Proof.
  unfold make_config, bind at 1, environ_get.
  destruct (choose_config_class os_name sys_platform mac_ver) as [[| | |]|e].
  - unfold WindowsConfig_init, bind at 1.
    pose proof (keeps_environ_find_krb st) as Henv.
    destruct (WindowsConfig_find_krb st) as [[krb|e] st1]; [|discriminate].
    cbn in Henv. unfold bind at 1, lift.
    destruct (WindowsConfig_patch_cygwincc get_msvcr); [|discriminate].
    intros Hinit. rewrite <- Henv.
    eapply Config_init_gate; [apply WindowsConfig_members_keep_environ|].
    exact Hinit.
  - apply Config_init_gate, Darwin_members_keep_environ.
  - unfold MSYSConfig_init, bind at 1.
    destruct (Config_init _ st) as [[cfg0|e] st1] eqn:Hinit; [|discriminate].
    intros [= <- <-]. cbn [enable_support_detect].
    eapply Config_init_gate; [apply MSYSConfig_members_keep_environ|].
    exact Hinit.
  - apply Config_init_gate, Config_members_keep_environ.
  - discriminate.
Qed.

End Script.

(** X23: on every platform, when the value of [GSSAPI_SUPPORT_DETECT]
    closes the gate and the script gets as far as a list of extensions,
    that list names every core module and every optional module of
    [setup.py]: with the gate closed the library decides nothing. *)
Theorem script_gate_closed (H : Host) (L : HostLibs)
    (os_name sys_platform mac_ver : string) (st st' : PyState)
    (out : list Extension.t) :
  support_detect_enabled (os_environ st) = false ->
  script_ext_modules os_name sys_platform mac_ver st = (Ok out, st') ->
  (forall c, In c core_modules ->
     In ("gssapi.raw." +:+ c) (map Extension.name out))
  /\ (forall m canary, In (m, canary) optional_modules ->
        In ("gssapi.raw.ext_" +:+ m) (map Extension.name out)).
Proof.
  intros Hoff. unfold script_ext_modules, bind at 1.
  destruct (make_config os_name sys_platform mac_ver st)
    as [[config|e] st1] eqn:Hconfig; [|discriminate].
  apply make_config_gate in Hconfig. rewrite Hoff in Hconfig.
  unfold bind at 1, reset_ENUM_EXTS. unfold bind at 1, lift.
  destruct read_README as [readme|e]; [|discriminate].
  set (st2 := {| os_environ := os_environ st1; ENUM_EXTS := [];
                 stdout := stdout st1 |}).
  intros Hrun. unfold setup_calls in Hrun.
  destruct (ext_modules_outcome config core_modules optional_modules st2)
    as [[Hsrc _] | [_ (s & st3 & Hfail & _)]];
    [|rewrite Hfail in Hrun; discriminate].
  rewrite ext_modules_selection in Hrun by (reflexivity || assumption).
  injection Hrun as <- _. rewrite selection_names. split.
  - intros c Hc. apply in_map, in_app_iff. left. exact Hc.
  - intros m canary Hin. apply in_map with (f := String.app "gssapi.raw.").
    apply in_app_iff. right. apply in_app_iff. left.
    apply in_map with (f := String.app "ext_").
    rewrite supported_modules_off by exact Hconfig.
    apply (in_map fst _ _ Hin).
Qed.

Lemma script_gate_closed_witness :
  exists out st',
    @script_ext_modules full_tree_host demo_libs "posix" "linux" ""
      (demo_state gate_demo_environ) = (Ok out, st')
    /\ (forall c, In c core_modules ->
        In ("gssapi.raw." +:+ c) (map Extension.name out))
    /\ (forall m canary, In (m, canary) optional_modules ->
        In ("gssapi.raw.ext_" +:+ m) (map Extension.name out)).
Proof.
  destruct (@script_ext_modules full_tree_host demo_libs "posix" "linux" ""
              (demo_state gate_demo_environ)) as [[out|e] st'] eqn:Hrun;
    [|vm_compute in Hrun; discriminate Hrun].
  exists out, st'. split; [reflexivity|].
  apply (script_gate_closed full_tree_host demo_libs "posix" "linux" ""
           (demo_state gate_demo_environ) st' out); [|exact Hrun].
  vm_compute. reflexivity.
Defined.

(** ** The distribution class *)

(** X24: when the sources are the C files, or the last command run is
    [clean], the getter of [ext_modules] returns what the setter was given
    and leaves the object as it is, whatever [cythonize] would do. *)
Theorem get_returns_what_was_set (H : Host) (L : HostLibs) (d : Distribution)
    (mods : option (list Extension.t)) :
  SOURCE_EXT <> "pyx"
  \/ dont_cythonize (getattr_or_None (_last_run_command d)) = true ->
  forall f,
    @get_ext_modules H (with_cythonize f L) (set_ext_modules mods d)
    = (Ok mods, set_ext_modules mods d).
Proof.
  intros Hcase f. unfold get_ext_modules.
  destruct (String.eqb_spec SOURCE_EXT "pyx") as [Hpyx|Hc]; cbn [negb].
  - destruct Hcase as [Hne | Hclean]; [contradiction|].
    cbn [set_ext_modules _ext_modules _last_run_command getattr_or_None].
    destruct mods as [mods|]; [|reflexivity].
    rewrite Hclean. reflexivity.
  - reflexivity.
Qed.

Lemma get_returns_what_was_set_witness :
  @get_ext_modules full_tree_host
    (with_cythonize (fun _ => Raised (Exception "not reached")) demo_libs)
    (set_ext_modules (Some []) fresh_distribution)
  = (Ok (Some []), set_ext_modules (Some []) fresh_distribution).
Proof.
  apply (get_returns_what_was_set full_tree_host demo_libs fresh_distribution
           (Some [])).
  left. discriminate.
Defined.

(** X25: when the sources are the [pyx] files and the last command is not
    [clean], the first read after the setter was given a list cythonizes
    that list, whatever was remembered before; when [cythonize] returns,
    its result is remembered and every later read returns it without
    calling [cythonize] again and without changing the object; when
    [cythonize] raises, nothing is remembered. *)
Theorem cythonized_once (H : Host) (L : HostLibs) (d : Distribution)
    (mods : list Extension.t) :
  SOURCE_EXT = "pyx" ->
  dont_cythonize (getattr_or_None (_last_run_command d)) = false ->
  (forall c,
     cythonize mods = Ok c ->
     get_ext_modules (set_ext_modules (Some mods) d)
     = (Ok (Some c), with_cythonized c (set_ext_modules (Some mods) d))
     /\ forall f,
          @get_ext_modules H (with_cythonize f L)
            (with_cythonized c (set_ext_modules (Some mods) d))
          = (Ok (Some c), with_cythonized c (set_ext_modules (Some mods) d)))
  /\ (forall e,
        cythonize mods = Raised e ->
        get_ext_modules (set_ext_modules (Some mods) d)
        = (Raised e, set_ext_modules (Some mods) d)).
Proof.
  intros Hpyx Hcmd. unfold get_ext_modules. rewrite Hpyx.
  cbn [String.eqb negb set_ext_modules with_cythonized _ext_modules
       _cythonized_ext_modules _last_run_command getattr_or_None].
  change (String.eqb "pyx" "pyx") with true. cbn [negb].
  rewrite Hcmd. split.
  - intros c Hc. rewrite Hc. split; reflexivity.
  - intros e He. rewrite He. reflexivity.
Qed.

Lemma cythonized_once_witness :
  @get_ext_modules cython_host cython_libs
    (set_ext_modules (Some demo_pyx_modules)
       (with_cythonized [] fresh_distribution))
  = (Ok (Some (map compiled_module demo_pyx_modules)),
     with_cythonized (map compiled_module demo_pyx_modules)
       (set_ext_modules (Some demo_pyx_modules)
          (with_cythonized [] fresh_distribution)))
  /\ @get_ext_modules cython_host
       (with_cythonize (fun _ => Raised (Exception "not reached")) cython_libs)
       (with_cythonized (map compiled_module demo_pyx_modules)
          (set_ext_modules (Some demo_pyx_modules)
             (with_cythonized [] fresh_distribution)))
     = (Ok (Some (map compiled_module demo_pyx_modules)),
        with_cythonized (map compiled_module demo_pyx_modules)
          (set_ext_modules (Some demo_pyx_modules)
             (with_cythonized [] fresh_distribution)))
  /\ @get_ext_modules cython_host failing_cython_libs
       (set_ext_modules (Some demo_pyx_modules)
          (with_cythonized [] fresh_distribution))
     = (Raised (Exception "Cython.Compiler.Errors.CompileError"),
        set_ext_modules (Some demo_pyx_modules)
          (with_cythonized [] fresh_distribution))
  /\ map Extension.sources demo_pyx_modules
     = [["gssapi/raw/misc.pyx"]; ["gssapi/raw/mech_krb5.pyx"]]
  /\ map Extension.sources (map compiled_module demo_pyx_modules)
     = [["gssapi/raw/misc.c"]; ["gssapi/raw/mech_krb5.c"]].
Proof.
  split; [|split; [|split; [|split]]].
  - exact (proj1 (proj1 (cythonized_once cython_host cython_libs
                           (with_cythonized [] fresh_distribution)
                           demo_pyx_modules eq_refl eq_refl)
                    (map compiled_module demo_pyx_modules) eq_refl)).
  - exact (proj2 (proj1 (cythonized_once cython_host cython_libs
                           (with_cythonized [] fresh_distribution)
                           demo_pyx_modules eq_refl eq_refl)
                    (map compiled_module demo_pyx_modules) eq_refl)
             (fun _ => Raised (Exception "not reached"))).
  - exact (proj2 (cythonized_once cython_host failing_cython_libs
                    (with_cythonized [] fresh_distribution)
                    demo_pyx_modules eq_refl eq_refl)
             (Exception "Cython.Compiler.Errors.CompileError") eq_refl).
  - vm_compute. reflexivity.
  - vm_compute. reflexivity.
Defined.

(** X26: the command [clean] gets the modules as they were set, not the
    compiled ones, even when compiled ones are remembered; it does not
    forget them: after a later command the remembered list is returned
    again, still without a call of [cythonize]. *)
Theorem clean_reads_uncompiled (H : Host) (L : HostLibs) (d : Distribution)
    (mods c : list Extension.t) :
  SOURCE_EXT = "pyx" ->
  _ext_modules d = Bound (Some mods) ->
  _cythonized_ext_modules d = Bound (Some c) ->
  forall f command,
    @get_ext_modules H (with_cythonize f L) (run_command_note "clean" d)
    = (Ok (Some mods), run_command_note "clean" d)
    /\ (dont_cythonize (Some command) = false ->
        @get_ext_modules H (with_cythonize f L)
          (run_command_note command (run_command_note "clean" d))
        = (Ok (Some c),
           run_command_note command (run_command_note "clean" d))).
Proof.
  intros Hpyx Hmods Hc f command. unfold get_ext_modules. rewrite Hpyx.
  change (String.eqb "pyx" "pyx") with true. cbn [negb].
  cbn [run_command_note _ext_modules _cythonized_ext_modules
       _last_run_command getattr_or_None].
  rewrite Hmods, Hc. cbn [getattr_or_None]. split; [reflexivity|].
  intros ->. reflexivity.
Qed.

Lemma clean_reads_uncompiled_witness :
  (@get_ext_modules cython_host
     (with_cythonize (fun _ => Raised (Exception "not reached")) demo_libs)
     (run_command_note "clean"
        (with_cythonized (map compiled_module demo_pyx_modules)
           (set_ext_modules (Some demo_pyx_modules) fresh_distribution)))
   = (Ok (Some demo_pyx_modules),
      run_command_note "clean"
        (with_cythonized (map compiled_module demo_pyx_modules)
           (set_ext_modules (Some demo_pyx_modules) fresh_distribution)))
   /\ @get_ext_modules cython_host
        (with_cythonize (fun _ => Raised (Exception "not reached")) demo_libs)
        (run_command_note "build_ext"
           (run_command_note "clean"
              (with_cythonized (map compiled_module demo_pyx_modules)
                 (set_ext_modules (Some demo_pyx_modules)
                    fresh_distribution))))
      = (Ok (Some (map compiled_module demo_pyx_modules)),
         run_command_note "build_ext"
           (run_command_note "clean"
              (with_cythonized (map compiled_module demo_pyx_modules)
                 (set_ext_modules (Some demo_pyx_modules)
                    fresh_distribution)))))
  /\ map Extension.sources demo_pyx_modules
     = [["gssapi/raw/misc.pyx"]; ["gssapi/raw/mech_krb5.pyx"]]
  /\ map Extension.sources (map compiled_module demo_pyx_modules)
     = [["gssapi/raw/misc.c"]; ["gssapi/raw/mech_krb5.c"]].
Proof.
  split; [|split; vm_compute; reflexivity].
  destruct (clean_reads_uncompiled cython_host demo_libs
              (with_cythonized (map compiled_module demo_pyx_modules)
                 (set_ext_modules (Some demo_pyx_modules) fresh_distribution))
              demo_pyx_modules (map compiled_module demo_pyx_modules)
              eq_refl eq_refl eq_refl
              (fun _ => Raised (Exception "not reached")) "build_ext")
    as [Hclean Hlater].
  split; [exact Hclean | exact (Hlater eq_refl)].
Defined.

(** After the setter the deleter succeeds, and then the getter reads
    [None] and a second [del] fails; on an object whose attributes were
    never bound the deleter fails at once. *)
Lemma delete_after_set (H : Host) (L : HostLibs) (d : Distribution)
    (mods : option (list Extension.t)) :
  fst (del_ext_modules (set_ext_modules mods d)) = true
  /\ get_ext_modules (snd (del_ext_modules (set_ext_modules mods d)))
     = (Ok None, snd (del_ext_modules (set_ext_modules mods d)))
  /\ fst (del_ext_modules (snd (del_ext_modules (set_ext_modules mods d))))
     = false
  /\ del_ext_modules fresh_distribution = (false, fresh_distribution).
Proof.
  repeat split. unfold get_ext_modules. cbn.
  destruct (negb (String.eqb SOURCE_EXT "pyx")); reflexivity.
Qed.

(** ** The packaging command *)

Lemma SOURCE_EXT_on_marked (H : Host) (fs : FileSystem) :
  is_Some (fs !! SKIP_CYTHON_FILE) -> @SOURCE_EXT (host_on fs H) = "c".
Proof.
  intros Hm. unfold SOURCE_EXT, source_format. cbn [path_exists host_on].
  rewrite bool_decide_eq_true_2 by exact Hm. reflexivity.
Qed.

Lemma SOURCE_EXT_on_unmarked (H : Host) (fs : FileSystem) :
  fs !! SKIP_CYTHON_FILE = None ->
  @SOURCE_EXT (host_on fs H)
  = if @cython_importable H then "pyx" else "c".
Proof.
  intros Hm. unfold SOURCE_EXT, source_format.
  cbn [path_exists host_on cython_importable].
  rewrite bool_decide_eq_false_2 by (rewrite Hm; apply is_Some_None).
  destruct (@cython_importable H); reflexivity.
Qed.

(** X27: a dry run of [sdist_gssapi] does nothing, not even the parent's
    command.  Otherwise the parent's command runs in a tree that holds the
    marker file, where the source format is the C files whatever Cython is
    there; when it returns with the marker still there, the marker is gone
    afterwards, also when it was there before the command, and the source
    format is again decided by Cython alone; when it raises, the exception
    is the outcome and the marker is not removed, so that a tree in which
    it was left builds from the C files even with Cython there. *)
Theorem sdist_marker (H : Host)
    (sdist_run : FileSystem -> Res unit * FileSystem) (fs : FileSystem) :
  sdist_gssapi_run true sdist_run fs = (Ok tt, fs)
  /\ @SOURCE_EXT
       (host_on (<[SKIP_CYTHON_FILE := "COMPILE_FROM_C_ONLY"]> fs) H) = "c"
  /\ (forall fs2,
        sdist_run (<[SKIP_CYTHON_FILE := "COMPILE_FROM_C_ONLY"]> fs)
        = (Ok tt, fs2) ->
        is_Some (fs2 !! SKIP_CYTHON_FILE) ->
        exists fs3,
          sdist_gssapi_run false sdist_run fs = (Ok tt, fs3)
          /\ fs3 !! SKIP_CYTHON_FILE = None
          /\ (forall p, p <> SKIP_CYTHON_FILE -> fs3 !! p = fs2 !! p)
          /\ @SOURCE_EXT (host_on fs3 H)
             = if @cython_importable H then "pyx" else "c")
  /\ (forall e fs2,
        sdist_run (<[SKIP_CYTHON_FILE := "COMPILE_FROM_C_ONLY"]> fs)
        = (Raised e, fs2) ->
        sdist_gssapi_run false sdist_run fs = (Raised e, fs2)
        /\ (is_Some (fs2 !! SKIP_CYTHON_FILE) ->
            @SOURCE_EXT (host_on fs2 H) = "c")).
Proof.
  split; [reflexivity|]. split; [|split].
  - apply SOURCE_EXT_on_marked. rewrite lookup_insert_eq. eauto.
  - intros fs2 Hrun [v Hv]. unfold sdist_gssapi_run. cbn [negb].
    rewrite Hrun, Hv. eexists. split; [reflexivity|].
    split; [apply lookup_delete_eq|]. split.
    + intros p Hp. apply lookup_delete_ne. congruence.
    + apply SOURCE_EXT_on_unmarked, lookup_delete_eq.
  - intros e fs2 Hrun. unfold sdist_gssapi_run. cbn [negb]. rewrite Hrun.
    split; [reflexivity|]. apply SOURCE_EXT_on_marked.
Qed.

Lemma sdist_marker_witness :
  (exists fs3,
      sdist_gssapi_run false packaging
        (<[SKIP_CYTHON_FILE := "left over"]> ∅) = (Ok tt, fs3)
      /\ fs3 !! SKIP_CYTHON_FILE = None
      /\ (forall p, p <> SKIP_CYTHON_FILE ->
          fs3 !! p
          = (<["dist/gssapi-1.5.1.tar.gz" := "archive"]>
               (<[SKIP_CYTHON_FILE := "COMPILE_FROM_C_ONLY"]>
                  (<[SKIP_CYTHON_FILE := "left over"]> ∅)) : FileSystem) !! p)
      /\ @SOURCE_EXT (host_on fs3 cython_host) = "pyx")
  /\ @SOURCE_EXT
       (host_on (snd (sdist_gssapi_run false failing_packaging ∅)) cython_host)
     = "c".
Proof.
  pose proof (sdist_marker cython_host packaging
                (<[SKIP_CYTHON_FILE := "left over"]> ∅))
    as (_ & _ & Hok & _).
  pose proof (sdist_marker cython_host failing_packaging ∅)
    as (_ & _ & _ & Hfail).
  split.
  - apply Hok; [reflexivity|]. vm_compute. eauto.
  - destruct (Hfail (OSError "dist")
                (<[SKIP_CYTHON_FILE := "COMPILE_FROM_C_ONLY"]> ∅) eq_refl)
      as [Hrun Hsrc].
    rewrite Hrun. apply Hsrc. vm_compute. eauto.
Defined.

(** ** Bare flags among the linker tokens *)

Lemma bare_prefix_token (a b : ascii) (t : string) :
  String.prefix (String a (String b "")) t = true ->
  PyStr.slice_from 2 t = "" ->
  t = String a (String b "").
Proof.
  destruct t as [|c1 [|c2 r]]; try discriminate; rewrite !prefix_cons.
  - destruct (Ascii.eqb a c1); discriminate.
  - destruct (Ascii.eqb_spec a c1) as [<-|]; [|discriminate].
    destruct (Ascii.eqb_spec b c2) as [<-|]; [|discriminate].
    intros _. cbn. intros ->. reflexivity.
Qed.

(** X28: the empty string is among the library directories exactly when a
    token is the bare flag [-L], and among the libraries exactly when a
    token is the bare flag [-l]: a flag written apart from its value, as in
    [-L /path], leaves an empty entry, and its value goes to the other link
    arguments. *)
Theorem bare_flag_tokens (tokens : list string) :
  (In "" (lp_library_dirs (partition_link_args tokens)) <-> In "-L" tokens)
  /\ (In "" (lp_libraries (partition_link_args tokens)) <-> In "-l" tokens)
  /\ (forall value,
        PyStr.startswith "-L" value = false ->
        PyStr.startswith "-l" value = false ->
        partition_link_args ["-L"; value]
        = {| lp_library_dirs := [""]; lp_libraries := [];
             lp_link_args := [value] |}).
Proof.
  unfold partition_link_args. rewrite partition_fold.
  cbn [lp_library_dirs lp_libraries app]. split; [|split].
  - rewrite in_map_iff. split.
    + intros (t & Hslice & Hin). apply filter_In in Hin as [Hin Hd].
      rewrite <- (bare_prefix_token "-" "L" t Hd Hslice). exact Hin.
    + intros Hin. exists "-L". split; [reflexivity|].
      apply filter_In. split; [exact Hin | reflexivity].
  - rewrite in_map_iff. split.
    + intros (t & Hslice & Hin). apply filter_In in Hin as [Hin Hl].
      rewrite <- (bare_prefix_token "-" "l" t Hl Hslice). exact Hin.
    + intros Hin. exists "-l". split; [reflexivity|].
      apply filter_In. split; [exact Hin | reflexivity].
  - intros value HL Hl. rewrite partition_fold.
    cbn [List.filter lp_library_dirs lp_libraries lp_link_args app].
    unfold is_dir_token, is_lib_token, is_other_token.
    rewrite HL, Hl. reflexivity.
Qed.

Lemma bare_flag_tokens_witness :
  partition_link_args ["-L"; "/opt/krb5/lib"]
  = {| lp_library_dirs := [""]; lp_libraries := [];
       lp_link_args := ["/opt/krb5/lib"] |}.
Proof.
  apply (proj2 (proj2 (bare_flag_tokens []))); reflexivity.
Defined.
